(** * Resource-authorization guards

    A shallow embedding of the two NestJS guards of the repository,

      - [AuthorizationGuard]                          (src/authorization.guard.ts)
      - [EnvironmentAndAuthorizationValidatorV1Guard] (src/unnamed/part_000)

    and the properties their specification states about them, followed by
    three operations of [ExceptionGroupManagementService], which the first
    file also holds.

    The guards are [async] TypeScript methods that throw and catch
    exceptions, call four injected lookup services and write one field of
    the request.  They are modelled in a small state-and-exception monad
    [Js]: the state records the service calls in the order they are issued,
    the errors handed to the classifier [handleError] (which logs them),
    those of the awaited path apart from those of the calls that the code
    starts without awaiting them, the project attached to the request, and
    the rejections of the promises nobody awaits.

    What is taken from outside the two files is a parameter: [validate] of
    the [uuid] package, the bits of [AuthorizationUserRole], whether the
    guard-validation error is an [UnauthorizedException], and the four
    services.  A request is the plain data the guards read from it (three
    headers, one query value, the user's identifier) and what serialising
    it gives, which one debug line of the environment guard evaluates; the
    guards' other log lines, which only format these values, are left out. *)

From Stdlib Require Import String Ascii List ZArith Bool Lia Floats.
Import ListNotations.
Open Scope string_scope.
Open Scope Z_scope.

(** ** Enumerations *)

Module DeletedStatus.
Inductive t := NOT_DELETED | WITH_DELETED | ONLY_DELETED.
End DeletedStatus.

Module FetchDeletedRecordsAccessLevel.
Inductive t := ORGANIZATION | PROJECT | ENVIRONMENT.

Definition eqb (a b : t) : bool :=
  match a, b with
  | ORGANIZATION, ORGANIZATION | PROJECT, PROJECT | ENVIRONMENT, ENVIRONMENT => true
  | _, _ => false
  end.
End FetchDeletedRecordsAccessLevel.

Module GuardValidationExceptionTypes.
(** Only this member of the enum is used by the guards. *)
Inductive t := UNAUTHORIZED_EXCEPTION.
End GuardValidationExceptionTypes.

Module OrganizationType.
(** Modelled from the spec: the enum's declaration is missing; the data
    model gives a tenant type that is normal or restricted, the guards
    name the restricted one [SALESFORCE_ONLY]. *)
Inductive t := NORMAL | SALESFORCE_ONLY.

Definition eqb (a b : t) : bool :=
  match a, b with
  | NORMAL, NORMAL | SALESFORCE_ONLY, SALESFORCE_ONLY => true
  | _, _ => false
  end.
End OrganizationType.

Module ProjectType.
(** Modelled from the spec: the enum's declaration is missing; the data
    model gives a project type that is normal or restricted. *)
Inductive t := NORMAL | SALESFORCE_ONLY.

Definition eqb (a b : t) : bool :=
  match a, b with
  | NORMAL, NORMAL | SALESFORCE_ONLY, SALESFORCE_ONLY => true
  | _, _ => false
  end.
End ProjectType.

Module OrganizationUserRoles.
(** Modelled from the spec: the enum's declaration is missing; the data
    model gives the hierarchy Owner > Manager > Member. *)
Inductive t := OWNER | MANAGER | MEMBER.

Definition eqb (a b : t) : bool :=
  match a, b with
  | OWNER, OWNER | MANAGER, MANAGER | MEMBER, MEMBER => true
  | _, _ => false
  end.
End OrganizationUserRoles.

Module ProjectUserRoles.
(** The two members the guards name. *)
Inductive t := MANAGER | MEMBER.

Definition eqb (a b : t) : bool :=
  match a, b with
  | MANAGER, MANAGER | MEMBER, MEMBER => true
  | _, _ => false
  end.
End ProjectUserRoles.

(** ** JavaScript values *)

(** A header value, [string | undefined]. *)
Definition Header := option string.

(** Truthiness of a header value: [undefined] and the empty string are falsy. *)
Definition truthy (v : Header) : bool :=
  match v with
  | Some s => negb (s =? "")%string
  | None => false
  end.

(** Truthiness of a metadata flag read by [reflector.get<boolean>]; an
    absent decorator gives [undefined]. *)
Definition isTrue (b : option bool) : bool :=
  match b with
  | Some true => true
  | _ => false
  end.

(** A value inside a template literal. *)
Definition show (v : Header) : string :=
  match v with
  | Some s => s
  | None => "undefined"
  end.

(** [ToInt32] of an integral number, and [a & b]. *)
Definition ToInt32 (z : Z) : Z := (z + 2 ^ 31) mod 2 ^ 32 - 2 ^ 31.

Definition bitand (a b : Z) : Z := Z.land (ToInt32 a) (ToInt32 b).

(** ** Exceptions *)

Inductive Exception :=
| BadRequestException (message : option string)
| UnauthorizedException (message : option string)
| GuardValidationFailedException (type : option GuardValidationExceptionTypes.t)
| TypeError (message : string)
| ServiceError (message : string).

(** ** Entities and lookup filters *)

(** The value a filter's [deletedStatus] field holds: a member of the enum,
    or the caller's [deleted-status] query value assigned as it is. *)
Inductive DeletedStatusField :=
| Enum (d : DeletedStatus.t)
| Verbatim (fromFilter : string).

Record OrganizationDTO := { organizationType : OrganizationType.t }.

Record OrganizationMemberDTO := {
  organizationRole : OrganizationUserRoles.t;
  getOrganization : OrganizationDTO
}.

Record ProjectDTO := { projectType : ProjectType.t }.

Record ProjectMemberDTO := { projectRole : ProjectUserRoles.t }.

Record PaginatedData (A : Type) := {
  data : list A;
  totalCount : Z
}.
Arguments data {A} _.
Arguments totalCount {A} _.

Record OrganizationMemberFiltersDTO := {
  omf_organizationId : Header;
  omf_userId : string;
  omf_expandOrganization : bool;
  omf_deletedStatus : DeletedStatusField
}.

Record ProjectMemberFiltersDTO := {
  pmf_projectId : Header;
  pmf_userId : string;
  pmf_deletedStatus : DeletedStatusField
}.

Record EnvironmentExpandFiltersDTO := { eef_deletedStatus : DeletedStatusField }.

(** ** Request, handler metadata, injected services *)

(** What [JSON.stringify(request)] evaluates to: the text, or the
    [TypeError] it throws on a request object with a circular reference,
    as the one an HTTP platform hands to a guard. *)
Inductive Serialisation :=
| Serialised (text : string)
| Circular (message : string).

Record Request := {
  header_organizationId : Header;   (* headers[ApiKeyConstants.ORGANIZATION_ID] *)
  header_projectId : Header;        (* headers[ApiKeyConstants.PROJECT_ID] *)
  header_environmentId : Header;    (* headers[ApiKeyConstants.ENVIRONMENT_ID] *)
  query_deletedStatus : option string;   (* query['deleted-status'] *)
  user_id : string;                 (* user.id *)
  JSON_stringify : Serialisation    (* JSON.stringify(request) *)
}.

(** What [reflector.get(key, context.getHandler())] returns for each key;
    [None] is [undefined], the decorator being absent.  A declared role is
    a truthy value, a declared flag is a boolean. *)
Record Handler := {
  accessRole : option Z;
  FetchDeletedRecords : option bool;
  FetchDeletedRecordsLevel : option FetchDeletedRecordsAccessLevel.t;
  DisableFeatureForSalesforceType : option bool;
  isProjectValidationOptional : option bool;
  projectAccessRole : option ProjectUserRoles.t
}.

Record ExecutionContext := {
  getHandler : Handler;
  getRequest : Request
}.

(** The lookup services; a service fails by throwing.  Every call passes a
    fresh [new PaginationFiltersDTO()], which is left out. *)
Record Services := {
  findAllOrganizationMembers :
    OrganizationMemberFiltersDTO -> Exception + PaginatedData OrganizationMemberDTO;
  findProjectById : Header -> Exception + ProjectDTO;
  findAllProjectMembers :
    ProjectMemberFiltersDTO -> Exception + PaginatedData ProjectMemberDTO;
  (* a result carrying a message, or a falsy value when nothing is found *)
  findEnvironmentId : Header -> Header -> Header -> Exception + option string
}.

Inductive Call :=
| FindAllOrganizationMembers (filters : OrganizationMemberFiltersDTO)
| FindProjectById (projectId : Header)
| FindAllProjectMembers (filters : ProjectMemberFiltersDTO)
| FindEnvironmentId (environmentId projectId organizationId : Header).

(** ** The monad *)

Record State := {
  calls : list Call;              (* service calls, in the order issued *)
  handled : list Exception;       (* errors [handleError] logged on the awaited path *)
  project : option ProjectDTO;    (* [request.project] *)
  unhandled : list Exception;     (* rejections of promises nobody awaits *)
  detached : list Exception       (* errors [handleError] logged inside calls
                                     nobody awaits *)
}.

Definition start : State :=
  {| calls := []; handled := []; project := None; unhandled := []; detached := [] |}.

Definition Js (A : Type) : Type := State -> State * (Exception + A).

Definition ret {A} (a : A) : Js A := fun st => (st, inr a).

Definition throw {A} (e : Exception) : Js A := fun st => (st, inl e).

Definition bind {A B} (m : Js A) (k : A -> Js B) : Js B :=
  fun st =>
    match m st with
    | (st', inr a) => k a st'
    | (st', inl e) => (st', inl e)
    end.

Notation "x <- m ;; k" := (bind m (fun x => k))
  (at level 61, m at next level, right associativity).
Notation "m ;; k" := (bind m (fun _ => k))
  (at level 61, right associativity).

(** [try { m } catch (error) { h error }] *)
Definition tryCatch {A} (m : Js A) (h : Exception -> Js A) : Js A :=
  fun st =>
    match m st with
    | (st', inl e) => h e st'
    | r => r
    end.

(** The three ways a guard changes the state. *)
Definition called (c : Call) (st : State) : State :=
  {| calls := calls st ++ [c]; handled := handled st;
     project := project st; unhandled := unhandled st; detached := detached st |}.

Definition logged (e : Exception) (st : State) : State :=
  {| calls := calls st; handled := handled st ++ [e];
     project := project st; unhandled := unhandled st; detached := detached st |}.

Definition attached (p : ProjectDTO) (st : State) : State :=
  {| calls := calls st; handled := handled st;
     project := Some p; unhandled := unhandled st; detached := detached st |}.

(** [await service.method(args)]: the call is issued, then it returns or throws. *)
Definition invoke {A} (c : Call) (r : Exception + A) : Js A :=
  fun st => (called c st, r).

(** [this.logger.error(... error ...)] inside [handleError]. *)
Definition logError (e : Exception) : Js unit :=
  fun st => (logged e st, inr tt).

(** [context.switchToHttp().getRequest().project = p] *)
Definition attachProject (p : ProjectDTO) : Js unit :=
  fun st => (attached p st, inr tt).

(** A call of an [async] method whose promise is neither awaited nor
    returned.  The method runs up to its first [await] before the caller
    goes on, and the rest whenever the awaited promise settles.  The
    service calls it issues stay in the trace; a rejection is recorded as
    unhandled; the errors it hands to [handleError] are logged, those
    before its first [await] before the caller goes on, and are recorded
    in [detached], apart from the errors of the awaited path. *)
Definition floating {A} (m : Js A) : Js unit :=
  fun st =>
    match m st with
    | (st', r) =>
        ({| calls := calls st'; handled := handled st; project := project st';
            unhandled := unhandled st ++ match r with inl e => [e] | inr _ => [] end;
            detached := detached st ++ skipn (length (handled st)) (handled st') |},
         inr tt)
    end.

(** [xs.data[0].method()]: the first record, on which the method is then
    called; a [TypeError] naming the method when the page is empty. *)
Definition first {A} (method : string) (xs : PaginatedData A) : Js A :=
  match data xs with
  | x :: _ => ret x
  | [] => throw (TypeError ("Cannot read properties of undefined (reading '"
                            ++ method ++ "')"))
  end.

(** [JSON.stringify(request)], evaluated for a debug line. *)
Definition stringify (request : Request) : Js string :=
  match JSON_stringify request with
  | Serialised text => ret text
  | Circular message => throw (TypeError message)
  end.

(** [header.toString()]: a [TypeError] when the header is absent. *)
Definition toString (h : Header) : Js Header :=
  match h with
  | Some s => ret (Some s)
  | None => throw (TypeError "Cannot read properties of undefined (reading 'toString')")
  end.

(** ** The failures the guards raise, under the names of the error taxonomy *)

Definition InvalidIdentifierFormat (which : string) : Exception :=
  BadRequestException (Some ("Invalid " ++ which ++ " id")).

Definition NotOrganizationMember (userId : string) (organizationId : Header) : Exception :=
  BadRequestException
    (Some ("The user with (id)=(" ++ userId ++ ") is not a part of the organization (id)=("
           ++ show organizationId ++ ")")).

Definition TenantFeatureDisabled (userId : string) : Exception :=
  UnauthorizedException
    (Some ("The user (id)=(" ++ userId ++ ") is unauthorized to view this feature")).

Definition NotProjectMember (userId : string) (projectId : Header) : Exception :=
  UnauthorizedException
    (Some ("The user (id)=(" ++ userId ++ ") is not a part of the project (id)=("
           ++ show projectId ++ ")")).

Definition InsufficientRole : Exception := UnauthorizedException None.

Definition ProjectNotFound (projectId : Header) : Exception :=
  BadRequestException (Some ("Not able to find project (id)=(" ++ show projectId ++ ")")).

(** The environment guard raises a bare [UnauthorizedException] when the
    environment lookup finds nothing. *)
Definition EnvironmentNotFound : Exception := UnauthorizedException None.

(** [projectUserRoles] of [validateProject]: [MANAGER], and [MEMBER] as well
    when the required role is [MEMBER]; then [includes]. *)
Definition projectUserRoles (required : ProjectUserRoles.t) : list ProjectUserRoles.t :=
  [ProjectUserRoles.MANAGER]
    ++ (if ProjectUserRoles.eqb required ProjectUserRoles.MEMBER
        then [ProjectUserRoles.MEMBER] else []).

Definition includes (xs : list ProjectUserRoles.t) (x : ProjectUserRoles.t) : bool :=
  existsb (ProjectUserRoles.eqb x) xs.

(** ** [AuthorizationGuard] (src/authorization.guard.ts) *)

Module AuthorizationGuard.
Section Guard.

(** The enum [AuthorizationUserRole], indexed by the name of an
  organization role, gives the role's bit; its declaration is missing. *)
Variable AuthorizationUserRole : OrganizationUserRoles.t -> Z.

(** The services injected by the constructor. *)
Variable services : Services.

Definition handleError {A} (error : Exception) : Js A :=
logError error ;;
throw (GuardValidationFailedException
         (Some GuardValidationExceptionTypes.UNAUTHORIZED_EXCEPTION)).

(** The filters [validateOrganizationMembers] builds before it calls the
  membership service. *)
Definition organizationMemberFilters
  (organizationId : Header) (userId : string)
  (fetchDeletedRecords : option bool) (deletedStatusFromFilter : option string)
  (fetchDeletedRecordsLevel : option FetchDeletedRecordsAccessLevel.t)
  : OrganizationMemberFiltersDTO :=
let deletedStatus :=
  match fetchDeletedRecordsLevel with
  | Some FetchDeletedRecordsAccessLevel.ORGANIZATION =>
      if isTrue fetchDeletedRecords then Enum DeletedStatus.WITH_DELETED
      else match deletedStatusFromFilter with
           | Some v => Verbatim v
           | None => Enum DeletedStatus.NOT_DELETED
           end
  | _ => Enum DeletedStatus.NOT_DELETED
  end in
{| omf_organizationId := organizationId;
   omf_userId := userId;
   omf_expandOrganization := true;
   omf_deletedStatus := deletedStatus |}.

Definition validateOrganizationMembers
  (organizationId : Header) (userId : string)
  (fetchDeletedRecords : option bool) (deletedStatusFromFilter : option string)
  (fetchDeletedRecordsLevel : option FetchDeletedRecordsAccessLevel.t)
  : Js (PaginatedData OrganizationMemberDTO) :=
tryCatch
  (let organizationMemberFilters :=
     organizationMemberFilters organizationId userId fetchDeletedRecords
                               deletedStatusFromFilter fetchDeletedRecordsLevel in
   organizationMembers <-
     invoke (FindAllOrganizationMembers organizationMemberFilters)
            (findAllOrganizationMembers services organizationMemberFilters) ;;
   ret organizationMembers)
  handleError.

Definition getProjectById (projectId : Header) : Js ProjectDTO :=
tryCatch
  (invoke (FindProjectById projectId) (findProjectById services projectId))
  (fun err => throw (ProjectNotFound projectId)).

Definition getProjectMemberFilters
  (projectId : Header) (userId : string)
  (fetchDeletedRecordsLevel : option FetchDeletedRecordsAccessLevel.t)
  (fetchDeletedRecords : option bool) (deletedStatusFromFilter : option string)
  : ProjectMemberFiltersDTO :=
let deletedStatus :=
  match fetchDeletedRecordsLevel with
  | Some FetchDeletedRecordsAccessLevel.PROJECT =>
      if isTrue fetchDeletedRecords then Enum DeletedStatus.ONLY_DELETED
      else match deletedStatusFromFilter with
           | Some v => Verbatim v
           | None => Enum DeletedStatus.NOT_DELETED
           end
  | _ => Enum DeletedStatus.NOT_DELETED
  end in
{| pmf_projectId := projectId; pmf_userId := userId; pmf_deletedStatus := deletedStatus |}.

Definition validateSalesforceType
  (project : ProjectDTO) (projectMember : PaginatedData ProjectMemberDTO)
  (userId : string) (disableFeatureForSalesforceType : option bool) : Js unit :=
tryCatch
  (if (totalCount projectMember =? 1)
      && ProjectType.eqb (projectType project) ProjectType.SALESFORCE_ONLY
      && isTrue disableFeatureForSalesforceType
   then throw (TenantFeatureDisabled userId)
   else ret tt)
  handleError.

Definition validateProject
  (context : ExecutionContext) (projectId : Header) (userId : string)
  (organizationMembers : PaginatedData OrganizationMemberDTO)
  (deletedStatusFromFilter : option string)
  (disableFeatureForSalesforceType : option bool) (isUnAuthorized : bool) : Js unit :=
tryCatch
  (let fetchDeletedRecordsLevel := FetchDeletedRecordsLevel (getHandler context) in
   let fetchDeletedRecords := FetchDeletedRecords (getHandler context) in
   organizationId <- toString (header_organizationId (getRequest context)) ;;
   project <- getProjectById projectId ;;
   let projectMemberFilters :=
     getProjectMemberFilters projectId userId fetchDeletedRecordsLevel
                             fetchDeletedRecords deletedStatusFromFilter in
   attachProject project ;;
   projectMember <-
     invoke (FindAllProjectMembers projectMemberFilters)
            (findAllProjectMembers services projectMemberFilters) ;;
   (* not awaited *)
   floating (validateSalesforceType project projectMember userId
                                    disableFeatureForSalesforceType) ;;
   let projectAccessRole := projectAccessRole (getHandler context) in
   isUnAuthorized <-
     match projectAccessRole with
     | Some required =>
         member <- first "getRole" organizationMembers ;;
         if negb (OrganizationUserRoles.eqb (organizationRole member)
                                            OrganizationUserRoles.OWNER)
         then
           if 0 <? totalCount projectMember then
             projectRecord <- first "getRole" projectMember ;;
             if negb (includes (projectUserRoles required) (projectRole projectRecord))
             then throw InsufficientRole
             else ret false
           else throw (NotProjectMember userId projectId)
         else ret isUnAuthorized
     | None => ret isUnAuthorized
     end ;;
   if isUnAuthorized then throw InsufficientRole else ret tt)
  handleError.

Definition canActivate (context : ExecutionContext) : Js bool :=
tryCatch
  (let accessRole := accessRole (getHandler context) in
   let request := getRequest context in
   let fetchDeletedRecords := FetchDeletedRecords (getHandler context) in
   let disableFeatureForSalesforceType :=
     DisableFeatureForSalesforceType (getHandler context) in
   let deletedStatusFromFilter := query_deletedStatus request in
   let fetchDeletedRecordsLevel := FetchDeletedRecordsLevel (getHandler context) in
   organizationId <- toString (header_organizationId request) ;;
   let userId := user_id request in
   organizationMembers <-
     validateOrganizationMembers organizationId userId fetchDeletedRecords
                                 deletedStatusFromFilter fetchDeletedRecordsLevel ;;
   isUnAuthorized <-
     (if totalCount organizationMembers =? 1 then
        member <- first "getOrganization" organizationMembers ;;
        if OrganizationType.eqb (organizationType (getOrganization member))
                                OrganizationType.SALESFORCE_ONLY
           && isTrue disableFeatureForSalesforceType
        then throw (TenantFeatureDisabled userId)
        else
          (* an absent access role is [undefined], which [&] reads as 0 *)
          if bitand (AuthorizationUserRole (organizationRole member))
                    (match accessRole with Some mask => mask | None => 0 end) =? 0
          then ret true
          else ret false
      else throw (NotOrganizationMember userId organizationId)) ;;
   projectId <- toString (header_projectId request) ;;
   validateProject context projectId userId organizationMembers
                   deletedStatusFromFilter disableFeatureForSalesforceType
                   isUnAuthorized ;;
   ret true)
  handleError.

End Guard.
End AuthorizationGuard.

(** ** [EnvironmentAndAuthorizationValidatorV1Guard] (src/unnamed/part_000) *)

Module EnvironmentAndAuthorizationValidatorV1Guard.
Section Guard.

(** [validate] of the [uuid] package, an external dependency. *)
Variable validate : string -> bool.

(** Whether a [GuardValidationFailedException] is an [instanceof
  UnauthorizedException]; the class's declaration is missing. *)
Variable guardFailureIsUnauthorized : bool.

(** The services injected by the constructor. *)
Variable services : Services.

(** [validate(v)] on a header value; the package answers [false] on a
  value that is not a string. *)
Definition validateHeader (v : Header) : bool :=
match v with
| Some s => validate s
| None => false
end.

(** [error instanceof UnauthorizedException] *)
Definition instanceofUnauthorizedException (error : Exception) : bool :=
match error with
| UnauthorizedException _ => true
| GuardValidationFailedException _ => guardFailureIsUnauthorized
| _ => false
end.

Definition handleError {A} (error : Exception) : Js A :=
logError error ;;
if instanceofUnauthorizedException error
then throw (GuardValidationFailedException
              (Some GuardValidationExceptionTypes.UNAUTHORIZED_EXCEPTION))
else throw (GuardValidationFailedException None).

Definition validateOrganizationId (organizationId : Header) : Js unit :=
tryCatch
  (if negb (truthy organizationId) || negb (validateHeader organizationId)
   then throw (InvalidIdentifierFormat "Organization")
   else ret tt)
  handleError.

(** The filters [validateEnvironmentId] builds in its last lines; it hands
  them to nobody. *)
Definition environmentFilters
  (fetchDeletedRecords : option bool) (deletedStatusFromFilter : option string)
  (fetchDeletedRecordsLevel : option FetchDeletedRecordsAccessLevel.t)
  : EnvironmentExpandFiltersDTO :=
let deletedStatus :=
  match fetchDeletedRecordsLevel with
  | Some FetchDeletedRecordsAccessLevel.ENVIRONMENT =>
      if isTrue fetchDeletedRecords then Enum DeletedStatus.WITH_DELETED
      else match deletedStatusFromFilter with
           | Some v => Verbatim v
           | None => Enum DeletedStatus.NOT_DELETED
           end
  | _ => Enum DeletedStatus.NOT_DELETED
  end in
{| eef_deletedStatus := deletedStatus |}.

Definition validateEnvironmentId
  (environmentId projectId organizationId : Header)
  (fetchDeletedRecords : option bool) (deletedStatusFromFilter : option string)
  (fetchDeletedRecordsLevel : option FetchDeletedRecordsAccessLevel.t) : Js unit :=
tryCatch
  (if negb (truthy environmentId) || negb (validateHeader environmentId)
   then throw (InvalidIdentifierFormat "Environment")
   else
     result <-
       invoke (FindEnvironmentId environmentId projectId organizationId)
              (findEnvironmentId services environmentId projectId organizationId) ;;
     match result with
     | Some message => ret tt
     | None => throw EnvironmentNotFound
     end ;;
     let filters :=
       environmentFilters fetchDeletedRecords deletedStatusFromFilter
                          fetchDeletedRecordsLevel in
     ret tt)
  handleError.

(** The filters [validateOrganizationMembers] builds before it calls the
  membership service. *)
Definition organizationMemberFilters
  (organizationId : Header) (userId : string)
  (fetchDeletedRecords : option bool) (deletedStatusFromFilter : option string)
  (fetchDeletedRecordsLevel : option FetchDeletedRecordsAccessLevel.t)
  : OrganizationMemberFiltersDTO :=
let deletedStatus :=
  match fetchDeletedRecordsLevel with
  | Some FetchDeletedRecordsAccessLevel.ORGANIZATION =>
      if isTrue fetchDeletedRecords then Enum DeletedStatus.WITH_DELETED
      else match deletedStatusFromFilter with
           | Some v => Verbatim v
           | None => Enum DeletedStatus.NOT_DELETED
           end
  | _ => Enum DeletedStatus.NOT_DELETED
  end in
{| omf_organizationId := organizationId;
   omf_userId := userId;
   omf_expandOrganization := true;
   omf_deletedStatus := deletedStatus |}.

Definition validateOrganizationMembers
  (organizationId : Header) (userId : string)
  (fetchDeletedRecords : option bool) (deletedStatusFromFilter : option string)
  (fetchDeletedRecordsLevel : option FetchDeletedRecordsAccessLevel.t)
  (disableFeatureForSalesforceType : option bool)
  : Js (PaginatedData OrganizationMemberDTO) :=
tryCatch
  (let organizationMemberFilters :=
     organizationMemberFilters organizationId userId fetchDeletedRecords
                               deletedStatusFromFilter fetchDeletedRecordsLevel in
   organizationMembers <-
     invoke (FindAllOrganizationMembers organizationMemberFilters)
            (findAllOrganizationMembers services organizationMemberFilters) ;;
   (if totalCount organizationMembers =? 1 then
      member <- first "getOrganization" organizationMembers ;;
      if OrganizationType.eqb (organizationType (getOrganization member))
                              OrganizationType.SALESFORCE_ONLY
         && isTrue disableFeatureForSalesforceType
      then throw (TenantFeatureDisabled userId)
      else ret tt
    else throw (NotOrganizationMember userId organizationId)) ;;
   ret organizationMembers)
  handleError.

Definition getProjectById (projectId : Header) : Js ProjectDTO :=
tryCatch
  (invoke (FindProjectById projectId) (findProjectById services projectId))
  (fun err => throw (ProjectNotFound projectId)).

Definition getProjectMemberFilters
  (projectId : Header) (userId : string)
  (fetchDeletedRecordsLevel : option FetchDeletedRecordsAccessLevel.t)
  (fetchDeletedRecords : option bool) (deletedStatusFromFilter : option string)
  : ProjectMemberFiltersDTO :=
let deletedStatus :=
  match fetchDeletedRecordsLevel with
  | Some FetchDeletedRecordsAccessLevel.PROJECT =>
      if isTrue fetchDeletedRecords then Enum DeletedStatus.ONLY_DELETED
      else match deletedStatusFromFilter with
           | Some v => Verbatim v
           | None => Enum DeletedStatus.NOT_DELETED
           end
  | _ => Enum DeletedStatus.NOT_DELETED
  end in
{| pmf_projectId := projectId; pmf_userId := userId; pmf_deletedStatus := deletedStatus |}.

Definition validateProject
  (context : ExecutionContext) (projectId : Header) (userId : string)
  (organizationMembers : PaginatedData OrganizationMemberDTO)
  (fetchDeletedRecordsLevel : option FetchDeletedRecordsAccessLevel.t)
  (deletedStatusFromFilter : option string)
  (disableFeatureForSalesforceType : option bool) : Js unit :=
tryCatch
  (let fetchDeletedRecords := FetchDeletedRecords (getHandler context) in
   project <- getProjectById projectId ;;
   let projectMemberFilters :=
     getProjectMemberFilters projectId userId fetchDeletedRecordsLevel
                             fetchDeletedRecords deletedStatusFromFilter in
   attachProject project ;;
   projectMember <-
     invoke (FindAllProjectMembers projectMemberFilters)
            (findAllProjectMembers services projectMemberFilters) ;;
   (if (totalCount projectMember =? 1)
       && ProjectType.eqb (projectType project) ProjectType.SALESFORCE_ONLY
       && isTrue disableFeatureForSalesforceType
    then throw (TenantFeatureDisabled userId)
    else ret tt) ;;
   let projectAccessRole := projectAccessRole (getHandler context) in
   match projectAccessRole with
   | Some required =>
       member <- first "getRole" organizationMembers ;;
       if negb (OrganizationUserRoles.eqb (organizationRole member)
                                          OrganizationUserRoles.OWNER)
       then
         if 0 <? totalCount projectMember then
           projectRecord <- first "getRole" projectMember ;;
           if negb (includes (projectUserRoles required) (projectRole projectRecord))
           then throw InsufficientRole
           else ret tt
         else throw (NotProjectMember userId projectId)
       else ret tt
   | None => ret tt
   end)
  handleError.

Definition canActivate (context : ExecutionContext) : Js bool :=
let request := getRequest context in
tryCatch
  (let organizationId := header_organizationId request in
   let projectId := header_projectId request in
   let environmentId := header_environmentId request in
   let fetchDeletedRecords := FetchDeletedRecords (getHandler context) in
   let deletedStatusFromFilter := query_deletedStatus request in
   let fetchDeletedRecordsLevel := FetchDeletedRecordsLevel (getHandler context) in
   (* the debug line serialises the request *)
   stringify request ;;
   let disableFeatureForSalesforceType :=
     DisableFeatureForSalesforceType (getHandler context) in
   validateOrganizationId organizationId ;;
   let isProjectValidationOptional := isProjectValidationOptional (getHandler context) in
   if truthy projectId && negb (validateHeader projectId)
   then throw (InvalidIdentifierFormat "Project")
   else
     if isTrue isProjectValidationOptional && negb (truthy projectId)
     then ret true
     else
       (if truthy projectId
        then
          (* not awaited *)
          floating (validateEnvironmentId environmentId projectId organizationId
                                          fetchDeletedRecords deletedStatusFromFilter
                                          fetchDeletedRecordsLevel)
        else throw (GuardValidationFailedException None)) ;;
       let userId := user_id request in
       organizationMembers <-
         validateOrganizationMembers organizationId userId fetchDeletedRecords
                                     deletedStatusFromFilter fetchDeletedRecordsLevel
                                     disableFeatureForSalesforceType ;;
       validateProject context projectId userId organizationMembers
                       fetchDeletedRecordsLevel deletedStatusFromFilter
                       disableFeatureForSalesforceType ;;
       ret true)
  handleError.

End Guard.
End EnvironmentAndAuthorizationValidatorV1Guard.

(** ** Concrete instances of the missing declarations *)

Module Uuid.
(** The pattern [validate] of the [uuid] package (8.3, 9) tests, without
    regard to case:
    [[0-9a-f]{8}-[0-9a-f]{4}-[1-5][0-9a-f]{3}-[89ab][0-9a-f]{3}-[0-9a-f]{12}],
    or the nil identifier. *)
Inductive Class := Hex | Dash | Version | Variant.

Definition between (lo hi : string) (c : ascii) : bool :=
  match lo, hi with
  | String l EmptyString, String h EmptyString =>
      (nat_of_ascii l <=? nat_of_ascii c)%nat && (nat_of_ascii c <=? nat_of_ascii h)%nat
  | _, _ => false
  end.

Definition inClass (k : Class) (c : ascii) : bool :=
  match k with
  | Hex => between "0" "9" c || between "a" "f" c || between "A" "F" c
  | Dash => Ascii.eqb c "-"
  | Version => between "1" "5" c
  | Variant => between "8" "9" c || between "a" "b" c || between "A" "B" c
  end.

Definition pattern : list Class :=
  repeat Hex 8 ++ [Dash] ++ repeat Hex 4 ++ [Dash]
    ++ [Version] ++ repeat Hex 3 ++ [Dash]
    ++ [Variant] ++ repeat Hex 3 ++ [Dash] ++ repeat Hex 12.

Fixpoint matches (p : list Class) (s : string) : bool :=
  match p, s with
  | [], EmptyString => true
  | k :: p', String c s' => inClass k c && matches p' s'
  | _, _ => false
  end.

Definition validate (s : string) : bool :=
  matches pattern s || (s =? "00000000-0000-0000-0000-000000000000")%string.
End Uuid.

Module AuthorizationUserRole.
(** Modelled from the spec: the enum's declaration is missing; roles are
    powers of two in ascending order of privilege. *)
Definition bit (role : OrganizationUserRoles.t) : Z :=
  match role with
  | OrganizationUserRoles.MEMBER => 1
  | OrganizationUserRoles.MANAGER => 2
  | OrganizationUserRoles.OWNER => 4
  end.
End AuthorizationUserRole.

Module MethodAccessRole.
(** Modelled from the spec: the enum's declaration is missing; a required
    role is a mask, and the Owner bit satisfies every mask. *)
Definition OWNER : Z := 4.
Definition MANAGER : Z := 6.
Definition MEMBER : Z := 7.
End MethodAccessRole.

(** A small world for the examples: one organization, one project, one
    environment, and a caller whose memberships are given. *)
Module Example.
Definition organizationId : string := "0b9f6c1e-3a52-4c7d-9e1f-5a2b8c4d6e7f".
Definition projectId : string := "6f1d2c3b-4a59-4e8f-8b7a-1c2d3e4f5a6b".
Definition environmentId : string := "9a8b7c6d-5e4f-4a3b-a2c1-0f9e8d7c6b5a".
Definition userId : string := "user-1".

Definition member (role : OrganizationUserRoles.t) (type : OrganizationType.t)
    : PaginatedData OrganizationMemberDTO :=
  {| data := [{| organizationRole := role;
                 getOrganization := {| organizationType := type |} |}];
     totalCount := 1 |}.

Definition nobody {A} : PaginatedData A := {| data := []; totalCount := 0 |}.

Definition projectMember (role : ProjectUserRoles.t) : PaginatedData ProjectMemberDTO :=
  {| data := [{| projectRole := role |}]; totalCount := 1 |}.

Definition services
    (organizationMembers : PaginatedData OrganizationMemberDTO)
    (type : ProjectType.t)
    (projectMembers : PaginatedData ProjectMemberDTO)
    (environment : option string) : Services :=
  {| findAllOrganizationMembers := fun _ => inr organizationMembers;
     findProjectById := fun _ => inr {| projectType := type |};
     findAllProjectMembers := fun _ => inr projectMembers;
     findEnvironmentId := fun _ _ _ => inr environment |}.

Definition request (organization project environment : Header) : Request :=
  {| header_organizationId := organization;
     header_projectId := project;
     header_environmentId := environment;
     query_deletedStatus := None;
     user_id := userId;
     JSON_stringify := Serialised "{}" |}.

(** A request that carries the three identifiers. *)
Definition identified : Request :=
  request (Some organizationId) (Some projectId) (Some environmentId).

Definition context (handler : Handler) (r : Request) : ExecutionContext :=
  {| getHandler := handler; getRequest := r |}.

(** A handler that declares a required organization role, the tenant
    gate, the project-optional flag and a required project role, each
    possibly absent, and no deleted-record visibility. *)
Definition handler (access : option Z) (gate optional : option bool)
    (required : option ProjectUserRoles.t) : Handler :=
  {| accessRole := access; FetchDeletedRecords := None; FetchDeletedRecordsLevel := None;
     DisableFeatureForSalesforceType := gate; isProjectValidationOptional := optional;
     projectAccessRole := required |}.

(** A handler with no decorator. *)
Definition plain : Handler := handler None None None None.
End Example.

Module EnvGuard := EnvironmentAndAuthorizationValidatorV1Guard.

(** ** Decisions *)

(** A request is denied when the guard throws its guard-validation error;
    it is denied with a given cause when that cause is the first error the
    classifier was handed on the awaited path, the failure that the
    guard's own error replaces. *)
Definition denied {A} (r : State * (Exception + A)) : Prop :=
  exists type, snd r = inl (GuardValidationFailedException type).

Definition deniedWith {A} (cause : Exception) (r : State * (Exception + A)) : Prop :=
  hd_error (handled (fst r)) = Some cause /\ denied r.

Definition allowed (r : State * (Exception + bool)) : Prop := snd r = inr true.

(** A request the environment guard can serialise for its debug line. *)
Definition serialisable (request : Request) : Prop :=
  exists text, JSON_stringify request = Serialised text.

(** An identifier the environment guard accepts: present, not empty, and a
    valid token. *)
Definition wellFormed (validate : string -> bool) (v : Header) : bool :=
  truthy v && EnvGuard.validateHeader validate v.

(** The tenant gate at the organization tier and at the project tier. *)
Definition organizationGate (member : OrganizationMemberDTO) (disable : option bool) : bool :=
  OrganizationType.eqb (organizationType (getOrganization member))
                       OrganizationType.SALESFORCE_ONLY
  && isTrue disable.

Definition projectGate (p : ProjectDTO) (members : PaginatedData ProjectMemberDTO)
    (disable : option bool) : bool :=
  (totalCount members =? 1)
  && ProjectType.eqb (projectType p) ProjectType.SALESFORCE_ONLY
  && isTrue disable.

(** ** The monad's equations *)

(** Take the branch an equation selects. *)
Ltac case_ H :=
  cbv beta iota delta [bind ret first];
  rewrite H;
  cbv beta iota delta [bind ret first].

Lemma bind_ok {A B} (m : Js A) (k : A -> Js B) st st' a :
  m st = (st', inr a) -> bind m k st = k a st'.
Proof. intros E. unfold bind. now rewrite E. Qed.

Lemma bind_ret {A B} (a : A) (k : A -> Js B) : bind (ret a) k = k a.
Proof. reflexivity. Qed.

Lemma bind_fail {A B} (m : Js A) (k : A -> Js B) st st' e :
  m st = (st', inl e) -> bind m k st = (st', inl e).
Proof. intros E. unfold bind. now rewrite E. Qed.

Lemma tryCatch_ok {A} (m : Js A) h st st' a :
  m st = (st', inr a) -> tryCatch m h st = (st', inr a).
Proof. intros E. unfold tryCatch. now rewrite E. Qed.

Lemma tryCatch_fail {A} (m : Js A) h st st' e :
  m st = (st', inl e) -> tryCatch m h st = h e st'.
Proof. intros E. unfold tryCatch. now rewrite E. Qed.

Lemma floating_returns {A} (m : Js A) st :
  floating m st
  = ({| calls := calls (fst (m st)); handled := handled st;
        project := project (fst (m st));
        unhandled := unhandled st
                       ++ match snd (m st) with inl e => [e] | inr _ => [] end;
        detached := detached st
                      ++ skipn (length (handled st)) (handled (fst (m st))) |},
     inr tt).
Proof. unfold floating. now destruct (m st). Qed.

(** Whatever a guard's [try] block does, the guard returns or throws the
    guard-validation error. *)
Lemma authorization_handleError_throws {A} (error : Exception) st :
  AuthorizationGuard.handleError (A := A) error st
  = (logged error st,
     inl (GuardValidationFailedException
            (Some GuardValidationExceptionTypes.UNAUTHORIZED_EXCEPTION))).
Proof. reflexivity. Qed.

Lemma environment_handleError_throws {A} unauthorized (error : Exception) st :
  EnvGuard.handleError unauthorized (A := A) error st
  = (logged error st,
     inl (GuardValidationFailedException
            (if EnvGuard.instanceofUnauthorizedException unauthorized error
             then Some GuardValidationExceptionTypes.UNAUTHORIZED_EXCEPTION
             else None))).
Proof.
  unfold EnvGuard.handleError, bind, logError, throw.
  now destruct (EnvGuard.instanceofUnauthorizedException unauthorized error).
Qed.

(** ** The stages of the environment guard *)

Section EnvironmentGuardStages.

Variable validate : string -> bool.
Variable unauthorized : bool.
Variable services : Services.

Let untagged : Exception := GuardValidationFailedException None.
Let tagged : Exception :=
  GuardValidationFailedException (Some GuardValidationExceptionTypes.UNAUTHORIZED_EXCEPTION).

Lemma validateOrganizationId_ok organizationId st :
  wellFormed validate organizationId = true ->
  EnvGuard.validateOrganizationId validate unauthorized organizationId st = (st, inr tt).
Proof.
  unfold wellFormed. intros [Ht Hv]%andb_true_iff.
  unfold EnvGuard.validateOrganizationId, tryCatch.
  now rewrite Ht, Hv.
Qed.

Lemma validateOrganizationId_fail organizationId st :
  wellFormed validate organizationId = false ->
  EnvGuard.validateOrganizationId validate unauthorized organizationId st
  = (logged (InvalidIdentifierFormat "Organization") st, inl untagged).
Proof.
  unfold wellFormed. intros H.
  unfold EnvGuard.validateOrganizationId, tryCatch.
  replace (negb (truthy organizationId)
           || negb (EnvGuard.validateHeader validate organizationId)) with true.
  - reflexivity.
  - rewrite <- negb_andb, H. reflexivity.
Qed.

Lemma validateEnvironmentId_malformed
    environmentId projectId organizationId fetch fromFilter level st :
  wellFormed validate environmentId = false ->
  EnvGuard.validateEnvironmentId validate unauthorized services
    environmentId projectId organizationId fetch fromFilter level st
  = (logged (InvalidIdentifierFormat "Environment") st, inl untagged).
Proof.
  unfold wellFormed. intros H.
  unfold EnvGuard.validateEnvironmentId, tryCatch.
  replace (negb (truthy environmentId)
           || negb (EnvGuard.validateHeader validate environmentId)) with true.
  - reflexivity.
  - rewrite <- negb_andb, H. reflexivity.
Qed.

Section OrganizationMembers.

Variables (organizationId : Header) (userId : string).
Variables (fetch : option bool) (fromFilter : option string).
Variable level : option FetchDeletedRecordsAccessLevel.t.
Variable disable : option bool.
Variable members : PaginatedData OrganizationMemberDTO.

Let filters :=
  EnvGuard.organizationMemberFilters organizationId userId fetch fromFilter level.

Hypothesis lookup : findAllOrganizationMembers services filters = inr members.

Lemma validateOrganizationMembers_not_member st :
  totalCount members <> 1 ->
  EnvGuard.validateOrganizationMembers unauthorized services
    organizationId userId fetch fromFilter level disable st
  = (logged (NotOrganizationMember userId organizationId)
       (called (FindAllOrganizationMembers filters) st),
     inl untagged).
Proof.
  intros Hcount%Z.eqb_neq.
  unfold EnvGuard.validateOrganizationMembers, tryCatch, bind, invoke.
  fold filters. now rewrite lookup, Hcount.
Qed.

Lemma validateOrganizationMembers_gated member rest st :
  totalCount members = 1 ->
  data members = member :: rest ->
  organizationGate member disable = true ->
  EnvGuard.validateOrganizationMembers unauthorized services
    organizationId userId fetch fromFilter level disable st
  = (logged (TenantFeatureDisabled userId)
       (called (FindAllOrganizationMembers filters) st),
     inl tagged).
Proof.
  intros Hcount Hdata Hgate. unfold organizationGate in Hgate.
  unfold EnvGuard.validateOrganizationMembers, tryCatch, bind, invoke, first.
  fold filters. rewrite lookup, Hcount, Hdata. cbv beta iota delta [Z.eqb Pos.eqb ret].
  now rewrite Hgate.
Qed.

Lemma validateOrganizationMembers_ok member rest st :
  totalCount members = 1 ->
  data members = member :: rest ->
  organizationGate member disable = false ->
  EnvGuard.validateOrganizationMembers unauthorized services
    organizationId userId fetch fromFilter level disable st
  = (called (FindAllOrganizationMembers filters) st, inr members).
Proof.
  intros Hcount Hdata Hgate. unfold organizationGate in Hgate.
  unfold EnvGuard.validateOrganizationMembers, tryCatch, bind, invoke, first.
  fold filters. rewrite lookup, Hcount, Hdata. cbv beta iota delta [Z.eqb Pos.eqb ret].
  now rewrite Hgate.
Qed.

End OrganizationMembers.

Section Project.

Variable context : ExecutionContext.
Variables (projectId : Header) (userId : string).
Variable organizationMembers : PaginatedData OrganizationMemberDTO.
Variable level : option FetchDeletedRecordsAccessLevel.t.
Variable fromFilter : option string.
Variable disable : option bool.
Variable p : ProjectDTO.
Variable members : PaginatedData ProjectMemberDTO.

Let filters :=
  EnvGuard.getProjectMemberFilters projectId userId level
    (FetchDeletedRecords (getHandler context)) fromFilter.

Hypothesis resolves : findProjectById services projectId = inr p.
Hypothesis lookup : findAllProjectMembers services filters = inr members.

(** The state once the project and the caller's memberships are fetched. *)
Let fetched (st : State) : State :=
  called (FindAllProjectMembers filters) (attached p (called (FindProjectById projectId) st)).

Let run :=
  EnvGuard.validateProject unauthorized services context projectId userId
    organizationMembers level fromFilter disable.

Ltac fetch :=
  unfold run, EnvGuard.validateProject, EnvGuard.getProjectById,
    tryCatch, bind, invoke, attachProject;
  fold filters; rewrite resolves, lookup; fold (fetched).

Lemma validateProject_gated st :
  projectGate p members disable = true ->
  run st = (logged (TenantFeatureDisabled userId) (fetched st), inl tagged).
Proof.
  unfold projectGate. intros Hgate. fetch. now rewrite Hgate.
Qed.

Lemma validateProject_no_role st :
  projectGate p members disable = false ->
  projectAccessRole (getHandler context) = None ->
  run st = (fetched st, inr tt).
Proof.
  unfold projectGate. intros Hgate Hrole. fetch. now rewrite Hgate, Hrole.
Qed.

Lemma validateProject_owner required member rest st :
  projectGate p members disable = false ->
  projectAccessRole (getHandler context) = Some required ->
  data organizationMembers = member :: rest ->
  organizationRole member = OrganizationUserRoles.OWNER ->
  run st = (fetched st, inr tt).
Proof.
  unfold projectGate. intros Hgate Hrole Hdata Howner. fetch.
  case_ Hgate. case_ Hrole. case_ Hdata. now case_ Howner.
Qed.

Lemma validateProject_not_member required member rest st :
  projectGate p members disable = false ->
  projectAccessRole (getHandler context) = Some required ->
  data organizationMembers = member :: rest ->
  organizationRole member <> OrganizationUserRoles.OWNER ->
  totalCount members <= 0 ->
  run st = (logged (NotProjectMember userId projectId) (fetched st), inl tagged).
Proof.
  unfold projectGate. intros Hgate Hrole Hdata Howner Hcount%Z.ltb_ge. fetch.
  case_ Hgate. case_ Hrole. case_ Hdata. case_ Hcount.
  now destruct (organizationRole member).
Qed.

Lemma validateProject_role required member rest record others st :
  projectGate p members disable = false ->
  projectAccessRole (getHandler context) = Some required ->
  data organizationMembers = member :: rest ->
  organizationRole member <> OrganizationUserRoles.OWNER ->
  0 < totalCount members ->
  data members = record :: others ->
  run st
  = if includes (projectUserRoles required) (projectRole record)
    then (fetched st, inr tt)
    else (logged InsufficientRole (fetched st), inl tagged).
Proof.
  unfold projectGate. intros Hgate Hrole Hdata Howner Hcount%Z.ltb_lt Hrecord. fetch.
  case_ Hgate. case_ Hrole. case_ Hdata. case_ Hcount. case_ Hrecord.
  destruct (organizationRole member); try congruence;
    now destruct (includes _ _).
Qed.

End Project.

(** The debug line comes first: a request that cannot be serialised is
    denied on the [TypeError] that [JSON.stringify] throws, before any
    check. *)
Lemma canActivate_unserialisable context message :
  JSON_stringify (getRequest context) = Circular message ->
  EnvGuard.canActivate validate unauthorized services context start
  = EnvGuard.handleError unauthorized (TypeError message) start.
Proof.
  intros Hthrows. unfold EnvGuard.canActivate, stringify, tryCatch, bind.
  now rewrite Hthrows.
Qed.

(** The state in which the environment guard looks the caller up: the
    environment validation has been started and is not awaited. *)
Definition environmentStarted (context : ExecutionContext) : State :=
  fst (floating
         (EnvGuard.validateEnvironmentId validate unauthorized services
            (header_environmentId (getRequest context))
            (header_projectId (getRequest context))
            (header_organizationId (getRequest context))
            (FetchDeletedRecords (getHandler context))
            (query_deletedStatus (getRequest context))
            (FetchDeletedRecordsLevel (getHandler context)))
         start).

Lemma environmentStarted_handled context :
  handled (environmentStarted context) = [].
Proof. unfold environmentStarted. now rewrite floating_returns. Qed.

(** With a request it can serialise and well-formed organization and
    project identifiers the guard reaches the membership checks. *)
Lemma canActivate_identified context :
  serialisable (getRequest context) ->
  wellFormed validate (header_organizationId (getRequest context)) = true ->
  wellFormed validate (header_projectId (getRequest context)) = true ->
  EnvGuard.canActivate validate unauthorized services context start
  = tryCatch
      (organizationMembers <-
         EnvGuard.validateOrganizationMembers unauthorized services
           (header_organizationId (getRequest context))
           (user_id (getRequest context))
           (FetchDeletedRecords (getHandler context))
           (query_deletedStatus (getRequest context))
           (FetchDeletedRecordsLevel (getHandler context))
           (DisableFeatureForSalesforceType (getHandler context)) ;;
       EnvGuard.validateProject unauthorized services context
         (header_projectId (getRequest context))
         (user_id (getRequest context))
         organizationMembers
         (FetchDeletedRecordsLevel (getHandler context))
         (query_deletedStatus (getRequest context))
         (DisableFeatureForSalesforceType (getHandler context)) ;;
       ret true)
      (EnvGuard.handleError unauthorized)
      (environmentStarted context).
Proof.
  intros [text Htext] Horg Hproj.
  unfold EnvGuard.canActivate, environmentStarted, tryCatch, stringify.
  rewrite Htext. rewrite (bind_ok _ _ _ _ _ (eq_refl : ret text start = (start, inr text))).
  rewrite (bind_ok _ _ _ _ _ (validateOrganizationId_ok _ _ Horg)).
  unfold wellFormed in Hproj. apply andb_true_iff in Hproj as [Ht Hv].
  rewrite Ht, Hv. cbn [negb andb]. rewrite andb_false_r. cbv beta iota.
  rewrite (bind_ok _ _ _ _ _ (floating_returns _ _)).
  rewrite floating_returns. reflexivity.
Qed.

End EnvironmentGuardStages.

(** ** The stages of the authorization guard *)

(** The flag [isUnAuthorized] as [canActivate] sets it: the member's bit
    and the required mask have no bit in common. *)
Definition insufficientOrganizationRole
    (AuthorizationUserRole : OrganizationUserRoles.t -> Z)
    (member : OrganizationMemberDTO) (accessRole : option Z) : bool :=
  bitand (AuthorizationUserRole (organizationRole member))
         (match accessRole with Some mask => mask | None => 0 end) =? 0.

Section AuthorizationGuardStages.

Variable AuthorizationUserRole : OrganizationUserRoles.t -> Z.
Variable services : Services.

Let tagged : Exception :=
  GuardValidationFailedException (Some GuardValidationExceptionTypes.UNAUTHORIZED_EXCEPTION).

Section Project.

Variable context : ExecutionContext.
Variables (organizationId : string) (projectId : Header) (userId : string).
Variable organizationMembers : PaginatedData OrganizationMemberDTO.
Variable fromFilter : option string.
Variable disable : option bool.
Variable p : ProjectDTO.
Variable members : PaginatedData ProjectMemberDTO.

Let filters :=
  AuthorizationGuard.getProjectMemberFilters projectId userId
    (FetchDeletedRecordsLevel (getHandler context))
    (FetchDeletedRecords (getHandler context)) fromFilter.

Hypothesis identified :
  header_organizationId (getRequest context) = Some organizationId.
Hypothesis resolves : findProjectById services projectId = inr p.
Hypothesis lookup : findAllProjectMembers services filters = inr members.

(** The state once the project and the caller's memberships are fetched
    and the check of the project's type is started, not awaited. *)
Definition projectFetched (st : State) : State :=
  fst (floating
         (AuthorizationGuard.validateSalesforceType p members userId disable)
         (called (FindAllProjectMembers filters)
            (attached p (called (FindProjectById projectId) st)))).

Lemma projectFetched_handled st : handled (projectFetched st) = handled st.
Proof. unfold projectFetched. now rewrite floating_returns. Qed.

Let run :=
  AuthorizationGuard.validateProject services context projectId userId
    organizationMembers fromFilter disable.

(** What is left once no project role stands in the way: the flag the
    organization check left. *)
Let settle (isUnAuthorized : bool) (st : State) : State * (Exception + unit) :=
  if isUnAuthorized
  then (logged InsufficientRole (projectFetched st), inl tagged)
  else (projectFetched st, inr tt).

Ltac fetch :=
  unfold run, AuthorizationGuard.validateProject, AuthorizationGuard.getProjectById,
    tryCatch, bind, invoke, attachProject, toString;
  fold filters; rewrite identified; cbv beta iota delta [ret];
  rewrite resolves, lookup, floating_returns;
  unfold settle, projectFetched; rewrite floating_returns; cbn [fst].

Lemma authorization_validateProject_no_role isUnAuthorized st :
  projectAccessRole (getHandler context) = None ->
  run isUnAuthorized st = settle isUnAuthorized st.
Proof.
  intros Hrole. fetch. case_ Hrole. now destruct isUnAuthorized.
Qed.

Lemma authorization_validateProject_owner required member rest isUnAuthorized st :
  projectAccessRole (getHandler context) = Some required ->
  data organizationMembers = member :: rest ->
  organizationRole member = OrganizationUserRoles.OWNER ->
  run isUnAuthorized st = settle isUnAuthorized st.
Proof.
  intros Hrole Hdata Howner. fetch.
  case_ Hrole. case_ Hdata. case_ Howner. now destruct isUnAuthorized.
Qed.

Lemma authorization_validateProject_not_member
    required member rest isUnAuthorized st :
  projectAccessRole (getHandler context) = Some required ->
  data organizationMembers = member :: rest ->
  organizationRole member <> OrganizationUserRoles.OWNER ->
  totalCount members <= 0 ->
  run isUnAuthorized st
  = (logged (NotProjectMember userId projectId) (projectFetched st), inl tagged).
Proof.
  intros Hrole Hdata Howner Hcount%Z.ltb_ge. fetch.
  case_ Hrole. case_ Hdata. case_ Hcount.
  now destruct (organizationRole member).
Qed.

Lemma authorization_validateProject_role
    required member rest record others isUnAuthorized st :
  projectAccessRole (getHandler context) = Some required ->
  data organizationMembers = member :: rest ->
  organizationRole member <> OrganizationUserRoles.OWNER ->
  0 < totalCount members ->
  data members = record :: others ->
  run isUnAuthorized st
  = if includes (projectUserRoles required) (projectRole record)
    then (projectFetched st, inr tt)
    else (logged InsufficientRole (projectFetched st), inl tagged).
Proof.
  intros Hrole Hdata Howner Hcount%Z.ltb_lt Hrecord. fetch.
  case_ Hrole. case_ Hdata. case_ Hcount. case_ Hrecord.
  destruct (organizationRole member); try congruence;
    now destruct (includes _ _).
Qed.

End Project.

Section Organization.

Variable context : ExecutionContext.
Variable organizationId : string.
Variable members : PaginatedData OrganizationMemberDTO.

Let filters :=
  AuthorizationGuard.organizationMemberFilters (Some organizationId)
    (user_id (getRequest context))
    (FetchDeletedRecords (getHandler context))
    (query_deletedStatus (getRequest context))
    (FetchDeletedRecordsLevel (getHandler context)).

Hypothesis identified :
  header_organizationId (getRequest context) = Some organizationId.
Hypothesis lookup : findAllOrganizationMembers services filters = inr members.

Let run := AuthorizationGuard.canActivate AuthorizationUserRole services context start.

Ltac look_up :=
  unfold run, AuthorizationGuard.canActivate, tryCatch at 1, bind at 1, toString;
  rewrite identified; cbv beta iota delta [ret];
  unfold bind at 1, AuthorizationGuard.validateOrganizationMembers,
    tryCatch at 1, bind at 1, invoke;
  fold filters; rewrite lookup; cbv beta iota delta [ret].

Lemma authorization_canActivate_not_member :
  totalCount members <> 1 ->
  run
  = (logged (NotOrganizationMember (user_id (getRequest context)) (Some organizationId))
       (called (FindAllOrganizationMembers filters) start),
     inl tagged).
Proof.
  intros Hcount%Z.eqb_neq. look_up.
  unfold bind at 1. now rewrite Hcount.
Qed.

Lemma authorization_canActivate_gated member rest :
  totalCount members = 1 ->
  data members = member :: rest ->
  organizationGate member (DisableFeatureForSalesforceType (getHandler context)) = true ->
  run
  = (logged (TenantFeatureDisabled (user_id (getRequest context)))
       (called (FindAllOrganizationMembers filters) start),
     inl tagged).
Proof.
  unfold organizationGate. intros Hcount Hdata Hgate. look_up.
  unfold bind at 1. rewrite Hcount. cbn [Z.eqb Pos.eqb].
  case_ Hdata. now rewrite Hgate.
Qed.

Lemma authorization_canActivate_member member rest projectId :
  totalCount members = 1 ->
  data members = member :: rest ->
  organizationGate member (DisableFeatureForSalesforceType (getHandler context)) = false ->
  header_projectId (getRequest context) = Some projectId ->
  run
  = tryCatch
      (AuthorizationGuard.validateProject services context (Some projectId)
         (user_id (getRequest context)) members
         (query_deletedStatus (getRequest context))
         (DisableFeatureForSalesforceType (getHandler context))
         (insufficientOrganizationRole AuthorizationUserRole member
            (accessRole (getHandler context))) ;;
       ret true)
      AuthorizationGuard.handleError
      (called (FindAllOrganizationMembers filters) start).
Proof.
  unfold organizationGate, insufficientOrganizationRole.
  intros Hcount Hdata Hgate Hproject. look_up.
  unfold tryCatch, bind at 1. rewrite Hcount. cbn [Z.eqb Pos.eqb].
  unfold bind at 1, first. rewrite Hdata. cbv beta iota delta [ret].
  rewrite Hgate, Hproject. unfold toString, bind at 1.
  now destruct (bitand _ _ =? 0).
Qed.

End Organization.

End AuthorizationGuardStages.

(** ** The error classifier *)

(** Split on a scrutinee that has no [match] inside it. *)
Ltac innermost :=
  match goal with
  | |- context [match ?x with _ => _ end] =>
      lazymatch x with
      | context [match _ with _ => _ end] => fail
      | _ => destruct x
      end
  end.

(** Unfold a guard down to the monad's operations, and split on what it
    branches on, innermost scrutinee first. *)
Ltac unfold_guards :=
  unfold AuthorizationGuard.canActivate, AuthorizationGuard.validateOrganizationMembers,
    AuthorizationGuard.validateProject, AuthorizationGuard.getProjectById,
    AuthorizationGuard.validateSalesforceType, AuthorizationGuard.handleError,
    EnvGuard.canActivate, EnvGuard.validateOrganizationMembers,
    EnvGuard.validateProject, EnvGuard.getProjectById, EnvGuard.validateOrganizationId,
    EnvGuard.validateEnvironmentId, EnvGuard.handleError,
    toString, first, stringify, tryCatch, bind, invoke, logError, attachProject, floating,
    ret, throw;
  cbv beta iota zeta.

Ltac innermost_eqn :=
  match goal with
  | |- context [match ?x with _ => _ end] =>
      lazymatch x with
      | context [match _ with _ => _ end] => fail
      | _ => destruct x eqn:?
      end
  end.

Ltac split_cases := repeat (innermost; cbv beta iota zeta).
Ltac split_cases_eqn := repeat (innermost_eqn; cbv beta iota zeta).

(** A guard either lets the request through or throws its guard-validation
    error: nothing else leaves [canActivate]. *)
Lemma environment_canActivate_decides validate unauthorized services context st :
  let r := EnvGuard.canActivate validate unauthorized services context st in
  allowed r \/ denied r.
Proof.
  unfold allowed, denied, EnvGuard.canActivate, tryCatch, bind, ret, throw.
  repeat innermost;
    cbn [snd]; try (now left);
    right; rewrite environment_handleError_throws; cbn [snd]; eauto.
Qed.

Lemma authorization_canActivate_decides AuthorizationUserRole services context st :
  let r := AuthorizationGuard.canActivate AuthorizationUserRole services context st in
  allowed r
  \/ snd r = inl (GuardValidationFailedException
                    (Some GuardValidationExceptionTypes.UNAUTHORIZED_EXCEPTION)).
Proof.
  unfold allowed, AuthorizationGuard.canActivate, tryCatch, bind, ret, throw.
  repeat innermost;
    cbn [snd]; try (now left); now right.
Qed.

(** C1 as the specification states it fails: a bad-request failure does
    not leave the classifier as it came.  The environment guard turns
    "Invalid Project id" into the guard-validation error, and so does the
    authorization guard with the failure of a caller who is not a member. *)
Lemma C1_bad_request_is_not_passed_through :
  snd (EnvGuard.handleError false (A := bool) (InvalidIdentifierFormat "Project") start)
    <> inl (InvalidIdentifierFormat "Project")
  /\ snd (AuthorizationGuard.handleError (A := bool)
            (NotOrganizationMember Example.userId (Some Example.organizationId)) start)
       <> inl (NotOrganizationMember Example.userId (Some Example.organizationId)).
Proof. split; discriminate. Qed.

(** C1 (amended): every failure raised inside either guard is logged and
    re-thrown as the guard-validation error, its own message dropped.  The
    environment guard's classifier leaves a bad-request failure untagged
    and tags an unauthorized one [UNAUTHORIZED]; the authorization guard's
    classifier tags every failure [UNAUTHORIZED]; and either pipeline ends
    in allow or in that guard-validation error. *)
Theorem C1_classifier_rethrows_guard_failure
    (validate : string -> bool) (unauthorized : bool)
    (AuthorizationUserRole : OrganizationUserRoles.t -> Z)
    (services : Services) (context : ExecutionContext)
    (message : option string) (error : Exception) (st : State) :
  EnvGuard.handleError unauthorized (A := bool) (BadRequestException message) st
  = (logged (BadRequestException message) st, inl (GuardValidationFailedException None))
  /\ EnvGuard.handleError unauthorized (A := bool) (UnauthorizedException message) st
     = (logged (UnauthorizedException message) st,
        inl (GuardValidationFailedException
               (Some GuardValidationExceptionTypes.UNAUTHORIZED_EXCEPTION)))
  /\ AuthorizationGuard.handleError (A := bool) error st
     = (logged error st,
        inl (GuardValidationFailedException
               (Some GuardValidationExceptionTypes.UNAUTHORIZED_EXCEPTION)))
  /\ (allowed (EnvGuard.canActivate validate unauthorized services context st)
      \/ denied (EnvGuard.canActivate validate unauthorized services context st))
  /\ (allowed (AuthorizationGuard.canActivate AuthorizationUserRole services context st)
      \/ snd (AuthorizationGuard.canActivate AuthorizationUserRole services context st)
         = inl (GuardValidationFailedException
                  (Some GuardValidationExceptionTypes.UNAUTHORIZED_EXCEPTION))).
Proof.
  repeat split.
  - apply environment_canActivate_decides.
  - apply authorization_canActivate_decides.
Qed.

(** ** The environment identifier *)

(** C2: the code does not do what the claim says.  At this request, whose
    well-formed environment identifier names no environment, the
    environment guard allows: it starts [validateEnvironmentId] without
    awaiting it, so the validation's rejection, the guard-validation error
    for the unauthorized failure it raised, stays with a promise nobody
    awaits, while the caller has exactly one organization membership and
    the rest of the pipeline passes. *)
Lemma C2_missing_environment_is_allowed :
  wellFormed Uuid.validate (Some Example.environmentId) = true
  /\ findEnvironmentId
       (Example.services
          (Example.member OrganizationUserRoles.MEMBER OrganizationType.NORMAL)
          ProjectType.NORMAL Example.nobody None)
       (Some Example.environmentId) (Some Example.projectId) (Some Example.organizationId)
     = inr None
  /\ allowed
       (EnvGuard.canActivate Uuid.validate false
          (Example.services
             (Example.member OrganizationUserRoles.MEMBER OrganizationType.NORMAL)
             ProjectType.NORMAL Example.nobody None)
          (Example.context Example.plain
             Example.identified)
          start)
  /\ detached
       (fst (EnvGuard.canActivate Uuid.validate false
               (Example.services
                  (Example.member OrganizationUserRoles.MEMBER OrganizationType.NORMAL)
                  ProjectType.NORMAL Example.nobody None)
               (Example.context Example.plain
                  Example.identified)
               start))
     = [EnvironmentNotFound]
  /\ unhandled
       (fst (EnvGuard.canActivate Uuid.validate false
               (Example.services
                  (Example.member OrganizationUserRoles.MEMBER OrganizationType.NORMAL)
                  ProjectType.NORMAL Example.nobody None)
               (Example.context Example.plain
                  Example.identified)
               start))
     = [GuardValidationFailedException
          (Some GuardValidationExceptionTypes.UNAUTHORIZED_EXCEPTION)].
Proof. repeat split. Qed.

(** What the validation itself does: for a well-formed environment
    identifier under which the environment lookup finds nothing, it issues
    that one lookup and fails with the guard-validation error tagged
    [UNAUTHORIZED]. *)
Lemma validateEnvironmentId_not_found
    (validate : string -> bool) (unauthorized : bool) (services : Services)
    (environmentId projectId organizationId : Header)
    (fetchDeletedRecords : option bool) (deletedStatusFromFilter : option string)
    (fetchDeletedRecordsLevel : option FetchDeletedRecordsAccessLevel.t) (st : State) :
  wellFormed validate environmentId = true ->
  findEnvironmentId services environmentId projectId organizationId = inr None ->
  EnvGuard.validateEnvironmentId validate unauthorized services
    environmentId projectId organizationId
    fetchDeletedRecords deletedStatusFromFilter fetchDeletedRecordsLevel st
  = (logged EnvironmentNotFound
       (called (FindEnvironmentId environmentId projectId organizationId) st),
     inl (GuardValidationFailedException
            (Some GuardValidationExceptionTypes.UNAUTHORIZED_EXCEPTION))).
Proof.
  unfold wellFormed. intros [Ht Hv]%andb_true_iff Hfind.
  unfold EnvGuard.validateEnvironmentId, tryCatch, bind, invoke.
  now rewrite Ht, Hv, Hfind.
Qed.

(** The same floating call swallows a malformed environment identifier:
    the guard goes on to look the caller up and lets the request through. *)
Lemma environment_identifier_is_not_awaited :
  wellFormed Uuid.validate (Some "not-a-uuid") = false
  /\ allowed
       (EnvGuard.canActivate Uuid.validate false
          (Example.services
             (Example.member OrganizationUserRoles.MEMBER OrganizationType.NORMAL)
             ProjectType.NORMAL Example.nobody None)
          (Example.context Example.plain
             (Example.request (Some Example.organizationId) (Some Example.projectId)
                              (Some "not-a-uuid")))
          start).
Proof. repeat split. Qed.

(** ** Identifier formats *)

(** C3 as the specification states it fails: the authorization guard never
    validates an identifier.  With the organization identifier "not-a-uuid"
    it hands that very value to the membership lookup, and the request is
    let through. *)
Lemma C3_authorization_guard_looks_up_malformed_identifier :
  Uuid.validate "not-a-uuid" = false
  /\ hd_error
       (calls (fst (AuthorizationGuard.canActivate AuthorizationUserRole.bit
          (Example.services
             (Example.member OrganizationUserRoles.MEMBER OrganizationType.NORMAL)
             ProjectType.NORMAL Example.nobody None)
          (Example.context
             (Example.handler (Some MethodAccessRole.MEMBER) None None None)
             (Example.request (Some "not-a-uuid") (Some Example.projectId) None))
          start)))
     = Some (FindAllOrganizationMembers
               {| omf_organizationId := Some "not-a-uuid";
                  omf_userId := Example.userId;
                  omf_expandOrganization := true;
                  omf_deletedStatus := Enum DeletedStatus.NOT_DELETED |})
  /\ allowed
       (AuthorizationGuard.canActivate AuthorizationUserRole.bit
          (Example.services
             (Example.member OrganizationUserRoles.MEMBER OrganizationType.NORMAL)
             ProjectType.NORMAL Example.nobody None)
          (Example.context
             (Example.handler (Some MethodAccessRole.MEMBER) None None None)
             (Example.request (Some "not-a-uuid") (Some Example.projectId) None))
          start).
Proof. repeat split. Qed.

(** C3 (amended): the environment guard denies, before any lookup call is
    issued, a request whose organization identifier is absent or not a
    valid token, one whose organization identifier is well formed and
    whose project identifier is supplied but not a valid token, and one
    whose organization identifier is well formed and that has no project
    identifier on an operation that is not project-optional.  On a request
    the guard can serialise for its debug line the cause is
    [InvalidIdentifierFormat] for the organization in the first case,
    [InvalidIdentifierFormat] for the project in the second, and the bare
    guard-validation error in the third.  The authorization guard
    validates no identifier format: whatever organization identifier it is
    given, it hands it to the membership lookup. *)
Theorem C3_malformed_identifier_denied_before_lookup
    (validate : string -> bool) (unauthorized : bool)
    (AuthorizationUserRole : OrganizationUserRoles.t -> Z) (services : Services)
    (context : ExecutionContext) :
  let organizationId := header_organizationId (getRequest context) in
  let projectId := header_projectId (getRequest context) in
  let r := EnvGuard.canActivate validate unauthorized services context start in
  (wellFormed validate organizationId = false ->
   denied r /\ calls (fst r) = []
   /\ (serialisable (getRequest context) ->
       deniedWith (InvalidIdentifierFormat "Organization") r))
  /\ (wellFormed validate organizationId = true ->
      truthy projectId = true ->
      EnvGuard.validateHeader validate projectId = false ->
      denied r /\ calls (fst r) = []
      /\ (serialisable (getRequest context) ->
          deniedWith (InvalidIdentifierFormat "Project") r))
  /\ (wellFormed validate organizationId = true ->
      truthy projectId = false ->
      isTrue (isProjectValidationOptional (getHandler context)) = false ->
      denied r /\ calls (fst r) = []
      /\ (serialisable (getRequest context) ->
          deniedWith (GuardValidationFailedException None) r))
  /\ (forall identifier : string,
        organizationId = Some identifier ->
        hd_error
          (calls (fst (AuthorizationGuard.canActivate AuthorizationUserRole services
                         context start)))
        = Some (FindAllOrganizationMembers
                  (AuthorizationGuard.organizationMemberFilters (Some identifier)
                     (user_id (getRequest context))
                     (FetchDeletedRecords (getHandler context))
                     (query_deletedStatus (getRequest context))
                     (FetchDeletedRecordsLevel (getHandler context))))).
Proof.
  intros organizationId projectId r. subst r organizationId projectId.
  assert (Hthrows : forall error,
             JSON_stringify (getRequest context) = Circular error ->
             let r := EnvGuard.canActivate validate unauthorized services context start in
             denied r /\ calls (fst r) = []
             /\ forall cause, serialisable (getRequest context) -> deniedWith cause r).
  { intros error Hthrows. cbv zeta.
    rewrite (canActivate_unserialisable _ _ _ _ _ Hthrows).
    rewrite environment_handleError_throws. unfold denied. cbn.
    split; [eauto | split; [reflexivity |]].
    intros cause [text Htext]. congruence. }
  assert (Hcause : forall cause,
             (forall text,
                JSON_stringify (getRequest context) = Serialised text ->
                let r := EnvGuard.canActivate validate unauthorized services context
                           start in
                deniedWith cause r /\ calls (fst r) = []) ->
             let r := EnvGuard.canActivate validate unauthorized services context start in
             denied r /\ calls (fst r) = []
             /\ (serialisable (getRequest context) -> deniedWith cause r)).
  { intros cause Hserialised. cbv zeta.
    destruct (JSON_stringify (getRequest context)) as [text | error] eqn:Hjson;
      [| destruct (Hthrows error eq_refl) as (Hdenied & Hquiet & Hany); now auto].
    -
      destruct (Hserialised text eq_refl) as [[Hhead Hdenied] Hquiet]. cbv zeta in *.
      repeat split; auto. }
  split; [| split; [| split]].
  - intros Horg. apply Hcause. intros text Htext. cbv zeta.
    unfold deniedWith, denied, EnvGuard.canActivate, stringify.
    rewrite Htext, bind_ret.
    rewrite (tryCatch_fail _ _ _ _ _
               (bind_fail _ _ _ _ _ (validateOrganizationId_fail _ _ _ _ Horg))).
    rewrite environment_handleError_throws. cbn. eauto.
  - intros Horg Hsupplied Hinvalid. apply Hcause. intros text Htext. cbv zeta.
    unfold deniedWith, denied, EnvGuard.canActivate, stringify.
    rewrite Htext, bind_ret.
    rewrite (tryCatch_fail _ _ start start (InvalidIdentifierFormat "Project")).
    + rewrite environment_handleError_throws. cbn. eauto.
    + rewrite (bind_ok _ _ _ _ _ (validateOrganizationId_ok _ _ _ _ Horg)).
      now rewrite Hsupplied, Hinvalid.
  - intros Horg Habsent Hrequired. apply Hcause. intros text Htext. cbv zeta.
    unfold deniedWith, denied, EnvGuard.canActivate, stringify.
    rewrite Htext, bind_ret.
    rewrite (tryCatch_fail _ _ start start (GuardValidationFailedException None)).
    + rewrite environment_handleError_throws. cbn. eauto.
    + rewrite (bind_ok _ _ _ _ _ (validateOrganizationId_ok _ _ _ _ Horg)).
      now rewrite Habsent, Hrequired.
  - intros identifier Hgiven. unfold_guards. rewrite Hgiven. cbv beta iota zeta.
    split_cases. all: reflexivity.
Qed.

Lemma C3_malformed_identifier_denied_before_lookup_witness :
  (denied
     (EnvGuard.canActivate Uuid.validate false
        (Example.services Example.nobody ProjectType.NORMAL Example.nobody None)
        (Example.context Example.plain
           (Example.request (Some "not-a-uuid") (Some Example.projectId)
                            (Some Example.environmentId)))
        start)
   /\ calls (fst (EnvGuard.canActivate Uuid.validate false
        (Example.services Example.nobody ProjectType.NORMAL Example.nobody None)
        (Example.context Example.plain
           (Example.request (Some "not-a-uuid") (Some Example.projectId)
                            (Some Example.environmentId)))
        start)) = []
   /\ deniedWith (InvalidIdentifierFormat "Organization")
        (EnvGuard.canActivate Uuid.validate false
           (Example.services Example.nobody ProjectType.NORMAL Example.nobody None)
           (Example.context Example.plain
              (Example.request (Some "not-a-uuid") (Some Example.projectId)
                               (Some Example.environmentId)))
           start))
  /\ (denied
        (EnvGuard.canActivate Uuid.validate false
           (Example.services Example.nobody ProjectType.NORMAL Example.nobody None)
           (Example.context Example.plain
              (Example.request (Some Example.organizationId) (Some "6f1d2c3b")
                               (Some Example.environmentId)))
           start)
      /\ calls (fst (EnvGuard.canActivate Uuid.validate false
           (Example.services Example.nobody ProjectType.NORMAL Example.nobody None)
           (Example.context Example.plain
              (Example.request (Some Example.organizationId) (Some "6f1d2c3b")
                               (Some Example.environmentId)))
           start)) = []
      /\ deniedWith (InvalidIdentifierFormat "Project")
           (EnvGuard.canActivate Uuid.validate false
              (Example.services Example.nobody ProjectType.NORMAL Example.nobody None)
              (Example.context Example.plain
                 (Example.request (Some Example.organizationId) (Some "6f1d2c3b")
                                  (Some Example.environmentId)))
              start))
  /\ (denied
        (EnvGuard.canActivate Uuid.validate false
           (Example.services Example.nobody ProjectType.NORMAL Example.nobody None)
           (Example.context Example.plain
              (Example.request (Some Example.organizationId) None None))
           start)
      /\ calls (fst (EnvGuard.canActivate Uuid.validate false
           (Example.services Example.nobody ProjectType.NORMAL Example.nobody None)
           (Example.context Example.plain
              (Example.request (Some Example.organizationId) None None))
           start)) = []
      /\ deniedWith (GuardValidationFailedException None)
           (EnvGuard.canActivate Uuid.validate false
              (Example.services Example.nobody ProjectType.NORMAL Example.nobody None)
              (Example.context Example.plain
                 (Example.request (Some Example.organizationId) None None))
              start))
  /\ hd_error
       (calls (fst (AuthorizationGuard.canActivate AuthorizationUserRole.bit
                      (Example.services Example.nobody ProjectType.NORMAL Example.nobody
                                        None)
                      (Example.context Example.plain
                         (Example.request (Some "not-a-uuid") (Some Example.projectId)
                                          (Some Example.environmentId)))
                      start)))
     = Some (FindAllOrganizationMembers
               (AuthorizationGuard.organizationMemberFilters (Some "not-a-uuid")
                  Example.userId None None None)).
Proof.
  split; [| split; [| split]].
  - destruct (proj1 (C3_malformed_identifier_denied_before_lookup Uuid.validate false
                       AuthorizationUserRole.bit
                       (Example.services Example.nobody ProjectType.NORMAL
                                         Example.nobody None)
                       (Example.context Example.plain
                          (Example.request (Some "not-a-uuid") (Some Example.projectId)
                                           (Some Example.environmentId))))
                    eq_refl)
      as (Hdenied & Hquiet & Hcause).
    split; [exact Hdenied | split; [exact Hquiet | apply Hcause; eexists; reflexivity]].
  - destruct (proj1 (proj2
                (C3_malformed_identifier_denied_before_lookup Uuid.validate false
                   AuthorizationUserRole.bit
                   (Example.services Example.nobody ProjectType.NORMAL
                                     Example.nobody None)
                   (Example.context Example.plain
                      (Example.request (Some Example.organizationId) (Some "6f1d2c3b")
                                       (Some Example.environmentId)))))
                eq_refl eq_refl eq_refl)
      as (Hdenied & Hquiet & Hcause).
    split; [exact Hdenied | split; [exact Hquiet | apply Hcause; eexists; reflexivity]].
  - destruct (proj1 (proj2 (proj2
                (C3_malformed_identifier_denied_before_lookup Uuid.validate false
                   AuthorizationUserRole.bit
                   (Example.services Example.nobody ProjectType.NORMAL
                                     Example.nobody None)
                   (Example.context Example.plain
                      (Example.request (Some Example.organizationId) None None)))))
                eq_refl eq_refl eq_refl)
      as (Hdenied & Hquiet & Hcause).
    split; [exact Hdenied | split; [exact Hquiet | apply Hcause; eexists; reflexivity]].
  - exact (proj2 (proj2 (proj2
             (C3_malformed_identifier_denied_before_lookup Uuid.validate false
                AuthorizationUserRole.bit
                (Example.services Example.nobody ProjectType.NORMAL
                                  Example.nobody None)
                (Example.context Example.plain
                   (Example.request (Some "not-a-uuid") (Some Example.projectId)
                                    (Some Example.environmentId))))))
             "not-a-uuid" eq_refl).
Defined.

(** ** Deleted-record visibility *)

(** C5: with the fetch-deleted flag set and the declared level equal to the
    tier, the project tier resolves to only-deleted, the organization and
    environment tiers to with-deleted, whatever the caller's own filter
    value; the organization filter is the one the membership service is
    called with. *)
Theorem C5_deleted_status_by_tier
    (unauthorized : bool) (services : Services)
    (organizationId projectId : Header) (userId : string)
    (deletedStatusFromFilter : option string) (disable : option bool) (st : State) :
  pmf_deletedStatus
    (AuthorizationGuard.getProjectMemberFilters projectId userId
       (Some FetchDeletedRecordsAccessLevel.PROJECT) (Some true) deletedStatusFromFilter)
  = Enum DeletedStatus.ONLY_DELETED
  /\ pmf_deletedStatus
       (EnvGuard.getProjectMemberFilters projectId userId
          (Some FetchDeletedRecordsAccessLevel.PROJECT) (Some true) deletedStatusFromFilter)
     = Enum DeletedStatus.ONLY_DELETED
  /\ calls (fst (AuthorizationGuard.validateOrganizationMembers services
                   organizationId userId (Some true) deletedStatusFromFilter
                   (Some FetchDeletedRecordsAccessLevel.ORGANIZATION) st))
     = (calls st
          ++ [FindAllOrganizationMembers
                {| omf_organizationId := organizationId;
                   omf_userId := userId;
                   omf_expandOrganization := true;
                   omf_deletedStatus := Enum DeletedStatus.WITH_DELETED |}])%list
  /\ calls (fst (EnvGuard.validateOrganizationMembers unauthorized services
                   organizationId userId (Some true) deletedStatusFromFilter
                   (Some FetchDeletedRecordsAccessLevel.ORGANIZATION) disable st))
     = (calls st
          ++ [FindAllOrganizationMembers
                {| omf_organizationId := organizationId;
                   omf_userId := userId;
                   omf_expandOrganization := true;
                   omf_deletedStatus := Enum DeletedStatus.WITH_DELETED |}])%list
  /\ eef_deletedStatus
       (EnvGuard.environmentFilters (Some true) deletedStatusFromFilter
          (Some FetchDeletedRecordsAccessLevel.ENVIRONMENT))
     = Enum DeletedStatus.WITH_DELETED.
Proof.
  repeat split.
  - unfold AuthorizationGuard.validateOrganizationMembers, tryCatch, bind, invoke.
    now destruct (findAllOrganizationMembers _ _).
  - unfold EnvGuard.validateOrganizationMembers, tryCatch, bind, invoke, first, ret, throw.
    repeat innermost; now rewrite ?environment_handleError_throws.
Qed.

(** ** Organization membership *)

Section OrganizationLookup.

Variable validate : string -> bool.
Variable unauthorized : bool.
Variable AuthorizationUserRole : OrganizationUserRoles.t -> Z.
Variable services : Services.
Variable context : ExecutionContext.
Variable organizationId : string.
Variable members : PaginatedData OrganizationMemberDTO.

Let userId := user_id (getRequest context).
Let disable := DisableFeatureForSalesforceType (getHandler context).

(** The organization header is present, and the membership service
    answers the guard's lookup with [members]. *)
Hypothesis identified :
  header_organizationId (getRequest context) = Some organizationId.
Hypothesis lookup :
  findAllOrganizationMembers services
    (EnvGuard.organizationMemberFilters (Some organizationId) userId
       (FetchDeletedRecords (getHandler context))
       (query_deletedStatus (getRequest context))
       (FetchDeletedRecordsLevel (getHandler context)))
  = inr members.

(** C6: when the membership lookup returns a count other than 1, both
    guards deny with [NotOrganizationMember], whatever roles the
    operation requires.  The authorization guard reaches the lookup once
    the organization header is present, the environment guard once it has
    serialised the request for its debug line and the organization and
    project identifiers are well formed. *)
Theorem C6_membership_count_not_one_is_denied :
  totalCount members <> 1 ->
  deniedWith (NotOrganizationMember userId (Some organizationId))
    (AuthorizationGuard.canActivate AuthorizationUserRole services context start)
  /\ (serialisable (getRequest context) ->
      wellFormed validate (Some organizationId) = true ->
      wellFormed validate (header_projectId (getRequest context)) = true ->
      deniedWith (NotOrganizationMember userId (Some organizationId))
        (EnvGuard.canActivate validate unauthorized services context start)).
Proof.
  intros Hcount. unfold deniedWith, denied. split.
  - rewrite (authorization_canActivate_not_member AuthorizationUserRole _ _ _ _
               identified lookup Hcount).
    cbn. eauto.
  - intros Hserialised Horg Hproject. rewrite <- identified in Horg.
    rewrite (canActivate_identified _ _ _ _ Hserialised Horg Hproject), identified.
    rewrite (tryCatch_fail _ _ _ _ _
               (bind_fail _ _ _ _ _
                  (validateOrganizationMembers_not_member _ _ _ _ _ _ _ _ _
                     lookup _ Hcount))).
    rewrite environment_handleError_throws. cbn.
    rewrite environmentStarted_handled. cbn. eauto.
Qed.

(** C7: when the one membership found belongs to an organization of the
    restricted type and the operation sets the tenant gate, both guards
    deny with [TenantFeatureDisabled], whatever the member's role and the
    roles the operation requires.  The lookup is reached as in C6. *)
Theorem C7_restricted_tenant_is_denied (member : OrganizationMemberDTO)
    (rest : list OrganizationMemberDTO) :
  totalCount members = 1 ->
  data members = member :: rest ->
  organizationType (getOrganization member) = OrganizationType.SALESFORCE_ONLY ->
  isTrue disable = true ->
  deniedWith (TenantFeatureDisabled userId)
    (AuthorizationGuard.canActivate AuthorizationUserRole services context start)
  /\ (serialisable (getRequest context) ->
      wellFormed validate (Some organizationId) = true ->
      wellFormed validate (header_projectId (getRequest context)) = true ->
      deniedWith (TenantFeatureDisabled userId)
        (EnvGuard.canActivate validate unauthorized services context start)).
Proof.
  intros Hcount Hdata Htype Hflag.
  assert (Hgate : organizationGate member disable = true).
  { unfold organizationGate. now rewrite Htype, Hflag. }
  unfold deniedWith, denied. split.
  - rewrite (authorization_canActivate_gated AuthorizationUserRole _ _ _ _
               identified lookup _ _ Hcount Hdata Hgate).
    cbn. eauto.
  - intros Hserialised Horg Hproject. rewrite <- identified in Horg.
    rewrite (canActivate_identified _ _ _ _ Hserialised Horg Hproject), identified.
    rewrite (tryCatch_fail _ _ _ _ _
               (bind_fail _ _ _ _ _
                  (validateOrganizationMembers_gated _ _ _ _ _ _ _ _ _
                     lookup _ _ _ Hcount Hdata Hgate))).
    rewrite environment_handleError_throws. cbn.
    rewrite environmentStarted_handled. cbn. eauto.
Qed.

End OrganizationLookup.

Lemma C6_membership_count_not_one_is_denied_witness :
  deniedWith (NotOrganizationMember Example.userId (Some Example.organizationId))
    (AuthorizationGuard.canActivate AuthorizationUserRole.bit
       (Example.services Example.nobody ProjectType.NORMAL
          (Example.projectMember ProjectUserRoles.MANAGER) (Some "found"))
       (Example.context
          (Example.handler (Some MethodAccessRole.MEMBER) None None
                           (Some ProjectUserRoles.MEMBER))
          Example.identified)
       start)
  /\ deniedWith (NotOrganizationMember Example.userId (Some Example.organizationId))
       (EnvGuard.canActivate Uuid.validate false
          (Example.services Example.nobody ProjectType.NORMAL
             (Example.projectMember ProjectUserRoles.MANAGER) (Some "found"))
          (Example.context
             (Example.handler (Some MethodAccessRole.MEMBER) None None
                              (Some ProjectUserRoles.MEMBER))
             Example.identified)
          start).
Proof.
  destruct (C6_membership_count_not_one_is_denied Uuid.validate false
              AuthorizationUserRole.bit
              (Example.services Example.nobody ProjectType.NORMAL
                 (Example.projectMember ProjectUserRoles.MANAGER) (Some "found"))
              (Example.context
                 (Example.handler (Some MethodAccessRole.MEMBER) None None
                                  (Some ProjectUserRoles.MEMBER))
                 Example.identified)
              Example.organizationId Example.nobody eq_refl eq_refl)
    as [authorization environment].
  - discriminate.
  - split; [exact authorization
           | apply environment; [eexists |..]; reflexivity].
Defined.

Lemma C7_restricted_tenant_is_denied_witness :
  deniedWith (TenantFeatureDisabled Example.userId)
    (AuthorizationGuard.canActivate AuthorizationUserRole.bit
       (Example.services
          (Example.member OrganizationUserRoles.OWNER OrganizationType.SALESFORCE_ONLY)
          ProjectType.NORMAL (Example.projectMember ProjectUserRoles.MANAGER)
          (Some "found"))
       (Example.context
          (Example.handler (Some MethodAccessRole.OWNER) (Some true) None None)
          Example.identified)
       start)
  /\ deniedWith (TenantFeatureDisabled Example.userId)
       (EnvGuard.canActivate Uuid.validate false
          (Example.services
             (Example.member OrganizationUserRoles.OWNER OrganizationType.SALESFORCE_ONLY)
             ProjectType.NORMAL (Example.projectMember ProjectUserRoles.MANAGER)
             (Some "found"))
          (Example.context
             (Example.handler (Some MethodAccessRole.OWNER) (Some true) None None)
             Example.identified)
          start).
Proof.
  destruct (C7_restricted_tenant_is_denied Uuid.validate false
              AuthorizationUserRole.bit
              (Example.services
                 (Example.member OrganizationUserRoles.OWNER
                                 OrganizationType.SALESFORCE_ONLY)
                 ProjectType.NORMAL (Example.projectMember ProjectUserRoles.MANAGER)
                 (Some "found"))
              (Example.context
                 (Example.handler (Some MethodAccessRole.OWNER) (Some true) None None)
                 Example.identified)
              Example.organizationId
              (Example.member OrganizationUserRoles.OWNER OrganizationType.SALESFORCE_ONLY)
              eq_refl eq_refl _ _ eq_refl eq_refl eq_refl eq_refl)
    as [authorization environment].
  split; [exact authorization
         | apply environment; [eexists |..]; reflexivity].
Defined.

(** ** The project-optional short circuit *)

(** C9 as the specification states it fails: the organization identifier
    is checked before the short circuit.  On an operation marked
    project-optional, a request without a project identifier whose
    organization identifier is not a valid token is denied with
    [InvalidIdentifierFormat], not allowed. *)
Lemma C9_malformed_organization_is_denied :
  isProjectValidationOptional (Example.handler None None (Some true) None) = Some true
  /\ header_projectId (Example.request (Some "not-a-uuid") None None) = None
  /\ deniedWith (InvalidIdentifierFormat "Organization")
       (EnvGuard.canActivate Uuid.validate false
          (Example.services Example.nobody ProjectType.NORMAL Example.nobody None)
          (Example.context (Example.handler None None (Some true) None)
             (Example.request (Some "not-a-uuid") None None))
          start)
  /\ ~ allowed
        (EnvGuard.canActivate Uuid.validate false
           (Example.services Example.nobody ProjectType.NORMAL Example.nobody None)
           (Example.context (Example.handler None None (Some true) None)
              (Example.request (Some "not-a-uuid") None None))
           start).
Proof.
  repeat split; try (eexists; reflexivity). discriminate.
Qed.

(** C9 (amended): on an operation marked project-optional, a request
    without a project identifier makes the environment guard issue no
    lookup at all.  When the guard can serialise the request for its debug
    line, it returns allow at once, the state untouched, if the
    organization identifier is well formed, and denies with
    [InvalidIdentifierFormat] for the organization if it is absent or not
    a valid token. *)
Theorem C9_optional_project_short_circuit
    (validate : string -> bool) (unauthorized : bool) (services : Services)
    (context : ExecutionContext) :
  truthy (header_projectId (getRequest context)) = false ->
  isProjectValidationOptional (getHandler context) = Some true ->
  calls (fst (EnvGuard.canActivate validate unauthorized services context start)) = []
  /\ (serialisable (getRequest context) ->
      if wellFormed validate (header_organizationId (getRequest context))
      then EnvGuard.canActivate validate unauthorized services context start
           = (start, inr true)
      else deniedWith (InvalidIdentifierFormat "Organization")
             (EnvGuard.canActivate validate unauthorized services context start)).
Proof.
  intros Habsent Hoptional.
  destruct (JSON_stringify (getRequest context)) as [text | error] eqn:Hjson;
    cycle 1.
  { rewrite (canActivate_unserialisable _ _ _ _ _ Hjson).
    rewrite environment_handleError_throws. split; [reflexivity |].
    intros [text Htext]. congruence. }
  assert (Hserialised :
            EnvGuard.canActivate validate unauthorized services context start
            = if wellFormed validate (header_organizationId (getRequest context))
              then (start, inr true)
              else EnvGuard.handleError unauthorized
                     (GuardValidationFailedException None)
                     (logged (InvalidIdentifierFormat "Organization") start)).
  { unfold EnvGuard.canActivate, stringify. rewrite Hjson, bind_ret.
    destruct (wellFormed validate (header_organizationId (getRequest context)))
      eqn:Horg.
    - apply tryCatch_ok.
      rewrite (bind_ok _ _ _ _ _ (validateOrganizationId_ok _ _ _ _ Horg)).
      now rewrite Habsent, Hoptional.
    - rewrite (tryCatch_fail _ _ _ _ _
                 (bind_fail _ _ _ _ _ (validateOrganizationId_fail _ _ _ _ Horg))).
      reflexivity. }
  rewrite Hserialised.
  destruct (wellFormed validate (header_organizationId (getRequest context))).
  - split; [reflexivity | intros _; reflexivity].
  - rewrite environment_handleError_throws.
    split; [reflexivity | intros _]. split; [reflexivity | eexists; reflexivity].
Qed.

Lemma C9_optional_project_short_circuit_witness :
  calls (fst (EnvGuard.canActivate Uuid.validate false
                (Example.services Example.nobody ProjectType.NORMAL Example.nobody None)
                (Example.context (Example.handler None None (Some true) None)
                   (Example.request (Some Example.organizationId) None None))
                start)) = []
  /\ EnvGuard.canActivate Uuid.validate false
       (Example.services Example.nobody ProjectType.NORMAL Example.nobody None)
       (Example.context (Example.handler None None (Some true) None)
          (Example.request (Some Example.organizationId) None None))
       start
     = (start, inr true).
Proof.
  destruct (C9_optional_project_short_circuit Uuid.validate false
              (Example.services Example.nobody ProjectType.NORMAL Example.nobody None)
              (Example.context (Example.handler None None (Some true) None)
                 (Example.request (Some Example.organizationId) None None))
              eq_refl eq_refl)
    as [quiet allow].
  split; [exact quiet | apply allow; eexists; reflexivity].
Defined.

(** ** Project roles *)

Section Memberships.

Variable validate : string -> bool.
Variable unauthorized : bool.
Variable AuthorizationUserRole : OrganizationUserRoles.t -> Z.
Variable services : Services.
Variable context : ExecutionContext.
Variables organizationId projectId : string.
Variable members : PaginatedData OrganizationMemberDTO.
Variable member : OrganizationMemberDTO.
Variable rest : list OrganizationMemberDTO.
Variable p : ProjectDTO.
Variable projectMembers : PaginatedData ProjectMemberDTO.

Let userId := user_id (getRequest context).
Let disable := DisableFeatureForSalesforceType (getHandler context).

(** The caller has exactly one membership in the organization, [member],
    which the tenant gate lets pass; the project resolves; the project
    membership service answers with [projectMembers]. *)
Hypothesis organization_header :
  header_organizationId (getRequest context) = Some organizationId.
Hypothesis project_header :
  header_projectId (getRequest context) = Some projectId.
Hypothesis organization_lookup :
  findAllOrganizationMembers services
    (EnvGuard.organizationMemberFilters (Some organizationId) userId
       (FetchDeletedRecords (getHandler context))
       (query_deletedStatus (getRequest context))
       (FetchDeletedRecordsLevel (getHandler context)))
  = inr members.
Hypothesis one_membership : totalCount members = 1.
Hypothesis first_member : data members = member :: rest.
Hypothesis organization_open : organizationGate member disable = false.
Hypothesis project_resolves : findProjectById services (Some projectId) = inr p.
Hypothesis project_lookup :
  findAllProjectMembers services
    (EnvGuard.getProjectMemberFilters (Some projectId) userId
       (FetchDeletedRecordsLevel (getHandler context))
       (FetchDeletedRecords (getHandler context))
       (query_deletedStatus (getRequest context)))
  = inr projectMembers.

(** What the environment guard asks on top: identifiers that pass its
    format checks. *)
Definition identifiersWellFormed : Prop :=
  wellFormed validate (Some organizationId) = true
  /\ wellFormed validate (Some projectId) = true.

Let authorization :=
  AuthorizationGuard.canActivate AuthorizationUserRole services context start.
Let environment :=
  EnvGuard.canActivate validate unauthorized services context start.

(** Both guards come down to their project validation. *)
Lemma authorization_resolved :
  authorization
  = tryCatch
      (AuthorizationGuard.validateProject services context (Some projectId) userId
         members (query_deletedStatus (getRequest context)) disable
         (insufficientOrganizationRole AuthorizationUserRole member
            (accessRole (getHandler context))) ;;
       ret true)
      AuthorizationGuard.handleError
      (called (FindAllOrganizationMembers
                 (EnvGuard.organizationMemberFilters (Some organizationId) userId
                    (FetchDeletedRecords (getHandler context))
                    (query_deletedStatus (getRequest context))
                    (FetchDeletedRecordsLevel (getHandler context))))
              start).
Proof.
  exact (authorization_canActivate_member AuthorizationUserRole services context
           organizationId members organization_header organization_lookup
           member rest projectId one_membership first_member organization_open
           project_header).
Qed.

Lemma environment_resolved :
  serialisable (getRequest context) ->
  wellFormed validate (Some organizationId) = true ->
  wellFormed validate (Some projectId) = true ->
  environment
  = tryCatch
      (EnvGuard.validateProject unauthorized services context (Some projectId) userId
         members (FetchDeletedRecordsLevel (getHandler context))
         (query_deletedStatus (getRequest context)) disable ;;
       ret true)
      (EnvGuard.handleError unauthorized)
      (called (FindAllOrganizationMembers
                 (EnvGuard.organizationMemberFilters (Some organizationId) userId
                    (FetchDeletedRecords (getHandler context))
                    (query_deletedStatus (getRequest context))
                    (FetchDeletedRecordsLevel (getHandler context))))
              (environmentStarted validate unauthorized services context)).
Proof.
  intros Hserialised Horg Hproject. unfold environment.
  rewrite <- organization_header in Horg. rewrite <- project_header in Hproject.
  rewrite (canActivate_identified _ _ _ _ Hserialised Horg Hproject).
  rewrite organization_header, project_header. unfold tryCatch.
  now rewrite (bind_ok _ _ _ _ _
                 (validateOrganizationMembers_ok _ _ _ _ _ _ _ _ _
                    organization_lookup _ _ _
                    one_membership first_member organization_open)).
Qed.

(** A project validation that returns lets the request through. *)
Lemma validated_allows (validation : Js unit) handle st st' :
  validation st = (st', inr tt) ->
  allowed (tryCatch (validation ;; ret true) handle st).
Proof.
  intros E. unfold allowed, tryCatch. now rewrite (bind_ok _ _ _ _ _ E).
Qed.

(** C10 (amended): on an operation that declares no required project
    role, a caller with exactly one organization membership, which the
    tenant gate lets pass, and whose project resolves is allowed whatever
    page the project-membership lookup returns, zero memberships included:
    by the authorization guard when the organization-role check left no
    pending flag, by the environment guard when the guard can serialise
    the request for its debug line, the identifiers are well formed and
    the tenant gate does not fire at the project tier, the one place where
    the count of project memberships is consulted. *)
Theorem C10_no_project_role_ignores_memberships :
  projectAccessRole (getHandler context) = None ->
  (insufficientOrganizationRole AuthorizationUserRole member
     (accessRole (getHandler context)) = false ->
   allowed authorization)
  /\ (serialisable (getRequest context) ->
      identifiersWellFormed ->
      projectGate p projectMembers disable = false ->
      allowed environment).
Proof.
  intros Hrequired. split.
  - intros Hflag. rewrite authorization_resolved, Hflag.
    eapply validated_allows.
    exact (authorization_validateProject_no_role services context organizationId _ _ _ _ _
             p projectMembers organization_header project_resolves project_lookup
             false _ Hrequired).
  - intros Hserialised (Horg & Hproject) project_open.
    rewrite (environment_resolved Hserialised Horg Hproject).
    eapply validated_allows.
    exact (validateProject_no_role unauthorized services context _ _ _ _ _ _
             p projectMembers project_resolves project_lookup _ project_open Hrequired).
Qed.

(** The role check of [validateProject]: Manager satisfies every
    requirement, Member satisfies the requirement Member and no other. *)
Lemma project_role_satisfies (required role : ProjectUserRoles.t) :
  includes (projectUserRoles required) role = true
  <-> role = ProjectUserRoles.MANAGER
      \/ (role = ProjectUserRoles.MEMBER /\ required = ProjectUserRoles.MEMBER).
Proof.
  destruct required, role; cbn; split; intros H;
    repeat match goal with
           | H : _ \/ _ |- _ => destruct H
           | H : _ /\ _ |- _ => destruct H
           end;
    try discriminate; auto.
Qed.

(** C8: for a caller who is not an Owner of the organization and has
    exactly one project membership, both guards decide by that
    membership's role: a Manager is allowed whatever project role the
    operation requires; a Member is allowed when it requires Member and
    denied with [InsufficientRole] when it requires Manager.  The
    environment guard does so once it has serialised the request for its
    debug line, the identifiers being well formed and the tenant gate not
    firing at the project tier.  In the role check Manager satisfies every
    requirement, Member exactly the requirement Member. *)
Theorem C8_project_member_role
    (required : ProjectUserRoles.t) (record : ProjectMemberDTO) :
  organizationRole member <> OrganizationUserRoles.OWNER ->
  totalCount projectMembers = 1 ->
  data projectMembers = [record] ->
  projectAccessRole (getHandler context) = Some required ->
  let reached :=
    serialisable (getRequest context) /\ identifiersWellFormed
    /\ projectGate p projectMembers disable = false in
  (match projectRole record, required with
   | ProjectUserRoles.MANAGER, _
   | ProjectUserRoles.MEMBER, ProjectUserRoles.MEMBER =>
       allowed authorization /\ (reached -> allowed environment)
   | ProjectUserRoles.MEMBER, ProjectUserRoles.MANAGER =>
       deniedWith InsufficientRole authorization
       /\ (reached -> deniedWith InsufficientRole environment)
   end)
  /\ (forall role : ProjectUserRoles.t,
        includes (projectUserRoles required) role = true
        <-> role = ProjectUserRoles.MANAGER
            \/ (role = ProjectUserRoles.MEMBER /\ required = ProjectUserRoles.MEMBER)).
Proof.
  intros Hmember Hcount Hdata Hrequired reached. subst reached.
  assert (Hpositive : 0 < totalCount projectMembers) by lia.
  pose proof (authorization_validateProject_role services context organizationId
                (Some projectId) userId members
                (query_deletedStatus (getRequest context)) disable p projectMembers
                organization_header project_resolves project_lookup
                required member rest record []
                (insufficientOrganizationRole AuthorizationUserRole member
                   (accessRole (getHandler context)))
                (called (FindAllOrganizationMembers
                   (EnvGuard.organizationMemberFilters (Some organizationId) userId
                      (FetchDeletedRecords (getHandler context))
                      (query_deletedStatus (getRequest context))
                      (FetchDeletedRecordsLevel (getHandler context))))
                   start)
                Hrequired first_member Hmember Hpositive Hdata) as Ha.
  pose proof (fun project_open =>
                validateProject_role unauthorized services context
                  (Some projectId) userId members
                  (FetchDeletedRecordsLevel (getHandler context))
                  (query_deletedStatus (getRequest context)) disable p projectMembers
                  project_resolves project_lookup
                  required member rest record []
                  (called (FindAllOrganizationMembers
                     (EnvGuard.organizationMemberFilters (Some organizationId) userId
                        (FetchDeletedRecords (getHandler context))
                        (query_deletedStatus (getRequest context))
                        (FetchDeletedRecordsLevel (getHandler context))))
                     (environmentStarted validate unauthorized services context))
                  project_open Hrequired first_member Hmember Hpositive Hdata) as He.
  split; [| apply project_role_satisfies].
  assert (Hallowed :
            includes (projectUserRoles required) (projectRole record) = true ->
            allowed authorization
            /\ (serialisable (getRequest context) /\ identifiersWellFormed
                /\ projectGate p projectMembers disable = false ->
                allowed environment)).
  { intros Hrole. rewrite Hrole in Ha, He. split.
    - rewrite authorization_resolved. eapply validated_allows. exact Ha.
    - intros (Hserialised & (Horg & Hproject) & project_open).
      rewrite (environment_resolved Hserialised Horg Hproject).
      eapply validated_allows. exact (He project_open). }
  assert (Hdenied :
            includes (projectUserRoles required) (projectRole record) = false ->
            deniedWith InsufficientRole authorization
            /\ (serialisable (getRequest context) /\ identifiersWellFormed
                /\ projectGate p projectMembers disable = false ->
                deniedWith InsufficientRole environment)).
  { intros Hrole. rewrite Hrole in Ha, He. split.
    - unfold deniedWith, denied. rewrite authorization_resolved.
      rewrite (tryCatch_fail _ _ _ _ _ (bind_fail _ _ _ _ _ Ha)).
      cbn. rewrite projectFetched_handled. cbn. eauto.
    - intros (Hserialised & (Horg & Hproject) & project_open).
      unfold deniedWith, denied.
      rewrite (environment_resolved Hserialised Horg Hproject).
      rewrite (tryCatch_fail _ _ _ _ _ (bind_fail _ _ _ _ _ (He project_open))).
      rewrite environment_handleError_throws. cbn.
      rewrite environmentStarted_handled. cbn. eauto. }
  destruct (projectRole record), required;
    first [apply Hallowed; reflexivity | apply Hdenied; reflexivity].
Qed.

End Memberships.

(** C4: the code does not do what the claim says.  In the authorization
    guard the flag the organization-role check leaves is not cleared for
    an Owner: on an operation that declares the project role Manager and
    no organization role, the mask is [undefined], [&] gives 0 whatever
    the Owner's bit is, and an Owner without project membership is denied
    with [InsufficientRole], against the guard's own comments.  The
    environment guard allows the same request. *)
Lemma C4_owner_with_pending_flag_is_denied :
  deniedWith InsufficientRole
    (AuthorizationGuard.canActivate AuthorizationUserRole.bit
       (Example.services
          (Example.member OrganizationUserRoles.OWNER OrganizationType.NORMAL)
          ProjectType.NORMAL Example.nobody (Some "found"))
       (Example.context
          (Example.handler None None None (Some ProjectUserRoles.MANAGER))
          Example.identified)
       start)
  /\ allowed
       (EnvGuard.canActivate Uuid.validate false
          (Example.services
             (Example.member OrganizationUserRoles.OWNER OrganizationType.NORMAL)
             ProjectType.NORMAL Example.nobody (Some "found"))
          (Example.context
             (Example.handler None None None (Some ProjectUserRoles.MANAGER))
             Example.identified)
          start).
Proof. split; [split; [reflexivity | eexists; reflexivity] | reflexivity]. Qed.

Lemma C8_project_member_role_witness :
  (allowed
     (AuthorizationGuard.canActivate AuthorizationUserRole.bit
        (Example.services
           (Example.member OrganizationUserRoles.MEMBER OrganizationType.NORMAL)
           ProjectType.NORMAL (Example.projectMember ProjectUserRoles.MEMBER)
           (Some "found"))
        (Example.context
           (Example.handler (Some MethodAccessRole.MEMBER) None None
                            (Some ProjectUserRoles.MEMBER))
           Example.identified)
        start)
   /\ allowed
        (EnvGuard.canActivate Uuid.validate false
        (Example.services
           (Example.member OrganizationUserRoles.MEMBER OrganizationType.NORMAL)
           ProjectType.NORMAL (Example.projectMember ProjectUserRoles.MEMBER)
           (Some "found"))
        (Example.context
           (Example.handler (Some MethodAccessRole.MEMBER) None None
                            (Some ProjectUserRoles.MEMBER))
           Example.identified)
        start))
  /\ (deniedWith InsufficientRole
        (AuthorizationGuard.canActivate AuthorizationUserRole.bit
        (Example.services
           (Example.member OrganizationUserRoles.MEMBER OrganizationType.NORMAL)
           ProjectType.NORMAL (Example.projectMember ProjectUserRoles.MEMBER)
           (Some "found"))
        (Example.context
           (Example.handler (Some MethodAccessRole.MEMBER) None None
                            (Some ProjectUserRoles.MANAGER))
           Example.identified)
        start)
      /\ deniedWith InsufficientRole
           (EnvGuard.canActivate Uuid.validate false
        (Example.services
           (Example.member OrganizationUserRoles.MEMBER OrganizationType.NORMAL)
           ProjectType.NORMAL (Example.projectMember ProjectUserRoles.MEMBER)
           (Some "found"))
        (Example.context
           (Example.handler (Some MethodAccessRole.MEMBER) None None
                            (Some ProjectUserRoles.MANAGER))
           Example.identified)
        start))
  /\ (allowed
        (AuthorizationGuard.canActivate AuthorizationUserRole.bit
        (Example.services
           (Example.member OrganizationUserRoles.MEMBER OrganizationType.NORMAL)
           ProjectType.NORMAL (Example.projectMember ProjectUserRoles.MANAGER)
           (Some "found"))
        (Example.context
           (Example.handler (Some MethodAccessRole.MEMBER) None None
                            (Some ProjectUserRoles.MANAGER))
           Example.identified)
        start)
      /\ allowed
           (EnvGuard.canActivate Uuid.validate false
        (Example.services
           (Example.member OrganizationUserRoles.MEMBER OrganizationType.NORMAL)
           ProjectType.NORMAL (Example.projectMember ProjectUserRoles.MANAGER)
           (Some "found"))
        (Example.context
           (Example.handler (Some MethodAccessRole.MEMBER) None None
                            (Some ProjectUserRoles.MANAGER))
           Example.identified)
        start)).
Proof.
  split; [| split].
  - destruct (C8_project_member_role Uuid.validate false AuthorizationUserRole.bit
                (Example.services
                   (Example.member OrganizationUserRoles.MEMBER OrganizationType.NORMAL)
                   ProjectType.NORMAL (Example.projectMember ProjectUserRoles.MEMBER)
                   (Some "found"))
                (Example.context
                   (Example.handler (Some MethodAccessRole.MEMBER) None None
                                    (Some ProjectUserRoles.MEMBER))
                   Example.identified)
                Example.organizationId Example.projectId
                (Example.member OrganizationUserRoles.MEMBER OrganizationType.NORMAL)
                _ _ {| projectType := ProjectType.NORMAL |}
                (Example.projectMember ProjectUserRoles.MEMBER)
                eq_refl eq_refl eq_refl eq_refl eq_refl eq_refl eq_refl eq_refl
                ProjectUserRoles.MEMBER {| projectRole := ProjectUserRoles.MEMBER |})
      as [[authorization environment] _];
      try reflexivity; try discriminate.
    split; [exact authorization | apply environment; split; [eexists; reflexivity | split; [split; reflexivity | reflexivity]]].
  - destruct (C8_project_member_role Uuid.validate false AuthorizationUserRole.bit
                (Example.services
                   (Example.member OrganizationUserRoles.MEMBER OrganizationType.NORMAL)
                   ProjectType.NORMAL (Example.projectMember ProjectUserRoles.MEMBER)
                   (Some "found"))
                (Example.context
                   (Example.handler (Some MethodAccessRole.MEMBER) None None
                                    (Some ProjectUserRoles.MANAGER))
                   Example.identified)
                Example.organizationId Example.projectId
                (Example.member OrganizationUserRoles.MEMBER OrganizationType.NORMAL)
                _ _ {| projectType := ProjectType.NORMAL |}
                (Example.projectMember ProjectUserRoles.MEMBER)
                eq_refl eq_refl eq_refl eq_refl eq_refl eq_refl eq_refl eq_refl
                ProjectUserRoles.MANAGER {| projectRole := ProjectUserRoles.MEMBER |})
      as [[authorization environment] _];
      try reflexivity; try discriminate.
    split; [exact authorization | apply environment; split; [eexists; reflexivity | split; [split; reflexivity | reflexivity]]].
  - destruct (C8_project_member_role Uuid.validate false AuthorizationUserRole.bit
                (Example.services
                   (Example.member OrganizationUserRoles.MEMBER OrganizationType.NORMAL)
                   ProjectType.NORMAL (Example.projectMember ProjectUserRoles.MANAGER)
                   (Some "found"))
                (Example.context
                   (Example.handler (Some MethodAccessRole.MEMBER) None None
                                    (Some ProjectUserRoles.MANAGER))
                   Example.identified)
                Example.organizationId Example.projectId
                (Example.member OrganizationUserRoles.MEMBER OrganizationType.NORMAL)
                _ _ {| projectType := ProjectType.NORMAL |}
                (Example.projectMember ProjectUserRoles.MANAGER)
                eq_refl eq_refl eq_refl eq_refl eq_refl eq_refl eq_refl eq_refl
                ProjectUserRoles.MANAGER {| projectRole := ProjectUserRoles.MANAGER |})
      as [[authorization environment] _];
      try reflexivity; try discriminate.
    split; [exact authorization | apply environment; split; [eexists; reflexivity | split; [split; reflexivity | reflexivity]]].
Defined.

(** C10 as the specification states it fails: the count of project
    memberships is consulted, by the tenant gate of the project tier.  On
    an operation that declares no project role and sets the tenant gate,
    with a project of the restricted type, the environment guard allows
    the caller who has no project membership and denies, with
    [TenantFeatureDisabled], the caller who has exactly one; the caller has
    one organization membership and the project resolves in both runs.
    The tenant gate of the organization tier denies likewise, in both
    guards, a caller whose organization is of the restricted type. *)
Lemma C10_project_membership_count_is_consulted :
  (allowed
     (EnvGuard.canActivate Uuid.validate false
        (Example.services
           (Example.member OrganizationUserRoles.MEMBER OrganizationType.NORMAL)
           ProjectType.SALESFORCE_ONLY Example.nobody (Some "found"))
        (Example.context
           (Example.handler (Some MethodAccessRole.MEMBER) (Some true) None None)
           Example.identified)
        start)
   /\ deniedWith (TenantFeatureDisabled Example.userId)
        (EnvGuard.canActivate Uuid.validate false
           (Example.services
              (Example.member OrganizationUserRoles.MEMBER OrganizationType.NORMAL)
              ProjectType.SALESFORCE_ONLY
              (Example.projectMember ProjectUserRoles.MANAGER) (Some "found"))
           (Example.context
              (Example.handler (Some MethodAccessRole.MEMBER) (Some true) None None)
              Example.identified)
           start)
   /\ ~ allowed
         (EnvGuard.canActivate Uuid.validate false
            (Example.services
               (Example.member OrganizationUserRoles.MEMBER OrganizationType.NORMAL)
               ProjectType.SALESFORCE_ONLY
               (Example.projectMember ProjectUserRoles.MANAGER) (Some "found"))
            (Example.context
               (Example.handler (Some MethodAccessRole.MEMBER) (Some true) None None)
               Example.identified)
            start))
  /\ ~ allowed
        (AuthorizationGuard.canActivate AuthorizationUserRole.bit
           (Example.services
              (Example.member OrganizationUserRoles.MEMBER
                              OrganizationType.SALESFORCE_ONLY)
              ProjectType.NORMAL Example.nobody (Some "found"))
           (Example.context
              (Example.handler (Some MethodAccessRole.MEMBER) (Some true) None None)
              Example.identified)
           start)
  /\ ~ allowed
        (EnvGuard.canActivate Uuid.validate false
           (Example.services
              (Example.member OrganizationUserRoles.MEMBER
                              OrganizationType.SALESFORCE_ONLY)
              ProjectType.NORMAL Example.nobody (Some "found"))
           (Example.context
              (Example.handler (Some MethodAccessRole.MEMBER) (Some true) None None)
              Example.identified)
           start).
Proof.
  repeat split; try (eexists; reflexivity); discriminate.
Qed.

Lemma C10_no_project_role_ignores_memberships_witness :
  allowed
    (AuthorizationGuard.canActivate AuthorizationUserRole.bit
       (Example.services
          (Example.member OrganizationUserRoles.MEMBER OrganizationType.NORMAL)
          ProjectType.SALESFORCE_ONLY Example.nobody (Some "found"))
       (Example.context
          (Example.handler (Some MethodAccessRole.MEMBER) (Some true) None None)
          Example.identified)
       start)
  /\ allowed
       (EnvGuard.canActivate Uuid.validate false
          (Example.services
             (Example.member OrganizationUserRoles.MEMBER OrganizationType.NORMAL)
             ProjectType.SALESFORCE_ONLY Example.nobody (Some "found"))
          (Example.context
             (Example.handler (Some MethodAccessRole.MEMBER) (Some true) None None)
             Example.identified)
          start).
Proof.
  destruct (C10_no_project_role_ignores_memberships Uuid.validate false
              AuthorizationUserRole.bit
              (Example.services
                 (Example.member OrganizationUserRoles.MEMBER OrganizationType.NORMAL)
                 ProjectType.SALESFORCE_ONLY Example.nobody (Some "found"))
              (Example.context
                 (Example.handler (Some MethodAccessRole.MEMBER) (Some true) None None)
                 Example.identified)
              Example.organizationId Example.projectId
              (Example.member OrganizationUserRoles.MEMBER OrganizationType.NORMAL)
              _ _ {| projectType := ProjectType.SALESFORCE_ONLY |} Example.nobody
              eq_refl eq_refl eq_refl eq_refl eq_refl eq_refl eq_refl eq_refl
              eq_refl)
    as [authorization environment].
  split; [apply authorization; reflexivity
         | apply environment; [eexists; reflexivity | split; reflexivity | reflexivity]].
Defined.

(** The authorization guard starts [validateSalesforceType] and does not
    await it either: the project's type never denies a request there.  The
    caller below is the one member of a restricted project, on an
    operation that sets the tenant gate. *)
Lemma project_type_is_not_awaited :
  projectGate {| projectType := ProjectType.SALESFORCE_ONLY |}
    (Example.projectMember ProjectUserRoles.MEMBER) (Some true) = true
  /\ allowed
       (AuthorizationGuard.canActivate AuthorizationUserRole.bit
          (Example.services
             (Example.member OrganizationUserRoles.MEMBER OrganizationType.NORMAL)
             ProjectType.SALESFORCE_ONLY
             (Example.projectMember ProjectUserRoles.MEMBER) (Some "found"))
          (Example.context
             (Example.handler (Some MethodAccessRole.MEMBER) (Some true) None None)
             Example.identified)
          start).
Proof. repeat split. Qed.

(** * Further properties of the guards *)

(** ** The order of the lookups *)

(** The lookups of the authorization guard, in the order of the hierarchy. *)
Definition authorizationLookups (context : ExecutionContext) : list Call :=
  let request := getRequest context in
  let handler := getHandler context in
  [ FindAllOrganizationMembers
      (AuthorizationGuard.organizationMemberFilters (header_organizationId request)
         (user_id request) (FetchDeletedRecords handler) (query_deletedStatus request)
         (FetchDeletedRecordsLevel handler));
    FindProjectById (header_projectId request);
    FindAllProjectMembers
      (AuthorizationGuard.getProjectMemberFilters (header_projectId request)
         (user_id request) (FetchDeletedRecordsLevel handler) (FetchDeletedRecords handler)
         (query_deletedStatus request)) ].

(** Those of the environment guard: the environment lookup comes first,
    when the environment identifier is well formed. *)
Definition environmentLookups (validate : string -> bool) (context : ExecutionContext)
    : list Call :=
  let request := getRequest context in
  let handler := getHandler context in
  ((if wellFormed validate (header_environmentId request)
    then [FindEnvironmentId (header_environmentId request) (header_projectId request)
                            (header_organizationId request)]
    else [])
   ++ [ FindAllOrganizationMembers
          (EnvGuard.organizationMemberFilters (header_organizationId request)
             (user_id request) (FetchDeletedRecords handler) (query_deletedStatus request)
             (FetchDeletedRecordsLevel handler));
        FindProjectById (header_projectId request);
        FindAllProjectMembers
          (EnvGuard.getProjectMemberFilters (header_projectId request)
             (user_id request) (FetchDeletedRecordsLevel handler)
             (FetchDeletedRecords handler) (query_deletedStatus request)) ])%list.

(** X1: whatever the services answer, the calls a guard has issued when it
    returns or throws are an initial part of its lookups in hierarchy
    order: each lookup at most once, none before the one above it. *)
Theorem lookups_in_hierarchy_order
    (validate : string -> bool) (unauthorized : bool)
    (AuthorizationUserRole : OrganizationUserRoles.t -> Z)
    (services : Services) (context : ExecutionContext) :
  (exists n,
     calls (fst (AuthorizationGuard.canActivate AuthorizationUserRole services
                   context start))
     = firstn n (authorizationLookups context))
  /\ (exists n,
        calls (fst (EnvGuard.canActivate validate unauthorized services context start))
        = firstn n (environmentLookups validate context)).
Proof.
  split.
  - unfold authorizationLookups. unfold_guards. split_cases. all: cbn.
    all: first [ exists 0%nat; reflexivity | exists 1%nat; reflexivity
               | exists 2%nat; reflexivity | exists 3%nat; reflexivity ].
  - unfold environmentLookups, wellFormed. unfold_guards.
    destruct (truthy (header_environmentId (getRequest context))),
      (EnvGuard.validateHeader validate (header_environmentId (getRequest context)));
      cbn [negb orb andb]; split_cases.
    all: cbn.
    all: first [ exists 0%nat; reflexivity | exists 1%nat; reflexivity
               | exists 2%nat; reflexivity | exists 3%nat; reflexivity
               | exists 4%nat; reflexivity ].
Qed.

(** ** What an allowed request carries *)

(** X2: a request the authorization guard allows carries the project the
    project service resolved for its project header; so does a request the
    environment guard allows, unless that guard returned by the
    project-optional short circuit, the state untouched. *)
Theorem allowed_request_carries_project
    (validate : string -> bool) (unauthorized : bool)
    (AuthorizationUserRole : OrganizationUserRoles.t -> Z)
    (services : Services) (context : ExecutionContext) :
  (allowed (AuthorizationGuard.canActivate AuthorizationUserRole services context start) ->
   exists p,
     findProjectById services (header_projectId (getRequest context)) = inr p
     /\ project (fst (AuthorizationGuard.canActivate AuthorizationUserRole services
                        context start)) = Some p)
  /\ (allowed (EnvGuard.canActivate validate unauthorized services context start) ->
      (truthy (header_projectId (getRequest context)) = false
       /\ isProjectValidationOptional (getHandler context) = Some true
       /\ fst (EnvGuard.canActivate validate unauthorized services context start) = start)
      \/ exists p,
           findProjectById services (header_projectId (getRequest context)) = inr p
           /\ project (fst (EnvGuard.canActivate validate unauthorized services
                              context start)) = Some p).
Proof.
  unfold allowed. split.
  - unfold_guards. split_cases_eqn. all: cbn; try discriminate; intros _; eauto.
  - unfold_guards.
    destruct (truthy (header_projectId (getRequest context))) eqn:Hproject;
      cbn [negb andb].
    + rewrite andb_false_r. split_cases_eqn.
      all: cbn; try discriminate; intros _; right; eauto.
    + rewrite andb_true_r.
      destruct (isProjectValidationOptional (getHandler context)) as [[|]|] eqn:Hoptional;
        cbn [isTrue]; split_cases_eqn.
      all: cbn; try discriminate; intros _; left; auto.
Qed.

Lemma allowed_request_carries_project_witness :
  (exists p,
     findProjectById
       (Example.services
          (Example.member OrganizationUserRoles.OWNER OrganizationType.NORMAL)
          ProjectType.NORMAL Example.nobody (Some "found"))
       (Some Example.projectId) = inr p
     /\ project (fst (AuthorizationGuard.canActivate AuthorizationUserRole.bit
                        (Example.services
                           (Example.member OrganizationUserRoles.OWNER
                                           OrganizationType.NORMAL)
                           ProjectType.NORMAL Example.nobody (Some "found"))
                        (Example.context
                           (Example.handler (Some MethodAccessRole.OWNER) None None None)
                           Example.identified)
                        start)) = Some p)
  /\ ((truthy None = false
       /\ Some true = Some true
       /\ fst (EnvGuard.canActivate Uuid.validate false
                 (Example.services Example.nobody ProjectType.NORMAL Example.nobody None)
                 (Example.context (Example.handler None None (Some true) None)
                    (Example.request (Some Example.organizationId) None None))
                 start) = start)
      \/ exists p,
           findProjectById
             (Example.services Example.nobody ProjectType.NORMAL Example.nobody None)
             None = inr p
           /\ project (fst (EnvGuard.canActivate Uuid.validate false
                 (Example.services Example.nobody ProjectType.NORMAL Example.nobody None)
                 (Example.context (Example.handler None None (Some true) None)
                    (Example.request (Some Example.organizationId) None None))
                 start)) = Some p).
Proof.
  split.
  - apply (allowed_request_carries_project Uuid.validate false AuthorizationUserRole.bit
             (Example.services
                (Example.member OrganizationUserRoles.OWNER OrganizationType.NORMAL)
                ProjectType.NORMAL Example.nobody (Some "found"))
             (Example.context
                (Example.handler (Some MethodAccessRole.OWNER) None None None)
                Example.identified)).
    reflexivity.
  - apply (allowed_request_carries_project Uuid.validate false AuthorizationUserRole.bit
             (Example.services Example.nobody ProjectType.NORMAL Example.nobody None)
             (Example.context (Example.handler None None (Some true) None)
                (Example.request (Some Example.organizationId) None None))).
    reflexivity.
Defined.

(** ** The tag the environment guard throws *)

(** X3: a failure caught inside a validator of the environment guard is
    classified twice, there and in [canActivate]; so the tag of the error
    the guard throws no longer tells a bad request from an unauthorized
    one.  When the guard-validation error is not an [UnauthorizedException]
    every denial leaves the guard untagged; when it is one, a denial is
    untagged or tagged [UNAUTHORIZED]. *)
Theorem environment_guard_tag
    (validate : string -> bool) (unauthorized : bool)
    (services : Services) (context : ExecutionContext) :
  let r := EnvGuard.canActivate validate unauthorized services context start in
  allowed r
  \/ snd r = inl (GuardValidationFailedException None)
  \/ (unauthorized = true
      /\ snd r = inl (GuardValidationFailedException
                        (Some GuardValidationExceptionTypes.UNAUTHORIZED_EXCEPTION))).
Proof.
  unfold allowed. destruct unauthorized.
  all: unfold_guards;
    unfold EnvGuard.instanceofUnauthorizedException, InvalidIdentifierFormat,
      NotOrganizationMember, TenantFeatureDisabled, NotProjectMember, InsufficientRole,
      ProjectNotFound, EnvironmentNotFound;
    cbv beta iota zeta; split_cases.
  all: cbn; auto.
Qed.

(** ** What a decision does not depend on *)

(** The same request with another environment header, serialised, when it
    can be, to another text. *)
Definition withEnvironmentId (environmentId : Header) (text : string)
    (context : ExecutionContext) : ExecutionContext :=
  {| getHandler := getHandler context;
     getRequest :=
       {| header_organizationId := header_organizationId (getRequest context);
          header_projectId := header_projectId (getRequest context);
          header_environmentId := environmentId;
          query_deletedStatus := query_deletedStatus (getRequest context);
          user_id := user_id (getRequest context);
          JSON_stringify :=
            match JSON_stringify (getRequest context) with
            | Circular message => Circular message
            | Serialised _ => Serialised text
            end |} |}.

Definition withEnvironmentService
    (lookup : Header -> Header -> Header -> Exception + option string)
    (services : Services) : Services :=
  {| findAllOrganizationMembers := findAllOrganizationMembers services;
     findProjectById := findProjectById services;
     findAllProjectMembers := findAllProjectMembers services;
     findEnvironmentId := lookup |}.

Definition withProjects (change : ProjectDTO -> ProjectDTO) (services : Services)
    : Services :=
  {| findAllOrganizationMembers := findAllOrganizationMembers services;
     findProjectById :=
       fun projectId =>
         match findProjectById services projectId with
         | inr p => inr (change p)
         | inl e => inl e
         end;
     findAllProjectMembers := findAllProjectMembers services;
     findEnvironmentId := findEnvironmentId services |}.

(** Two states agree when they hold the same log and the same project; two
    computations are related when, from states that agree, they end the
    same way in states that agree. *)
Definition agree (st st' : State) : Prop :=
  handled st = handled st' /\ project st = project st'.

Definition related {A} (m m' : Js A) : Prop :=
  forall st st', agree st st' ->
    snd (m st) = snd (m' st') /\ agree (fst (m st)) (fst (m' st')).

Lemma related_ret {A} (a : A) : related (ret a) (ret a).
Proof. intros st st' H. now split. Qed.

Lemma related_throw {A} (e : Exception) : related (throw (A := A) e) (throw e).
Proof. intros st st' H. now split. Qed.

Lemma related_invoke {A} (c c' : Call) (r : Exception + A) :
  related (invoke c r) (invoke c' r).
Proof. intros st st' H. now split. Qed.

Lemma related_logError (e : Exception) : related (logError e) (logError e).
Proof.
  intros st st' [Hlog Hproject]. split; [reflexivity |].
  split; cbn; congruence.
Qed.

Lemma related_attachProject (p : ProjectDTO) :
  related (attachProject p) (attachProject p).
Proof. intros st st' [Hlog Hproject]. split; [reflexivity |]. now split. Qed.

Lemma related_bind {A B} (m m' : Js A) (k k' : A -> Js B) :
  related m m' -> (forall a, related (k a) (k' a)) ->
  related (bind m k) (bind m' k').
Proof.
  intros Hm Hk st st' H. unfold bind.
  destruct (Hm st st' H) as [Hsnd Hfst].
  destruct (m st) as [st1 [e | a]], (m' st') as [st1' [e' | a']];
    cbn in Hsnd, Hfst; try discriminate.
  - injection Hsnd as ->. now split.
  - injection Hsnd as ->. now apply Hk.
Qed.

Lemma related_tryCatch {A} (m m' : Js A) (h h' : Exception -> Js A) :
  related m m' -> (forall e, related (h e) (h' e)) ->
  related (tryCatch m h) (tryCatch m' h').
Proof.
  intros Hm Hh st st' H. unfold tryCatch.
  destruct (Hm st st' H) as [Hsnd Hfst].
  destruct (m st) as [st1 [e | a]], (m' st') as [st1' [e' | a']];
    cbn in Hsnd, Hfst; try discriminate.
  - injection Hsnd as ->. now apply Hh.
  - injection Hsnd as ->. now split.
Qed.

(** A floating call leaves the caller's log alone; it is related to any
    other floating call that, like it, attaches no project. *)
Lemma related_floating {A B} (m : Js A) (m' : Js B) :
  (forall st, project (fst (m st)) = project st) ->
  (forall st, project (fst (m' st)) = project st) ->
  related (floating m) (floating m').
Proof.
  intros Hm Hm' st st' [Hlog Hproject]. rewrite !floating_returns.
  split; [reflexivity |]. split; cbn; [exact Hlog |].
  now rewrite Hm, Hm'.
Qed.

Lemma related_handleError {A} unauthorized (e : Exception) :
  related (EnvGuard.handleError unauthorized (A := A) e)
          (EnvGuard.handleError unauthorized e).
Proof.
  unfold EnvGuard.handleError. apply related_bind; [apply related_logError |].
  intros _. destruct (EnvGuard.instanceofUnauthorizedException _ _);
    apply related_throw.
Qed.

(** Build a relation between two computations of the same shape. *)
Ltac relate :=
  repeat first
    [ apply related_ret | apply related_throw | apply related_invoke
    | apply related_logError | apply related_attachProject
    | apply related_handleError
    | apply related_bind; [| intros ?]
    | apply related_tryCatch; [| intros ?]
    | match goal with
      | |- related (match ?x with _ => _ end) _ => destruct x
      end ].

Lemma validateEnvironmentId_attaches_nothing
    validate unauthorized services environmentId projectId organizationId
    fetch fromFilter level st :
  project (fst (EnvGuard.validateEnvironmentId validate unauthorized services
                  environmentId projectId organizationId fetch fromFilter level st))
  = project st.
Proof.
  unfold EnvGuard.validateEnvironmentId, EnvGuard.handleError,
    tryCatch, bind, invoke, logError, ret, throw.
  cbv beta iota zeta. split_cases. all: reflexivity.
Qed.

(** X4: the environment guard's decision depends neither on the environment
    header nor on what the environment service answers: with another
    header and another service the guard returns or throws the same and
    has attached the same project. *)
Theorem environment_guard_ignores_environment
    (validate : string -> bool) (unauthorized : bool)
    (services : Services) (context : ExecutionContext)
    (environmentId : Header) (text : string)
    (lookup : Header -> Header -> Header -> Exception + option string) :
  let r := EnvGuard.canActivate validate unauthorized services context start in
  let r' := EnvGuard.canActivate validate unauthorized
              (withEnvironmentService lookup services)
              (withEnvironmentId environmentId text context) start in
  snd r' = snd r /\ project (fst r') = project (fst r).
Proof.
  cut (related
         (EnvGuard.canActivate validate unauthorized
            (withEnvironmentService lookup services)
            (withEnvironmentId environmentId text context))
         (EnvGuard.canActivate validate unauthorized services context)).
  { intros H. destruct (H start start) as [Hsnd [Hlog Hproject]]; [now split |].
    cbv zeta. auto. }
  unfold EnvGuard.canActivate, EnvGuard.validateOrganizationId,
    EnvGuard.validateOrganizationMembers, EnvGuard.validateProject,
    EnvGuard.getProjectById, first, stringify, withEnvironmentService,
    withEnvironmentId.
  cbn [getHandler getRequest header_organizationId header_projectId header_environmentId
       query_deletedStatus user_id JSON_stringify findAllOrganizationMembers
       findProjectById findAllProjectMembers findEnvironmentId].
  destruct (JSON_stringify (getRequest context)); [rewrite !bind_ret |].
  all: relate.
  all: apply related_floating; intros st;
    apply validateEnvironmentId_attaches_nothing.
Qed.

(** X5: the authorization guard's decision does not depend on the project's
    type: whatever project the project service resolves, the guard returns
    or throws the same, after the same lookups. *)
Theorem authorization_guard_ignores_project_type
    (AuthorizationUserRole : OrganizationUserRoles.t -> Z)
    (services : Services) (context : ExecutionContext)
    (change : ProjectDTO -> ProjectDTO) :
  let r := AuthorizationGuard.canActivate AuthorizationUserRole services context start in
  let r' := AuthorizationGuard.canActivate AuthorizationUserRole
              (withProjects change services) context start in
  snd r' = snd r /\ calls (fst r') = calls (fst r).
Proof.
  unfold withProjects. unfold_guards.
  cbn [findAllOrganizationMembers findProjectById findAllProjectMembers findEnvironmentId].
  split_cases. all: cbn; auto.
Qed.

(** ** Lookups that fail, answers that do not fit *)

(** Run a guard in a scenario: unfold it, take the branches the scenario's
    equations select, and split on what the scenario leaves open. *)
Ltac same_filters :=
  change AuthorizationGuard.organizationMemberFilters
    with EnvGuard.organizationMemberFilters in *;
  change AuthorizationGuard.getProjectMemberFilters
    with EnvGuard.getProjectMemberFilters in *.

Ltac take H :=
  rewrite ?H;
  cbv beta iota zeta;
  cbn [Z.eqb Pos.eqb Z.ltb Z.compare Pos.compare negb andb orb].

Ltac absent_from_calls :=
  let f := fresh "f" in
  let H := fresh "H" in
  cbn; intros f H;
  repeat (destruct H as [H | H]; [discriminate H |]);
  exact H.

Section ProjectLookupFails.

Variable validate : string -> bool.
Variable unauthorized : bool.
Variable AuthorizationUserRole : OrganizationUserRoles.t -> Z.
Variable services : Services.
Variable context : ExecutionContext.
Variables organizationId projectId : string.
Variable members : PaginatedData OrganizationMemberDTO.
Variable member : OrganizationMemberDTO.
Variable rest : list OrganizationMemberDTO.
Variable failure : Exception.

Let userId := user_id (getRequest context).
Let disable := DisableFeatureForSalesforceType (getHandler context).

Hypothesis organization_header :
  header_organizationId (getRequest context) = Some organizationId.
Hypothesis project_header :
  header_projectId (getRequest context) = Some projectId.
Hypothesis organization_lookup :
  findAllOrganizationMembers services
    (EnvGuard.organizationMemberFilters (Some organizationId) userId
       (FetchDeletedRecords (getHandler context))
       (query_deletedStatus (getRequest context))
       (FetchDeletedRecordsLevel (getHandler context)))
  = inr members.
Hypothesis one_membership : totalCount members = 1.
Hypothesis first_member : data members = member :: rest.
Hypothesis organization_open : organizationGate member disable = false.
Hypothesis project_fails : findProjectById services (Some projectId) = inl failure.

(** X6: when the project service fails, whatever it throws, both guards
    deny with the project-not-found bad request, and the caller's project
    memberships are never looked up. *)
Theorem project_lookup_failure_is_project_not_found :
  (deniedWith (ProjectNotFound (Some projectId))
     (AuthorizationGuard.canActivate AuthorizationUserRole services context start)
   /\ forall filters,
        ~ In (FindAllProjectMembers filters)
             (calls (fst (AuthorizationGuard.canActivate AuthorizationUserRole services
                            context start))))
  /\ (serialisable (getRequest context) ->
      identifiersWellFormed validate organizationId projectId ->
      deniedWith (ProjectNotFound (Some projectId))
        (EnvGuard.canActivate validate unauthorized services context start)
      /\ forall filters,
           ~ In (FindAllProjectMembers filters)
                (calls (fst (EnvGuard.canActivate validate unauthorized services
                               context start)))).
Proof.
  pose proof organization_lookup as Hlookup. pose proof organization_open as Hopen.
  unfold organizationGate, userId, disable in Hlookup, Hopen. split.
  - rewrite (authorization_canActivate_member AuthorizationUserRole services context
               organizationId members organization_header organization_lookup
               member rest projectId one_membership first_member organization_open
               project_header).
    unfold_guards. take organization_header. take project_fails.
    split; [split; [reflexivity | eexists; reflexivity] | absent_from_calls].
  - intros Hserialised [Horg Hproject].
    rewrite <- organization_header in Horg. rewrite <- project_header in Hproject.
    rewrite (canActivate_identified _ _ _ _ Hserialised Horg Hproject).
    unfold environmentStarted. rewrite floating_returns.
    unfold deniedWith, denied. unfold_guards.
    take organization_header. take project_header. take Hlookup.
    take one_membership. take first_member. take Hopen.
    take project_fails. split_cases.
    all: split; [split; [reflexivity | eexists; reflexivity] | absent_from_calls].
Qed.

End ProjectLookupFails.

(** Services that answer every call with the given results, failures
    included. *)
Module Scenario.
Definition services
    (organizationMembers : Exception + PaginatedData OrganizationMemberDTO)
    (resolved : Exception + ProjectDTO)
    (projectMembers : Exception + PaginatedData ProjectMemberDTO)
    (environment : Exception + option string) : Services :=
  {| findAllOrganizationMembers := fun _ => organizationMembers;
     findProjectById := fun _ => resolved;
     findAllProjectMembers := fun _ => projectMembers;
     findEnvironmentId := fun _ _ _ => environment |}.

Definition down : Exception := ServiceError "connection refused".

(** Two project memberships, of the given roles, in the order returned. *)
Definition projectMembers (role other : ProjectUserRoles.t)
    : PaginatedData ProjectMemberDTO :=
  {| data := [{| projectRole := role |}; {| projectRole := other |}]; totalCount := 2 |}.
End Scenario.

Lemma project_lookup_failure_is_project_not_found_witness :
  (deniedWith (ProjectNotFound (Some Example.projectId))
     (AuthorizationGuard.canActivate AuthorizationUserRole.bit
        (Scenario.services
           (inr (Example.member OrganizationUserRoles.OWNER OrganizationType.NORMAL))
           (inl Scenario.down) (inr Example.nobody) (inr (Some "found")))
        (Example.context (Example.handler (Some MethodAccessRole.OWNER) None None None)
                         Example.identified)
        start)
   /\ forall filters,
        ~ In (FindAllProjectMembers filters)
             (calls (fst (AuthorizationGuard.canActivate AuthorizationUserRole.bit
                (Scenario.services
                   (inr (Example.member OrganizationUserRoles.OWNER
                                        OrganizationType.NORMAL))
                   (inl Scenario.down) (inr Example.nobody) (inr (Some "found")))
                (Example.context
                   (Example.handler (Some MethodAccessRole.OWNER) None None None)
                   Example.identified)
                start))))
  /\ (deniedWith (ProjectNotFound (Some Example.projectId))
        (EnvGuard.canActivate Uuid.validate false
           (Scenario.services
              (inr (Example.member OrganizationUserRoles.OWNER OrganizationType.NORMAL))
              (inl Scenario.down) (inr Example.nobody) (inr (Some "found")))
           (Example.context (Example.handler (Some MethodAccessRole.OWNER) None None None)
                            Example.identified)
           start)
      /\ forall filters,
           ~ In (FindAllProjectMembers filters)
                (calls (fst (EnvGuard.canActivate Uuid.validate false
                   (Scenario.services
                      (inr (Example.member OrganizationUserRoles.OWNER
                                           OrganizationType.NORMAL))
                      (inl Scenario.down) (inr Example.nobody) (inr (Some "found")))
                   (Example.context
                      (Example.handler (Some MethodAccessRole.OWNER) None None None)
                      Example.identified)
                   start)))).
Proof.
  destruct (project_lookup_failure_is_project_not_found Uuid.validate false
              AuthorizationUserRole.bit
              (Scenario.services
                 (inr (Example.member OrganizationUserRoles.OWNER OrganizationType.NORMAL))
                 (inl Scenario.down) (inr Example.nobody) (inr (Some "found")))
              (Example.context
                 (Example.handler (Some MethodAccessRole.OWNER) None None None)
                 Example.identified)
              Example.organizationId Example.projectId
              (Example.member OrganizationUserRoles.OWNER OrganizationType.NORMAL)
              _ _ Scenario.down
              eq_refl eq_refl eq_refl eq_refl eq_refl eq_refl eq_refl)
    as [authorization environment].
  split; [exact authorization
         | apply environment; [eexists; reflexivity | split; reflexivity]].
Defined.

(** ** Project membership and the two layers of roles *)

Section ProjectMemberships.

Variable validate : string -> bool.
Variable unauthorized : bool.
Variable AuthorizationUserRole : OrganizationUserRoles.t -> Z.
Variable services : Services.
Variable context : ExecutionContext.
Variables organizationId projectId : string.
Variable members : PaginatedData OrganizationMemberDTO.
Variable member : OrganizationMemberDTO.
Variable rest : list OrganizationMemberDTO.
Variable p : ProjectDTO.
Variable projectMembers : PaginatedData ProjectMemberDTO.

Let userId := user_id (getRequest context).
Let disable := DisableFeatureForSalesforceType (getHandler context).

(** The caller has exactly one membership in the organization, [member],
    which the tenant gate lets pass; the project resolves; the project
    membership service answers with [projectMembers]. *)
Hypothesis organization_header :
  header_organizationId (getRequest context) = Some organizationId.
Hypothesis project_header :
  header_projectId (getRequest context) = Some projectId.
Hypothesis organization_lookup :
  findAllOrganizationMembers services
    (EnvGuard.organizationMemberFilters (Some organizationId) userId
       (FetchDeletedRecords (getHandler context))
       (query_deletedStatus (getRequest context))
       (FetchDeletedRecordsLevel (getHandler context)))
  = inr members.
Hypothesis one_membership : totalCount members = 1.
Hypothesis first_member : data members = member :: rest.
Hypothesis organization_open : organizationGate member disable = false.
Hypothesis project_resolves : findProjectById services (Some projectId) = inr p.
Hypothesis project_lookup :
  findAllProjectMembers services
    (EnvGuard.getProjectMemberFilters (Some projectId) userId
       (FetchDeletedRecordsLevel (getHandler context))
       (FetchDeletedRecords (getHandler context))
       (query_deletedStatus (getRequest context)))
  = inr projectMembers.

Let authorization :=
  AuthorizationGuard.canActivate AuthorizationUserRole services context start.
Let environment :=
  EnvGuard.canActivate validate unauthorized services context start.

Let looked_up : State :=
  called (FindAllOrganizationMembers
            (EnvGuard.organizationMemberFilters (Some organizationId) userId
               (FetchDeletedRecords (getHandler context))
               (query_deletedStatus (getRequest context))
               (FetchDeletedRecordsLevel (getHandler context))))
         start.

Let authorization_project (st : State) :=
  AuthorizationGuard.validateProject services context (Some projectId) userId
    members (query_deletedStatus (getRequest context)) disable
    (insufficientOrganizationRole AuthorizationUserRole member
       (accessRole (getHandler context)))
    st.

Let environment_project (st : State) :=
  EnvGuard.validateProject unauthorized services context (Some projectId) userId
    members (FetchDeletedRecordsLevel (getHandler context))
    (query_deletedStatus (getRequest context)) disable st.

(** How a guard ends once its project validation has ended. *)
Lemma authorization_allows st' :
  authorization_project looked_up = (st', inr tt) -> allowed authorization.
Proof.
  intros E. unfold authorization.
  rewrite (authorization_resolved AuthorizationUserRole services context
             organizationId projectId members member rest
             organization_header project_header organization_lookup
             one_membership first_member organization_open).
  eapply validated_allows. exact E.
Qed.

Lemma authorization_denies cause st' tag :
  authorization_project looked_up
  = (logged cause st', inl (GuardValidationFailedException tag)) ->
  handled st' = [] ->
  deniedWith cause authorization.
Proof.
  intros E Hlog. unfold authorization, deniedWith, denied.
  rewrite (authorization_resolved AuthorizationUserRole services context
             organizationId projectId members member rest
             organization_header project_header organization_lookup
             one_membership first_member organization_open).
  rewrite (tryCatch_fail _ _ _ _ _ (bind_fail _ _ _ _ _ E)).
  cbn. rewrite Hlog. cbn. eauto.
Qed.

Lemma environment_allows st' :
  serialisable (getRequest context) ->
  identifiersWellFormed validate organizationId projectId ->
  environment_project
    (called (FindAllOrganizationMembers
               (EnvGuard.organizationMemberFilters (Some organizationId) userId
                  (FetchDeletedRecords (getHandler context))
                  (query_deletedStatus (getRequest context))
                  (FetchDeletedRecordsLevel (getHandler context))))
            (environmentStarted validate unauthorized services context))
  = (st', inr tt) ->
  allowed environment.
Proof.
  intros Hserialised [Horg Hproject] E. unfold environment.
  rewrite (environment_resolved validate unauthorized services context
             organizationId projectId members member rest
             organization_header project_header organization_lookup
             one_membership first_member organization_open Hserialised Horg Hproject).
  eapply validated_allows. exact E.
Qed.

Lemma environment_denies cause st' tag :
  serialisable (getRequest context) ->
  identifiersWellFormed validate organizationId projectId ->
  environment_project
    (called (FindAllOrganizationMembers
               (EnvGuard.organizationMemberFilters (Some organizationId) userId
                  (FetchDeletedRecords (getHandler context))
                  (query_deletedStatus (getRequest context))
                  (FetchDeletedRecordsLevel (getHandler context))))
            (environmentStarted validate unauthorized services context))
  = (logged cause st', inl (GuardValidationFailedException tag)) ->
  handled st' = [] ->
  deniedWith cause environment.
Proof.
  intros Hserialised [Horg Hproject] E Hlog. unfold environment, deniedWith, denied.
  rewrite (environment_resolved validate unauthorized services context
             organizationId projectId members member rest
             organization_header project_header organization_lookup
             one_membership first_member organization_open Hserialised Horg Hproject).
  rewrite (tryCatch_fail _ _ _ _ _ (bind_fail _ _ _ _ _ E)).
  rewrite environment_handleError_throws. cbn. rewrite Hlog. cbn. eauto.
Qed.

(** The log is empty when the projects are fetched. *)
Lemma fetched_nothing_logged filters st :
  handled st = [] ->
  handled (called (FindAllProjectMembers filters)
             (attached p (called (FindProjectById (Some projectId)) st))) = [].
Proof. intros H. exact H. Qed.

(** X7: a caller who is not an Owner and has no project membership is
    denied with [NotProjectMember] by both guards as soon as the operation
    declares a required project role, whichever role it is. *)
Theorem no_project_membership_is_denied (required : ProjectUserRoles.t) :
  organizationRole member <> OrganizationUserRoles.OWNER ->
  projectAccessRole (getHandler context) = Some required ->
  totalCount projectMembers <= 0 ->
  deniedWith (NotProjectMember userId (Some projectId)) authorization
  /\ (serialisable (getRequest context) ->
      identifiersWellFormed validate organizationId projectId ->
      deniedWith (NotProjectMember userId (Some projectId)) environment).
Proof.
  intros Hmember Hrequired Hcount. split.
  - eapply authorization_denies.
    + exact (authorization_validateProject_not_member services context organizationId
               (Some projectId) userId members (query_deletedStatus (getRequest context))
               disable p projectMembers
               organization_header project_resolves project_lookup
               required member rest _ looked_up
               Hrequired first_member Hmember Hcount).
    + apply projectFetched_handled.
  - intros Hserialised Hids.
    eapply environment_denies; [exact Hserialised | exact Hids | |].
    + refine (validateProject_not_member unauthorized services context
                (Some projectId) userId members _ _ disable p projectMembers
                project_resolves project_lookup required member rest _
                _ Hrequired first_member Hmember Hcount).
      unfold projectGate.
      replace (totalCount projectMembers =? 1) with false; [reflexivity |].
      symmetry. apply Z.eqb_neq. lia.
    + apply fetched_nothing_logged, environmentStarted_handled.
Qed.

(** X8: for a caller who is not an Owner and who has project memberships,
    on an operation that declares a required project role, the decision is
    the role check on the first membership returned.  The other
    memberships play no part, nor does, in the authorization guard, the
    flag of the organization-role check. *)
Theorem first_project_membership_decides
    (required : ProjectUserRoles.t) (record : ProjectMemberDTO)
    (others : list ProjectMemberDTO) :
  organizationRole member <> OrganizationUserRoles.OWNER ->
  projectAccessRole (getHandler context) = Some required ->
  0 < totalCount projectMembers ->
  data projectMembers = record :: others ->
  (if includes (projectUserRoles required) (projectRole record)
   then allowed authorization
   else deniedWith InsufficientRole authorization)
  /\ (serialisable (getRequest context) ->
      identifiersWellFormed validate organizationId projectId ->
      projectGate p projectMembers disable = false ->
      if includes (projectUserRoles required) (projectRole record)
      then allowed environment
      else deniedWith InsufficientRole environment).
Proof.
  intros Hmember Hrequired Hcount Hdata. split.
  - pose proof (authorization_validateProject_role services context organizationId
                  (Some projectId) userId members (query_deletedStatus (getRequest context))
                  disable p projectMembers
                  organization_header project_resolves project_lookup
                  required member rest record others
                  (insufficientOrganizationRole AuthorizationUserRole member
                     (accessRole (getHandler context)))
                  looked_up
                  Hrequired first_member Hmember Hcount Hdata) as E.
    destruct (includes (projectUserRoles required) (projectRole record)).
    + eapply authorization_allows. exact E.
    + eapply authorization_denies; [exact E | apply projectFetched_handled].
  - intros Hserialised Hids Hgate.
    pose proof (validateProject_role unauthorized services context
                  (Some projectId) userId members
                  (FetchDeletedRecordsLevel (getHandler context))
                  (query_deletedStatus (getRequest context)) disable p projectMembers
                  project_resolves project_lookup
                  required member rest record others
                  (called (FindAllOrganizationMembers
                     (EnvGuard.organizationMemberFilters (Some organizationId) userId
                        (FetchDeletedRecords (getHandler context))
                        (query_deletedStatus (getRequest context))
                        (FetchDeletedRecordsLevel (getHandler context))))
                     (environmentStarted validate unauthorized services context))
                  Hgate Hrequired first_member Hmember Hcount Hdata) as E.
    destruct (includes (projectUserRoles required) (projectRole record)).
    + eapply environment_allows; [exact Hserialised | exact Hids | exact E].
    + eapply environment_denies; [exact Hserialised | exact Hids | exact E |].
      apply fetched_nothing_logged, environmentStarted_handled.
Qed.

(** X9: in the authorization guard, when the project-role block is skipped,
    because the operation declares no project role or because the caller
    is an Owner of the organization, the organization-role check decides:
    the request is allowed when the member's bit and the required mask
    share a bit, and denied with [InsufficientRole] otherwise, whatever the
    caller's project memberships. *)
Theorem organization_role_decides_without_project_role :
  projectAccessRole (getHandler context) = None
  \/ ((exists required, projectAccessRole (getHandler context) = Some required)
      /\ organizationRole member = OrganizationUserRoles.OWNER) ->
  if insufficientOrganizationRole AuthorizationUserRole member
       (accessRole (getHandler context))
  then deniedWith InsufficientRole authorization
  else allowed authorization.
Proof.
  intros Hskipped.
  assert (E : authorization_project looked_up
              = if insufficientOrganizationRole AuthorizationUserRole member
                     (accessRole (getHandler context))
                then (logged InsufficientRole
                        (projectFetched context (Some projectId) userId
                           (query_deletedStatus (getRequest context)) disable p
                           projectMembers looked_up),
                      inl (GuardValidationFailedException
                             (Some GuardValidationExceptionTypes.UNAUTHORIZED_EXCEPTION)))
                else (projectFetched context (Some projectId) userId
                        (query_deletedStatus (getRequest context)) disable p
                        projectMembers looked_up,
                      inr tt)).
  { destruct Hskipped as [Hnone | [[required Hrequired] Howner]].
    - exact (authorization_validateProject_no_role services context organizationId
               (Some projectId) userId members (query_deletedStatus (getRequest context))
               disable p projectMembers
               organization_header project_resolves project_lookup _ looked_up Hnone).
    - exact (authorization_validateProject_owner services context organizationId
               (Some projectId) userId members (query_deletedStatus (getRequest context))
               disable p projectMembers
               organization_header project_resolves project_lookup
               required member rest _ looked_up Hrequired first_member Howner). }
  assert (Hcases : forall flag,
             insufficientOrganizationRole AuthorizationUserRole member
               (accessRole (getHandler context)) = flag ->
             if flag then deniedWith InsufficientRole authorization
             else allowed authorization).
  { intros flag Hflag. rewrite Hflag in E. destruct flag.
    - eapply authorization_denies; [exact E | apply projectFetched_handled].
    - eapply authorization_allows. exact E. }
  exact (Hcases _ eq_refl).
Qed.

(** X10: in the environment guard, a caller with exactly one membership in
    a project of the restricted type, on an operation that sets the tenant
    gate, is denied with [TenantFeatureDisabled], whatever the caller's
    roles and whatever role the operation requires. *)
Theorem restricted_project_is_denied :
  serialisable (getRequest context) ->
  identifiersWellFormed validate organizationId projectId ->
  totalCount projectMembers = 1 ->
  projectType p = ProjectType.SALESFORCE_ONLY ->
  isTrue disable = true ->
  deniedWith (TenantFeatureDisabled userId) environment.
Proof.
  intros Hserialised Hids Hcount Htype Hflag.
  eapply environment_denies; [exact Hserialised | exact Hids | |].
  - refine (validateProject_gated unauthorized services context
              (Some projectId) userId members _ _ disable p projectMembers
              project_resolves project_lookup _ _).
    unfold projectGate. now rewrite Hcount, Htype, Hflag.
  - apply fetched_nothing_logged, environmentStarted_handled.
Qed.

End ProjectMemberships.

Module Setting.
(** A fully identified request to an operation with the given decorators. *)
Definition operation (access : option Z) (gate : option bool)
    (required : option ProjectUserRoles.t) : ExecutionContext :=
  Example.context (Example.handler access gate None required) Example.identified.

(** Services for a caller with one organization membership of the given
    role, in an unrestricted organization. *)
Definition caller (role : OrganizationUserRoles.t) (type : ProjectType.t)
    (projectMembers : PaginatedData ProjectMemberDTO) : Services :=
  Example.services (Example.member role OrganizationType.NORMAL) type projectMembers
                   (Some "found").
End Setting.

Lemma no_project_membership_is_denied_witness :
  deniedWith (NotProjectMember Example.userId (Some Example.projectId))
    (AuthorizationGuard.canActivate AuthorizationUserRole.bit
       (Setting.caller OrganizationUserRoles.MANAGER ProjectType.NORMAL Example.nobody)
       (Setting.operation (Some MethodAccessRole.MEMBER) None
                          (Some ProjectUserRoles.MEMBER))
       start)
  /\ deniedWith (NotProjectMember Example.userId (Some Example.projectId))
       (EnvGuard.canActivate Uuid.validate false
          (Setting.caller OrganizationUserRoles.MANAGER ProjectType.NORMAL Example.nobody)
          (Setting.operation (Some MethodAccessRole.MEMBER) None
                             (Some ProjectUserRoles.MEMBER))
          start).
Proof.
  destruct (no_project_membership_is_denied Uuid.validate false AuthorizationUserRole.bit
              (Setting.caller OrganizationUserRoles.MANAGER ProjectType.NORMAL
                              Example.nobody)
              (Setting.operation (Some MethodAccessRole.MEMBER) None
                                 (Some ProjectUserRoles.MEMBER))
              Example.organizationId Example.projectId
              (Example.member OrganizationUserRoles.MANAGER OrganizationType.NORMAL)
              _ _ {| projectType := ProjectType.NORMAL |} Example.nobody
              eq_refl eq_refl eq_refl eq_refl eq_refl eq_refl eq_refl eq_refl
              ProjectUserRoles.MEMBER)
    as [authorization environment];
    try reflexivity; try discriminate.
  split; [exact authorization
         | apply environment; [eexists; reflexivity | split; reflexivity]].
Defined.

Lemma first_project_membership_decides_witness :
  (allowed
     (AuthorizationGuard.canActivate AuthorizationUserRole.bit
        (Setting.caller OrganizationUserRoles.MEMBER ProjectType.NORMAL
           (Scenario.projectMembers ProjectUserRoles.MANAGER ProjectUserRoles.MEMBER))
        (Setting.operation (Some MethodAccessRole.OWNER) None
                           (Some ProjectUserRoles.MANAGER))
        start)
   /\ allowed
        (EnvGuard.canActivate Uuid.validate false
           (Setting.caller OrganizationUserRoles.MEMBER ProjectType.NORMAL
              (Scenario.projectMembers ProjectUserRoles.MANAGER ProjectUserRoles.MEMBER))
           (Setting.operation (Some MethodAccessRole.OWNER) None
                              (Some ProjectUserRoles.MANAGER))
           start))
  /\ (deniedWith InsufficientRole
        (AuthorizationGuard.canActivate AuthorizationUserRole.bit
           (Setting.caller OrganizationUserRoles.MEMBER ProjectType.NORMAL
              (Scenario.projectMembers ProjectUserRoles.MEMBER ProjectUserRoles.MANAGER))
           (Setting.operation (Some MethodAccessRole.MEMBER) None
                              (Some ProjectUserRoles.MANAGER))
           start)
      /\ deniedWith InsufficientRole
           (EnvGuard.canActivate Uuid.validate false
              (Setting.caller OrganizationUserRoles.MEMBER ProjectType.NORMAL
                 (Scenario.projectMembers ProjectUserRoles.MEMBER
                                          ProjectUserRoles.MANAGER))
              (Setting.operation (Some MethodAccessRole.MEMBER) None
                                 (Some ProjectUserRoles.MANAGER))
              start)).
Proof.
  split.
  - destruct (first_project_membership_decides Uuid.validate false
                AuthorizationUserRole.bit
                (Setting.caller OrganizationUserRoles.MEMBER ProjectType.NORMAL
                   (Scenario.projectMembers ProjectUserRoles.MANAGER
                                            ProjectUserRoles.MEMBER))
                (Setting.operation (Some MethodAccessRole.OWNER) None
                                   (Some ProjectUserRoles.MANAGER))
                Example.organizationId Example.projectId
                (Example.member OrganizationUserRoles.MEMBER OrganizationType.NORMAL)
                _ _ {| projectType := ProjectType.NORMAL |}
                (Scenario.projectMembers ProjectUserRoles.MANAGER ProjectUserRoles.MEMBER)
                eq_refl eq_refl eq_refl eq_refl eq_refl eq_refl eq_refl eq_refl
                ProjectUserRoles.MANAGER {| projectRole := ProjectUserRoles.MANAGER |}
                [{| projectRole := ProjectUserRoles.MEMBER |}])
      as [authorization environment];
      try reflexivity; try discriminate.
    split; [exact authorization
           | apply environment; [eexists | split |]; reflexivity].
  - destruct (first_project_membership_decides Uuid.validate false
                AuthorizationUserRole.bit
                (Setting.caller OrganizationUserRoles.MEMBER ProjectType.NORMAL
                   (Scenario.projectMembers ProjectUserRoles.MEMBER
                                            ProjectUserRoles.MANAGER))
                (Setting.operation (Some MethodAccessRole.MEMBER) None
                                   (Some ProjectUserRoles.MANAGER))
                Example.organizationId Example.projectId
                (Example.member OrganizationUserRoles.MEMBER OrganizationType.NORMAL)
                _ _ {| projectType := ProjectType.NORMAL |}
                (Scenario.projectMembers ProjectUserRoles.MEMBER ProjectUserRoles.MANAGER)
                eq_refl eq_refl eq_refl eq_refl eq_refl eq_refl eq_refl eq_refl
                ProjectUserRoles.MANAGER {| projectRole := ProjectUserRoles.MEMBER |}
                [{| projectRole := ProjectUserRoles.MANAGER |}])
      as [authorization environment];
      try reflexivity; try discriminate.
    split; [exact authorization
           | apply environment; [eexists | split |]; reflexivity].
Defined.

Lemma organization_role_decides_without_project_role_witness :
  deniedWith InsufficientRole
    (AuthorizationGuard.canActivate AuthorizationUserRole.bit
       (Setting.caller OrganizationUserRoles.MEMBER ProjectType.NORMAL
          (Example.projectMember ProjectUserRoles.MANAGER))
       (Setting.operation (Some MethodAccessRole.OWNER) None None)
       start)
  /\ allowed
       (AuthorizationGuard.canActivate AuthorizationUserRole.bit
          (Setting.caller OrganizationUserRoles.OWNER ProjectType.NORMAL Example.nobody)
          (Setting.operation (Some MethodAccessRole.OWNER) None
                             (Some ProjectUserRoles.MANAGER))
          start).
Proof.
  split.
  - apply (organization_role_decides_without_project_role AuthorizationUserRole.bit
             (Setting.caller OrganizationUserRoles.MEMBER ProjectType.NORMAL
                (Example.projectMember ProjectUserRoles.MANAGER))
             (Setting.operation (Some MethodAccessRole.OWNER) None None)
             Example.organizationId Example.projectId
             (Example.member OrganizationUserRoles.MEMBER OrganizationType.NORMAL)
             {| organizationRole := OrganizationUserRoles.MEMBER;
                getOrganization := {| organizationType := OrganizationType.NORMAL |} |}
             [] {| projectType := ProjectType.NORMAL |}
             (Example.projectMember ProjectUserRoles.MANAGER)
             eq_refl eq_refl eq_refl eq_refl eq_refl eq_refl eq_refl eq_refl).
    left. reflexivity.
  - apply (organization_role_decides_without_project_role AuthorizationUserRole.bit
             (Setting.caller OrganizationUserRoles.OWNER ProjectType.NORMAL Example.nobody)
             (Setting.operation (Some MethodAccessRole.OWNER) None
                                (Some ProjectUserRoles.MANAGER))
             Example.organizationId Example.projectId
             (Example.member OrganizationUserRoles.OWNER OrganizationType.NORMAL)
             {| organizationRole := OrganizationUserRoles.OWNER;
                getOrganization := {| organizationType := OrganizationType.NORMAL |} |}
             [] {| projectType := ProjectType.NORMAL |} Example.nobody
             eq_refl eq_refl eq_refl eq_refl eq_refl eq_refl eq_refl eq_refl).
    right. split; [eexists |]; reflexivity.
Defined.

Lemma restricted_project_is_denied_witness :
  deniedWith (TenantFeatureDisabled Example.userId)
    (EnvGuard.canActivate Uuid.validate false
       (Setting.caller OrganizationUserRoles.OWNER ProjectType.SALESFORCE_ONLY
          (Example.projectMember ProjectUserRoles.MANAGER))
       (Setting.operation None (Some true) None)
       start).
Proof.
  apply (restricted_project_is_denied Uuid.validate false
           (Setting.caller OrganizationUserRoles.OWNER ProjectType.SALESFORCE_ONLY
              (Example.projectMember ProjectUserRoles.MANAGER))
           (Setting.operation None (Some true) None)
           Example.organizationId Example.projectId
           (Example.member OrganizationUserRoles.OWNER OrganizationType.NORMAL)
           {| organizationRole := OrganizationUserRoles.OWNER;
              getOrganization := {| organizationType := OrganizationType.NORMAL |} |}
           [] {| projectType := ProjectType.SALESFORCE_ONLY |}
           (Example.projectMember ProjectUserRoles.MANAGER));
    try reflexivity.
  - eexists. reflexivity.
  - split; reflexivity.
Defined.

(** ** Missing headers in the authorization guard *)

Ltac only_organization_lookup :=
  let c := fresh "c" in
  let H := fresh "H" in
  cbn; intros c H;
  repeat (destruct H as [H | H]; [subst c; eauto |]);
  contradiction.

(** X11: the authorization guard reads its headers with [toString()].  A
    request without the organization header is denied on the [TypeError]
    this raises, before any lookup; a request without the project header
    is never allowed, and nothing but the organization membership is
    looked up for it. *)
Theorem authorization_guard_missing_header
    (AuthorizationUserRole : OrganizationUserRoles.t -> Z)
    (services : Services) (context : ExecutionContext) :
  let r := AuthorizationGuard.canActivate AuthorizationUserRole services context start in
  (header_organizationId (getRequest context) = None ->
   deniedWith (TypeError "Cannot read properties of undefined (reading 'toString')") r
   /\ calls (fst r) = [])
  /\ (header_projectId (getRequest context) = None ->
      denied r
      /\ forall c, In c (calls (fst r)) -> exists filters, c = FindAllOrganizationMembers filters).
Proof.
  cbv zeta. split.
  - intros Habsent. unfold deniedWith, denied. unfold_guards. take Habsent.
    cbn. eauto.
  - intros Habsent. unfold denied. unfold_guards. take Habsent. split_cases.
    all: split; [cbn; eauto | only_organization_lookup].
Qed.

Lemma authorization_guard_missing_header_witness :
  (deniedWith (TypeError "Cannot read properties of undefined (reading 'toString')")
     (AuthorizationGuard.canActivate AuthorizationUserRole.bit
        (Setting.caller OrganizationUserRoles.OWNER ProjectType.NORMAL Example.nobody)
        (Example.context (Example.handler (Some MethodAccessRole.OWNER) None None None)
           (Example.request None (Some Example.projectId) None))
        start)
   /\ calls (fst (AuthorizationGuard.canActivate AuthorizationUserRole.bit
        (Setting.caller OrganizationUserRoles.OWNER ProjectType.NORMAL Example.nobody)
        (Example.context (Example.handler (Some MethodAccessRole.OWNER) None None None)
           (Example.request None (Some Example.projectId) None))
        start)) = [])
  /\ (denied
        (AuthorizationGuard.canActivate AuthorizationUserRole.bit
           (Setting.caller OrganizationUserRoles.OWNER ProjectType.NORMAL Example.nobody)
           (Example.context (Example.handler (Some MethodAccessRole.OWNER) None None None)
              (Example.request (Some Example.organizationId) None None))
           start)
      /\ forall c,
           In c (calls (fst (AuthorizationGuard.canActivate AuthorizationUserRole.bit
              (Setting.caller OrganizationUserRoles.OWNER ProjectType.NORMAL
                              Example.nobody)
              (Example.context
                 (Example.handler (Some MethodAccessRole.OWNER) None None None)
                 (Example.request (Some Example.organizationId) None None))
              start))) ->
           exists filters, c = FindAllOrganizationMembers filters).
Proof.
  split.
  - apply (authorization_guard_missing_header AuthorizationUserRole.bit
             (Setting.caller OrganizationUserRoles.OWNER ProjectType.NORMAL Example.nobody)
             (Example.context
                (Example.handler (Some MethodAccessRole.OWNER) None None None)
                (Example.request None (Some Example.projectId) None))).
    reflexivity.
  - apply (authorization_guard_missing_header AuthorizationUserRole.bit
             (Setting.caller OrganizationUserRoles.OWNER ProjectType.NORMAL Example.nobody)
             (Example.context
                (Example.handler (Some MethodAccessRole.OWNER) None None None)
                (Example.request (Some Example.organizationId) None None))).
    reflexivity.
Defined.

(** ** Deleted-record visibility, tier by tier *)

(** X14: the visibility a request declares reaches the filters of one tier
    only.  Whatever the flag and the caller's own value, the filters of the
    tiers the operation did not declare ask for records that are not
    deleted; with no level declared, all of them do. *)
Theorem deleted_status_only_at_declared_tier
    (organizationId projectId : Header) (userId : string)
    (fetchDeletedRecords : option bool) (deletedStatusFromFilter : option string)
    (level : option FetchDeletedRecordsAccessLevel.t) :
  let plain := Enum DeletedStatus.NOT_DELETED in
  let organization guardFilters :=
    omf_deletedStatus
      (guardFilters organizationId userId fetchDeletedRecords deletedStatusFromFilter
                    level) in
  let project guardFilters :=
    pmf_deletedStatus
      (guardFilters projectId userId level fetchDeletedRecords deletedStatusFromFilter) in
  let environment :=
    eef_deletedStatus
      (EnvGuard.environmentFilters fetchDeletedRecords deletedStatusFromFilter level) in
  match level with
  | Some FetchDeletedRecordsAccessLevel.ORGANIZATION =>
      project AuthorizationGuard.getProjectMemberFilters = plain
      /\ project EnvGuard.getProjectMemberFilters = plain
      /\ environment = plain
  | Some FetchDeletedRecordsAccessLevel.PROJECT =>
      organization AuthorizationGuard.organizationMemberFilters = plain
      /\ organization EnvGuard.organizationMemberFilters = plain
      /\ environment = plain
  | Some FetchDeletedRecordsAccessLevel.ENVIRONMENT =>
      organization AuthorizationGuard.organizationMemberFilters = plain
      /\ organization EnvGuard.organizationMemberFilters = plain
      /\ project AuthorizationGuard.getProjectMemberFilters = plain
      /\ project EnvGuard.getProjectMemberFilters = plain
  | None =>
      organization AuthorizationGuard.organizationMemberFilters = plain
      /\ organization EnvGuard.organizationMemberFilters = plain
      /\ project AuthorizationGuard.getProjectMemberFilters = plain
      /\ project EnvGuard.getProjectMemberFilters = plain
      /\ environment = plain
  end.
Proof. destruct level as [[| |]|]; cbn; repeat split. Qed.

(** ** When the organization membership cannot be established *)

Section OrganizationLookupFails.

Variable validate : string -> bool.
Variable unauthorized : bool.
Variable AuthorizationUserRole : OrganizationUserRoles.t -> Z.
Variable services : Services.
Variable context : ExecutionContext.
Variables organizationId projectId : string.

Let userId := user_id (getRequest context).
Let filters :=
  EnvGuard.organizationMemberFilters (Some organizationId) userId
    (FetchDeletedRecords (getHandler context))
    (query_deletedStatus (getRequest context))
    (FetchDeletedRecordsLevel (getHandler context)).

Hypothesis organization_header :
  header_organizationId (getRequest context) = Some organizationId.

(** X12: when the organization-member service fails, whatever it throws,
    the authorization guard denies with that failure as the cause and
    issues no other call; the environment guard, given well-formed
    identifiers, denies with the same cause and never looks the project
    up. *)
Theorem organization_lookup_failure_is_denied (failure : Exception) :
  findAllOrganizationMembers services filters = inl failure ->
  (deniedWith failure
     (AuthorizationGuard.canActivate AuthorizationUserRole services context start)
   /\ calls (fst (AuthorizationGuard.canActivate AuthorizationUserRole services context
                    start))
      = [FindAllOrganizationMembers filters])
  /\ (header_projectId (getRequest context) = Some projectId ->
      serialisable (getRequest context) ->
      identifiersWellFormed validate organizationId projectId ->
      deniedWith failure
        (EnvGuard.canActivate validate unauthorized services context start)
      /\ forall id,
           ~ In (FindProjectById id)
                (calls (fst (EnvGuard.canActivate validate unauthorized services context
                               start)))).
Proof.
  intros Hfails. unfold filters, userId in Hfails. split.
  - unfold deniedWith, denied. unfold_guards. take organization_header.
    same_filters. take Hfails. cbn. split; [split; [reflexivity | eexists; reflexivity] | reflexivity].
  - intros project_header Hserialised [Horg Hproject].
    rewrite <- organization_header in Horg. rewrite <- project_header in Hproject.
    rewrite (canActivate_identified _ _ _ _ Hserialised Horg Hproject).
    unfold environmentStarted. rewrite floating_returns.
    unfold deniedWith, denied. unfold_guards.
    take organization_header. take project_header. take Hfails. split_cases.
    all: split; [split; [reflexivity | eexists; reflexivity] | absent_from_calls].
Qed.

(** X13: a page of memberships that counts one record and holds none is
    never taken for a membership: reading its first record raises a
    [TypeError], on which both guards deny without looking the project
    up. *)
Theorem inconsistent_membership_page_is_denied
    (members : PaginatedData OrganizationMemberDTO) :
  findAllOrganizationMembers services filters = inr members ->
  totalCount members = 1 ->
  data members = [] ->
  (deniedWith
     (TypeError "Cannot read properties of undefined (reading 'getOrganization')")
     (AuthorizationGuard.canActivate AuthorizationUserRole services context start)
   /\ forall id,
        ~ In (FindProjectById id)
             (calls (fst (AuthorizationGuard.canActivate AuthorizationUserRole services
                            context start))))
  /\ (header_projectId (getRequest context) = Some projectId ->
      serialisable (getRequest context) ->
      identifiersWellFormed validate organizationId projectId ->
      deniedWith
        (TypeError "Cannot read properties of undefined (reading 'getOrganization')")
        (EnvGuard.canActivate validate unauthorized services context start)
      /\ forall id,
           ~ In (FindProjectById id)
                (calls (fst (EnvGuard.canActivate validate unauthorized services context
                               start)))).
Proof.
  intros Hlookup Hcount Hdata. unfold filters, userId in Hlookup. split.
  - unfold deniedWith, denied. unfold_guards. take organization_header.
    same_filters. take Hlookup. take Hcount. take Hdata.
    split; [split; [reflexivity | eexists; reflexivity] | absent_from_calls].
  - intros project_header Hserialised [Horg Hproject].
    rewrite <- organization_header in Horg. rewrite <- project_header in Hproject.
    rewrite (canActivate_identified _ _ _ _ Hserialised Horg Hproject).
    unfold environmentStarted. rewrite floating_returns.
    unfold deniedWith, denied. unfold_guards.
    take organization_header. take project_header. take Hlookup.
    take Hcount. take Hdata. split_cases.
    all: split; [split; [reflexivity | eexists; reflexivity] | absent_from_calls].
Qed.

End OrganizationLookupFails.

Module Outage.
(** The organization-member service is down; the other services answer. *)
Definition services : Services :=
  Scenario.services (inl Scenario.down) (inr {| projectType := ProjectType.NORMAL |})
                    (inr (Example.projectMember ProjectUserRoles.MANAGER))
                    (inr (Some "found")).

(** The organization-member service counts one membership and returns none. *)
Definition inconsistent : PaginatedData OrganizationMemberDTO :=
  {| data := []; totalCount := 1 |}.

Definition miscounting : Services :=
  Scenario.services (inr inconsistent) (inr {| projectType := ProjectType.NORMAL |})
                    (inr (Example.projectMember ProjectUserRoles.MANAGER))
                    (inr (Some "found")).

Definition operation : ExecutionContext :=
  Setting.operation (Some MethodAccessRole.MEMBER) None None.
End Outage.

Lemma organization_lookup_failure_is_denied_witness :
  (deniedWith Scenario.down
     (AuthorizationGuard.canActivate AuthorizationUserRole.bit Outage.services
        Outage.operation start)
   /\ calls (fst (AuthorizationGuard.canActivate AuthorizationUserRole.bit Outage.services
                    Outage.operation start))
      = [FindAllOrganizationMembers
           (EnvGuard.organizationMemberFilters (Some Example.organizationId)
              Example.userId None None None)])
  /\ (deniedWith Scenario.down
        (EnvGuard.canActivate Uuid.validate false Outage.services Outage.operation start)
      /\ forall id,
           ~ In (FindProjectById id)
                (calls (fst (EnvGuard.canActivate Uuid.validate false Outage.services
                               Outage.operation start)))).
Proof.
  destruct (organization_lookup_failure_is_denied Uuid.validate false
              AuthorizationUserRole.bit Outage.services Outage.operation
              Example.organizationId Example.projectId eq_refl Scenario.down eq_refl)
    as [authorization environment].
  split; [exact authorization
         | apply environment; [reflexivity | eexists; reflexivity | split; reflexivity]].
Defined.

Lemma inconsistent_membership_page_is_denied_witness :
  (deniedWith
     (TypeError "Cannot read properties of undefined (reading 'getOrganization')")
     (AuthorizationGuard.canActivate AuthorizationUserRole.bit Outage.miscounting
        Outage.operation start)
   /\ forall id,
        ~ In (FindProjectById id)
             (calls (fst (AuthorizationGuard.canActivate AuthorizationUserRole.bit
                            Outage.miscounting Outage.operation start))))
  /\ (deniedWith
        (TypeError "Cannot read properties of undefined (reading 'getOrganization')")
        (EnvGuard.canActivate Uuid.validate false Outage.miscounting Outage.operation
           start)
      /\ forall id,
           ~ In (FindProjectById id)
                (calls (fst (EnvGuard.canActivate Uuid.validate false Outage.miscounting
                               Outage.operation start)))).
Proof.
  destruct (inconsistent_membership_page_is_denied Uuid.validate false
              AuthorizationUserRole.bit Outage.miscounting Outage.operation
              Example.organizationId Example.projectId eq_refl Outage.inconsistent
              eq_refl eq_refl eq_refl)
    as [authorization environment].
  split; [exact authorization
         | apply environment; [reflexivity | eexists; reflexivity | split; reflexivity]].
Defined.

(** * The exception-group service

    [ExceptionGroupManagementService] (src/authorization.guard.ts, second
    part) keeps one group per exception type and environment, with the
    number of exceptions logged in it.  Three of its operations are
    modelled: [logAnExceptionGroup], [updateExceptionCount] and
    [findExceptionGroups] with the two private methods it calls.

    The repository and the exception-log service are parameters: each call
    is recorded in the order issued and answered by the parameter.  The
    entity, the DTOs and [Severity] are declared outside the file; they are
    modelled by the fields and getters the service uses, [Severity] by a
    type with the member [CRITICAL].  An exception count is a JavaScript
    number, an IEEE 754 double; pagination bounds are whole numbers.  The
    log lines are left out. *)

Module ExceptionGroupManagementService.

Module ExceptionGroup.
Record t (Severity : Type) := {
  id : option string;             (* assigned when the group is first saved *)
  exceptionGroupType : string;
  exceptionCount : float;
  preferredSeverity : Severity;
  environmentId : string
}.
Arguments id {Severity} _.
Arguments exceptionGroupType {Severity} _.
Arguments exceptionCount {Severity} _.
Arguments preferredSeverity {Severity} _.
Arguments environmentId {Severity} _.

(** [group.exceptionCount = count] *)
Definition setExceptionCount {Severity} (group : t Severity) (count : float) : t Severity :=
  {| id := id group;
     exceptionGroupType := exceptionGroupType group;
     exceptionCount := count;
     preferredSeverity := preferredSeverity group;
     environmentId := environmentId group |}.
End ExceptionGroup.

Module ExceptionGroupDTO.
Record t (Severity : Type) := {
  getId : string;
  getExceptionGroupType : string;
  getExceptionCount : float;
  getPreferredSeverity : Severity
}.
Arguments getId {Severity} _.
Arguments getExceptionGroupType {Severity} _.
Arguments getExceptionCount {Severity} _.
Arguments getPreferredSeverity {Severity} _.
End ExceptionGroupDTO.

Module ExceptionGroupResponseDTO.
(** [reported] stands for the six fields the service derives from the
    group's logs (first and latest reported time, responses by interval,
    severity counts, status counts, assignees): [None] when it sets them to
    [null]. *)
Record t (Severity Summary : Type) := {
  exceptionGroupId : string;
  exceptionGroupType : string;
  exceptionCount : float;
  preferredSeverity : Severity;
  reported : option Summary
}.
Arguments exceptionGroupId {Severity Summary} _.
Arguments exceptionGroupType {Severity Summary} _.
Arguments exceptionCount {Severity Summary} _.
Arguments preferredSeverity {Severity Summary} _.
Arguments reported {Severity Summary} _.
End ExceptionGroupResponseDTO.

Record PaginationFiltersDTO := { skip : Z; take : Z }.

Record PaginatedData (A : Type) := {
  data : list A;
  totalCount : Z;
  pagination : option PaginationFiltersDTO
}.
Arguments data {A} _.
Arguments totalCount {A} _.
Arguments pagination {A} _.

(** [xs.slice(start, end)] *)
Definition slice {A} (xs : list A) (start end_ : Z) : list A :=
  let len := Z.of_nat (length xs) in
  let relative (i : Z) := if i <? 0 then Z.max (len + i) 0 else Z.min i len in
  let k := relative start in
  let final := relative end_ in
  firstn (Z.to_nat (final - k)) (skipn (Z.to_nat k) xs).

Module Repository.
(** [ExceptionGroupManagementRepository]: what each method resolves to, or
    the error it rejects with. *)
Record t (Severity : Type) := {
  findExceptionGroupByTypeAndEnvironment :
    string -> string -> Exception + option (ExceptionGroup.t Severity);
  logAnExceptionGroup :
    ExceptionGroup.t Severity -> Exception + ExceptionGroup.t Severity;
  findExceptionGroupsByEnvironmentId :
    string -> option PaginationFiltersDTO
    -> Exception + PaginatedData (ExceptionGroup.t Severity)
}.
Arguments findExceptionGroupByTypeAndEnvironment {Severity} _ _ _.
Arguments logAnExceptionGroup {Severity} _ _.
Arguments findExceptionGroupsByEnvironmentId {Severity} _ _ _.
End Repository.

(** The calls the service issues. *)
Inductive Call (Severity : Type) :=
| FindExceptionGroupByTypeAndEnvironment (exceptionGroupType environmentId : string)
| LogAnExceptionGroup (exceptionGroup : ExceptionGroup.t Severity)
| FindExceptionGroupsByEnvironmentId (environmentId : string)
                                     (pagination : option PaginationFiltersDTO)
| FindExceptionLogsByExceptionGroupId (exceptionGroupId : string).
Arguments FindExceptionGroupByTypeAndEnvironment {Severity} _ _.
Arguments LogAnExceptionGroup {Severity} _.
Arguments FindExceptionGroupsByEnvironmentId {Severity} _ _.
Arguments FindExceptionLogsByExceptionGroupId {Severity} _.

(** [new BadRequestException(error)], [new InternalServerErrorException(error)] *)
Inductive ServiceException :=
| BadRequestExceptionOf (error : Exception)
| InternalServerErrorExceptionOf (error : Exception).

Section Service.

Variable Severity : Type.
Variable CRITICAL : Severity.

(** [ExceptionLogDTO] and the two getters read when a record is logged. *)
Variable ExceptionLogDTO : Type.
Variables getExceptionType getEnvironmentId : ExceptionLogDTO -> string.

(** [new ExceptionGroupDTO(exceptionGroup)] *)
Variable newExceptionGroupDTO : ExceptionGroup.t Severity -> ExceptionGroupDTO.t Severity.

(** Whether the guard-validation error is a [BadRequestException]. *)
Variable guardFailureIsBadRequest : bool.

Variable repository : Repository.t Severity.

(** [exceptionManagementService.findExceptionLogsByExceptionGroupId], by
    the position of the call and the group's identifier. *)
Variable findExceptionLogsByExceptionGroupId :
  nat -> string -> Exception + PaginatedData ExceptionLogDTO.

(** What [findExceptionGroups] derives from a group's logs when there are
    some: it reads the clock and the locale, divides and rounds, and
    throws when the page holds no record.  By the position of the group. *)
Variable Summary : Type.
Variable summarise :
  nat -> ExceptionGroupDTO.t Severity -> PaginatedData ExceptionLogDTO
  -> Exception + Summary.

Definition instanceofBadRequestException (error : Exception) : bool :=
  match error with
  | BadRequestException _ => true
  | GuardValidationFailedException _ => guardFailureIsBadRequest
  | _ => false
  end.

(** The [catch] that closes [logAnExceptionGroup] and
    [updateExceptionCount]. *)
Definition rethrow {A} (error : Exception) : ServiceException + A :=
  if instanceofBadRequestException error
  then inl (BadRequestExceptionOf error)
  else inl (InternalServerErrorExceptionOf error).

(** [await repository.logAnExceptionGroup(group).catch(err => { throw err })],
    inside the method's [try]. *)
Definition save (exceptionGroup : ExceptionGroup.t Severity)
    : ServiceException + ExceptionGroupDTO.t Severity :=
  match Repository.logAnExceptionGroup repository exceptionGroup with
  | inl err => rethrow err
  | inr saved => inr (newExceptionGroupDTO saved)
  end.

(** [await repository.findExceptionGroupByTypeAndEnvironment(..).catch(err => log)]:
    a rejection is logged and the lookup resolves to [undefined]. *)
Definition existing (exceptionGroupType environmentId : string)
    : option (ExceptionGroup.t Severity) :=
  match Repository.findExceptionGroupByTypeAndEnvironment repository
          exceptionGroupType environmentId with
  | inr found => found
  | inl _ => None
  end.

Definition logAnExceptionGroup (exceptionLogDetails : ExceptionLogDTO) (isNewRecord : bool)
    : list (Call Severity) * (ServiceException + ExceptionGroupDTO.t Severity) :=
  let lookup :=
    FindExceptionGroupByTypeAndEnvironment (getExceptionType exceptionLogDetails)
                                           (getEnvironmentId exceptionLogDetails) in
  match existing (getExceptionType exceptionLogDetails)
                 (getEnvironmentId exceptionLogDetails) with
  | Some existingGroupedException =>
      let existingGroupedException :=
        if isNewRecord
        then ExceptionGroup.setExceptionCount existingGroupedException
               (ExceptionGroup.exceptionCount existingGroupedException + 1)%float
        else ExceptionGroup.setExceptionCount existingGroupedException
               (ExceptionGroup.exceptionCount existingGroupedException - 1)%float in
      ([lookup; LogAnExceptionGroup existingGroupedException],
       save existingGroupedException)
  | None =>
      let exceptionGroup :=
        {| ExceptionGroup.id := None;
           ExceptionGroup.exceptionGroupType := getExceptionType exceptionLogDetails;
           ExceptionGroup.exceptionCount := 1%float;
           ExceptionGroup.preferredSeverity := CRITICAL;
           ExceptionGroup.environmentId := getEnvironmentId exceptionLogDetails |} in
      ([lookup; LogAnExceptionGroup exceptionGroup], save exceptionGroup)
  end.

(** Resolves to [undefined] ([None]) when there is no group to update. *)
Definition updateExceptionCount (exceptionGroup environmentId : string) (count : float)
    : list (Call Severity) * (ServiceException + option (ExceptionGroupDTO.t Severity)) :=
  let lookup := FindExceptionGroupByTypeAndEnvironment exceptionGroup environmentId in
  match existing exceptionGroup environmentId with
  | Some existingGroupedException =>
      let existingGroupedException :=
        ExceptionGroup.setExceptionCount existingGroupedException
          (ExceptionGroup.exceptionCount existingGroupedException - count)%float in
      ([lookup; LogAnExceptionGroup existingGroupedException],
       match save existingGroupedException with
       | inl error => inl error
       | inr updatedExceptionGroup => inr (Some updatedExceptionGroup)
       end)
  | None => ([lookup], inr None)
  end.

Definition findExceptionGroupsByEnvironmentId (environmentId : string)
    (pagination : option PaginationFiltersDTO)
    : list (Call Severity) * (Exception + PaginatedData (ExceptionGroupDTO.t Severity)) :=
  ([FindExceptionGroupsByEnvironmentId environmentId pagination],
   match Repository.findExceptionGroupsByEnvironmentId repository environmentId
           pagination with
   | inl error => inl error
   | inr exceptionGroupRecords =>
       inr {| data := map newExceptionGroupDTO (data exceptionGroupRecords);
              totalCount := totalCount exceptionGroupRecords;
              pagination := ExceptionGroupManagementService.pagination
                              exceptionGroupRecords |}
   end).

Definition checkEmptyExceptionGroup (environmentId : string)
    (pagination : option PaginationFiltersDTO)
    : list (Call Severity) * (Exception + PaginatedData (ExceptionGroupDTO.t Severity)) :=
  match findExceptionGroupsByEnvironmentId environmentId pagination with
  | (calls, inl err) => (calls, inl err)
  | (calls, inr foundExceptionGroups) =>
      if totalCount foundExceptionGroups =? 0
      then (calls, inr {| data := []; totalCount := 0; pagination := pagination |})
      else (calls, inr foundExceptionGroups)
  end.

(** [Promise.allSettled] over the lookups started for the groups, one per
    group in their order: each group with what its lookup settled to. *)
Fixpoint settled (index : nat) (groups : list (ExceptionGroupDTO.t Severity))
    : list (ExceptionGroupDTO.t Severity * (Exception + PaginatedData ExceptionLogDTO)) :=
  match groups with
  | [] => []
  | eg :: rest =>
      (eg, findExceptionLogsByExceptionGroupId index (ExceptionGroupDTO.getId eg))
        :: settled (S index) rest
  end.

(** The response built for a group whose logs were fetched. *)
Definition exceptionGroupResponseDTO (index : nat)
    (foundExceptionGroupAtIndex : ExceptionGroupDTO.t Severity)
    (exceptionLogsByExceptionGroupId : PaginatedData ExceptionLogDTO)
    : Exception + ExceptionGroupResponseDTO.t Severity Summary :=
  let response reported :=
    {| ExceptionGroupResponseDTO.exceptionGroupId :=
         ExceptionGroupDTO.getId foundExceptionGroupAtIndex;
       ExceptionGroupResponseDTO.exceptionGroupType :=
         ExceptionGroupDTO.getExceptionGroupType foundExceptionGroupAtIndex;
       ExceptionGroupResponseDTO.exceptionCount :=
         ExceptionGroupDTO.getExceptionCount foundExceptionGroupAtIndex;
       ExceptionGroupResponseDTO.preferredSeverity :=
         ExceptionGroupDTO.getPreferredSeverity foundExceptionGroupAtIndex;
       ExceptionGroupResponseDTO.reported := reported |} in
  if totalCount exceptionLogsByExceptionGroupId =? 0
  then inr (response None)
  else
    match summarise index foundExceptionGroupAtIndex exceptionLogsByExceptionGroupId with
    | inl error => inl error
    | inr summary => inr (response (Some summary))
    end.

(** The loop over the settled lookups: a rejected one is skipped; a
    fulfilled one appends its response, and the list is sliced to the
    page at once, inside the loop. *)
Fixpoint collect (pagination : option PaginationFiltersDTO) (index : nat)
    (exceptionGroupResults :
       list (ExceptionGroupDTO.t Severity * (Exception + PaginatedData ExceptionLogDTO)))
    (exceptionGroupResponse_ : list (ExceptionGroupResponseDTO.t Severity Summary))
    : Exception + list (ExceptionGroupResponseDTO.t Severity Summary) :=
  match exceptionGroupResults with
  | [] => inr exceptionGroupResponse_
  | (_, inl _) :: rest => collect pagination (S index) rest exceptionGroupResponse_
  | (foundExceptionGroupAtIndex, inr exceptionLogsByExceptionGroupId) :: rest =>
      match exceptionGroupResponseDTO index foundExceptionGroupAtIndex
              exceptionLogsByExceptionGroupId with
      | inl error => inl error
      | inr response =>
          match pagination with
          | None => inl (TypeError "Cannot read properties of undefined (reading 'skip')")
          | Some p =>
              collect pagination (S index) rest
                (slice (exceptionGroupResponse_ ++ [response]) (skip p) (skip p + take p))
          end
      end
  end.

Definition findExceptionGroups (environmentId : string)
    (pagination : option PaginationFiltersDTO)
    : list (Call Severity)
      * (Exception + PaginatedData (ExceptionGroupResponseDTO.t Severity Summary)) :=
  match checkEmptyExceptionGroup environmentId pagination with
  | (calls, inl err) => (calls, inl err)
  | (calls, inr foundExceptionGroups) =>
      ((calls
        ++ map (fun eg => FindExceptionLogsByExceptionGroupId (ExceptionGroupDTO.getId eg))
               (data foundExceptionGroups))%list,
       match collect pagination 0 (settled 0 (data foundExceptionGroups)) [] with
       | inl error => inl error
       | inr exceptionGroupResponse_ =>
           inr {| data := exceptionGroupResponse_;
                  totalCount := totalCount foundExceptionGroups;
                  pagination := pagination |}
       end)
  end.

(** The responses of the groups whose logs were fetched, in the order of
    the groups, without the slicing: what [collect] appends. *)
Fixpoint fetched (index : nat)
    (exceptionGroupResults :
       list (ExceptionGroupDTO.t Severity * (Exception + PaginatedData ExceptionLogDTO)))
    : Exception + list (ExceptionGroupResponseDTO.t Severity Summary) :=
  match exceptionGroupResults with
  | [] => inr []
  | (_, inl _) :: rest => fetched (S index) rest
  | (group, inr logs) :: rest =>
      match exceptionGroupResponseDTO index group logs with
      | inl error => inl error
      | inr response =>
          match fetched (S index) rest with
          | inl error => inl error
          | inr responses => inr (response :: responses)
          end
      end
  end.

End Service.

Arguments instanceofBadRequestException guardFailureIsBadRequest error : assert.
Arguments rethrow guardFailureIsBadRequest {A} error.
Arguments save {Severity} newExceptionGroupDTO guardFailureIsBadRequest repository
  exceptionGroup.
Arguments existing {Severity} repository exceptionGroupType environmentId.
Arguments logAnExceptionGroup {Severity} CRITICAL {ExceptionLogDTO} getExceptionType
  getEnvironmentId newExceptionGroupDTO guardFailureIsBadRequest repository
  exceptionLogDetails isNewRecord.
Arguments updateExceptionCount {Severity} newExceptionGroupDTO guardFailureIsBadRequest
  repository exceptionGroup environmentId count.
Arguments findExceptionGroupsByEnvironmentId {Severity} newExceptionGroupDTO repository
  environmentId pagination.
Arguments checkEmptyExceptionGroup {Severity} newExceptionGroupDTO repository
  environmentId pagination.
Arguments settled {Severity ExceptionLogDTO} findExceptionLogsByExceptionGroupId index
  groups.
Arguments exceptionGroupResponseDTO {Severity ExceptionLogDTO Summary} summarise index
  foundExceptionGroupAtIndex exceptionLogsByExceptionGroupId.
Arguments collect {Severity ExceptionLogDTO Summary} summarise pagination index
  exceptionGroupResults exceptionGroupResponse_.
Arguments findExceptionGroups {Severity ExceptionLogDTO} newExceptionGroupDTO repository
  findExceptionLogsByExceptionGroupId {Summary} summarise environmentId pagination.
Arguments fetched {Severity ExceptionLogDTO Summary} summarise index
  exceptionGroupResults.

End ExceptionGroupManagementService.

(** * Properties of the exception-group service *)

Module Groups := ExceptionGroupManagementService.

(** ** Slicing inside the loop *)

Lemma slice_past_single {A} (x : A) (start end_ : Z) :
  0 < start -> Groups.slice [x] start end_ = [].
Proof.
  intros Hstart. unfold Groups.slice. cbn [length].
  replace (start <? 0) with false by (symmetry; apply Z.ltb_ge; lia).
  replace (Z.min start (Z.of_nat 1)) with 1 by lia.
  cbn [Z.to_nat Pos.to_nat Pos.iter_op Nat.add skipn].
  apply firstn_nil.
Qed.

Lemma firstn_firstn_app {A} (n : nat) (xs : list A) (x : A) :
  firstn n (firstn n xs ++ [x]) = firstn n (xs ++ [x]).
Proof.
  destruct (Nat.le_gt_cases n (length xs)) as [Hle | Hgt].
  - rewrite !firstn_app, firstn_firstn, Nat.min_id.
    rewrite (firstn_length_le xs Hle).
    replace (n - n)%nat with 0%nat by lia.
    replace (n - length xs)%nat with 0%nat by lia.
    reflexivity.
  - now rewrite (firstn_all2 xs) by lia.
Qed.

Lemma slice_from_start {A} (xs : list A) (x : A) (take : Z) :
  0 <= take ->
  Groups.slice (firstn (Z.to_nat take) xs ++ [x]) 0 (0 + take)
  = firstn (Z.to_nat take) (xs ++ [x]).
Proof.
  intros Htake. unfold Groups.slice.
  set (page := (firstn (Z.to_nat take) xs ++ [x])%list).
  cbn [Z.ltb Z.compare Z.add].
  replace (take <? 0) with false by (symmetry; apply Z.ltb_ge; lia).
  replace (Z.min 0 (Z.of_nat (length page))) with 0 by lia.
  rewrite Z.sub_0_r. cbn [Z.to_nat skipn].
  destruct (Z.le_gt_cases take (Z.of_nat (length page))) as [Hle | Hgt].
  - rewrite Z.min_l by lia. apply firstn_firstn_app.
  - rewrite Z.min_r by lia. rewrite Nat2Z.id, firstn_all.
    rewrite <- firstn_firstn_app. fold page.
    symmetry. apply firstn_all2. lia.
Qed.

Section ExceptionGroups.

Variable Severity : Type.
Variable CRITICAL : Severity.
Variable ExceptionLogDTO : Type.
Variables getExceptionType getEnvironmentId : ExceptionLogDTO -> string.
Variable newExceptionGroupDTO :
  Groups.ExceptionGroup.t Severity -> Groups.ExceptionGroupDTO.t Severity.
Variable guardFailureIsBadRequest : bool.
Variable findExceptionLogsByExceptionGroupId :
  nat -> string -> Exception + Groups.PaginatedData ExceptionLogDTO.
Variable Summary : Type.
Variable summarise :
  nat -> Groups.ExceptionGroupDTO.t Severity -> Groups.PaginatedData ExceptionLogDTO
  -> Exception + Summary.

Let logAnExceptionGroup :=
  Groups.logAnExceptionGroup CRITICAL getExceptionType getEnvironmentId
    newExceptionGroupDTO guardFailureIsBadRequest.
Let updateExceptionCount :=
  Groups.updateExceptionCount newExceptionGroupDTO guardFailureIsBadRequest.
Let findExceptionGroups repository :=
  Groups.findExceptionGroups newExceptionGroupDTO repository
    findExceptionLogsByExceptionGroupId summarise.
Let lookup (exceptionLogDetails : ExceptionLogDTO) : Groups.Call Severity :=
  Groups.FindExceptionGroupByTypeAndEnvironment (getExceptionType exceptionLogDetails)
    (getEnvironmentId exceptionLogDetails).
Let found (repository : Groups.Repository.t Severity)
    (exceptionLogDetails : ExceptionLogDTO) :=
  Groups.Repository.findExceptionGroupByTypeAndEnvironment repository
    (getExceptionType exceptionLogDetails) (getEnvironmentId exceptionLogDetails).

(** The page the loop of [findExceptionGroups] leaves of the responses. *)
Let paged (p : Groups.PaginationFiltersDTO)
    (responses : list (Groups.ExceptionGroupResponseDTO.t Severity Summary)) :=
  if 0 <? Groups.skip p then [] else firstn (Z.to_nat (Groups.take p)) responses.

Lemma collect_paged (p : Groups.PaginationFiltersDTO) :
  0 <= Groups.skip p -> 0 <= Groups.take p ->
  forall results index responses,
    Groups.collect summarise (Some p) index results (paged p responses)
    = match Groups.fetched summarise index results with
      | inl error => inl error
      | inr rest => inr (paged p (responses ++ rest)%list)
      end.
Proof.
  intros Hskip Htake results.
  induction results as [| [group [error | logs]] results IH]; intros index responses.
  - cbn. now rewrite app_nil_r.
  - cbn. apply IH.
  - cbn.
    destruct (Groups.exceptionGroupResponseDTO summarise index group logs)
      as [error | response]; [reflexivity |].
    replace (Groups.slice (paged p responses ++ [response]) (Groups.skip p)
               (Groups.skip p + Groups.take p))
      with (paged p (responses ++ [response])%list).
    + rewrite IH.
      destruct (Groups.fetched summarise (S index) results) as [error | rest];
        [reflexivity |].
      now rewrite <- app_assoc.
    + unfold paged. destruct (0 <? Groups.skip p) eqn:Hpast.
      * apply Z.ltb_lt in Hpast. symmetry. now apply slice_past_single.
      * apply Z.ltb_ge in Hpast.
        replace (Groups.skip p) with 0 by lia.
        symmetry. now apply slice_from_start.
Qed.

Lemma collect_unpaged results :
  forall index responses,
    match Groups.collect summarise None index results responses with
    | inr collected =>
        collected = responses
        /\ Forall (fun settled => exists error, snd settled = inl error) results
    | inl _ => Exists (fun settled => exists logs, snd settled = inr logs) results
    end.
Proof.
  induction results as [| [group [error | logs]] results IH]; intros index responses.
  - cbn. split; [reflexivity | constructor].
  - cbn. specialize (IH (S index) responses).
    destruct (Groups.collect summarise None (S index) results responses).
    + now apply Exists_cons_tl.
    + destruct IH as [-> Hall]. split; [reflexivity |].
      constructor; [cbn; eauto | exact Hall].
  - cbn.
    destruct (Groups.exceptionGroupResponseDTO summarise index group logs);
      apply Exists_cons_hd; cbn; eauto.
Qed.

(** X15: a group that is not found is created by [logAnExceptionGroup]
    and left alone by [updateExceptionCount].  When the lookup fails or
    finds nothing, [logAnExceptionGroup] saves a new group of the record's
    type and environment with count 1 and severity [CRITICAL], also when
    the call reports the removal of a record ([isNewRecord] false);
    [updateExceptionCount], whatever the count, saves nothing and resolves
    to [undefined]. *)
Theorem unfound_exception_group_is_created_not_updated
    (repository : Groups.Repository.t Severity)
    (exceptionLogDetails : ExceptionLogDTO) (isNewRecord : bool) (count : float) :
  (exists error, found repository exceptionLogDetails = inl error)
  \/ found repository exceptionLogDetails = inr None ->
  fst (logAnExceptionGroup repository exceptionLogDetails isNewRecord)
  = [ lookup exceptionLogDetails;
      Groups.LogAnExceptionGroup
        {| Groups.ExceptionGroup.id := None;
           Groups.ExceptionGroup.exceptionGroupType :=
             getExceptionType exceptionLogDetails;
           Groups.ExceptionGroup.exceptionCount := 1%float;
           Groups.ExceptionGroup.preferredSeverity := CRITICAL;
           Groups.ExceptionGroup.environmentId :=
             getEnvironmentId exceptionLogDetails |} ]
  /\ updateExceptionCount repository (getExceptionType exceptionLogDetails)
       (getEnvironmentId exceptionLogDetails) count
     = ([lookup exceptionLogDetails], inr None).
Proof.
  unfold found, logAnExceptionGroup, updateExceptionCount,
    Groups.logAnExceptionGroup, Groups.updateExceptionCount, Groups.existing.
  intros [[error ->] | ->]; split; reflexivity.
Qed.

(** X16: every call of [logAnExceptionGroup] issues one lookup and then
    one save.  A failure of the lookup never reaches the caller; the call
    resolves exactly when the save does, and a failure of the save is
    rethrown wrapped, as a bad request when it is one and as an internal
    server error otherwise. *)
Theorem exception_group_is_saved_once
    (repository : Groups.Repository.t Severity)
    (exceptionLogDetails : ExceptionLogDTO) (isNewRecord : bool) :
  exists exceptionGroup,
    fst (logAnExceptionGroup repository exceptionLogDetails isNewRecord)
    = [lookup exceptionLogDetails; Groups.LogAnExceptionGroup exceptionGroup]
    /\ snd (logAnExceptionGroup repository exceptionLogDetails isNewRecord)
       = match Groups.Repository.logAnExceptionGroup repository exceptionGroup with
         | inr saved => inr (newExceptionGroupDTO saved)
         | inl error =>
             inl (if Groups.instanceofBadRequestException guardFailureIsBadRequest error
                  then Groups.BadRequestExceptionOf error
                  else Groups.InternalServerErrorExceptionOf error)
         end.
Proof.
  unfold logAnExceptionGroup, Groups.logAnExceptionGroup.
  destruct (Groups.existing repository _ _) as [existing |];
    eexists; (split; [reflexivity |]); cbn [snd];
    unfold Groups.save, Groups.rethrow;
    destruct (Groups.Repository.logAnExceptionGroup repository _) as [error | saved];
    try reflexivity;
    now destruct (Groups.instanceofBadRequestException _ error).
Qed.

(** X17: for a group that exists, reporting the removal of one record
    through [logAnExceptionGroup] is [updateExceptionCount] by one: the
    same calls, the same outcome. *)
Theorem removing_a_record_is_updating_by_one
    (repository : Groups.Repository.t Severity)
    (exceptionLogDetails : ExceptionLogDTO)
    (existing : Groups.ExceptionGroup.t Severity) :
  found repository exceptionLogDetails = inr (Some existing) ->
  fst (updateExceptionCount repository (getExceptionType exceptionLogDetails)
         (getEnvironmentId exceptionLogDetails) 1%float)
  = fst (logAnExceptionGroup repository exceptionLogDetails false)
  /\ snd (updateExceptionCount repository (getExceptionType exceptionLogDetails)
            (getEnvironmentId exceptionLogDetails) 1%float)
     = match snd (logAnExceptionGroup repository exceptionLogDetails false) with
       | inl error => inl error
       | inr updated => inr (Some updated)
       end.
Proof.
  unfold found, updateExceptionCount, logAnExceptionGroup,
    Groups.updateExceptionCount, Groups.logAnExceptionGroup, Groups.existing.
  intros ->. split; reflexivity.
Qed.

(** X19: [findExceptionGroups] slices inside its loop.  With pagination
    bounds that are not negative, it returns the responses of the groups
    whose logs were fetched cut to the first [take] when [skip] is zero,
    and no response at all when [skip] is positive; the total is the
    repository's, rejected lookups included.  It rejects exactly when the
    repository's lookup or the summary of some fetched group does. *)
Theorem exception_groups_are_sliced_in_the_loop
    (repository : Groups.Repository.t Severity) (environmentId : string)
    (p : Groups.PaginationFiltersDTO) :
  0 <= Groups.skip p -> 0 <= Groups.take p ->
  snd (findExceptionGroups repository environmentId (Some p))
  = match snd (Groups.checkEmptyExceptionGroup newExceptionGroupDTO repository
                 environmentId (Some p)) with
    | inl error => inl error
    | inr foundExceptionGroups =>
        match Groups.fetched summarise 0
                (Groups.settled findExceptionLogsByExceptionGroupId 0
                   (Groups.data foundExceptionGroups)) with
        | inl error => inl error
        | inr responses =>
            inr {| Groups.data :=
                     if 0 <? Groups.skip p then []
                     else firstn (Z.to_nat (Groups.take p)) responses;
                   Groups.totalCount := Groups.totalCount foundExceptionGroups;
                   Groups.pagination := Some p |}
        end
    end.
Proof.
  intros Hskip Htake. unfold findExceptionGroups, Groups.findExceptionGroups.
  destruct (Groups.checkEmptyExceptionGroup newExceptionGroupDTO repository
              environmentId (Some p)) as [calls [error | foundExceptionGroups]];
    [reflexivity |].
  cbn [snd].
  pose proof (collect_paged p Hskip Htake
                (Groups.settled findExceptionLogsByExceptionGroupId 0
                   (Groups.data foundExceptionGroups)) 0%nat []) as Hcollect.
  unfold paged in Hcollect at 1.
  replace (if 0 <? Groups.skip p then [] else firstn (Z.to_nat (Groups.take p)) [])
    with (@nil (Groups.ExceptionGroupResponseDTO.t Severity Summary)) in Hcollect
    by (destruct (0 <? Groups.skip p); [reflexivity | now rewrite firstn_nil]).
  rewrite Hcollect.
  destruct (Groups.fetched summarise 0 _) as [error | responses]; reflexivity.
Qed.

(** X20: a total of zero hides the groups: when the repository reports
    no group for the environment, [findExceptionGroups] returns the empty
    page with total zero and fetches no logs, whatever records the
    repository's page holds and with or without pagination filters; and
    when the repository's lookup fails, it rejects with that error and
    fetches no logs. *)
Theorem no_exception_group_no_log_lookup
    (repository : Groups.Repository.t Severity) (environmentId : string)
    (pagination : option Groups.PaginationFiltersDTO) :
  (forall records,
     Groups.Repository.findExceptionGroupsByEnvironmentId repository environmentId
       pagination = inr records ->
     Groups.totalCount records = 0 ->
     findExceptionGroups repository environmentId pagination
     = ([Groups.FindExceptionGroupsByEnvironmentId environmentId pagination],
        inr {| Groups.data := []; Groups.totalCount := 0;
               Groups.pagination := pagination |}))
  /\ (forall error,
        Groups.Repository.findExceptionGroupsByEnvironmentId repository environmentId
          pagination = inl error ->
        findExceptionGroups repository environmentId pagination
        = ([Groups.FindExceptionGroupsByEnvironmentId environmentId pagination],
           inl error)).
Proof.
  unfold findExceptionGroups, Groups.findExceptionGroups,
    Groups.checkEmptyExceptionGroup, Groups.findExceptionGroupsByEnvironmentId.
  split.
  - intros records -> Hcount. cbn [Groups.totalCount]. rewrite Hcount. reflexivity.
  - intros error ->. reflexivity.
Qed.

(** X21: without pagination filters [findExceptionGroups] returns no
    group: it resolves only when the logs of no group could be fetched,
    with an empty page, and rejects as soon as the logs of one group are
    fetched. *)
Theorem unpaginated_exception_groups_are_never_returned
    (repository : Groups.Repository.t Severity) (environmentId : string) :
  match snd (findExceptionGroups repository environmentId None) with
  | inr page =>
      Groups.data page = []
      /\ exists foundExceptionGroups,
           snd (Groups.checkEmptyExceptionGroup newExceptionGroupDTO repository
                  environmentId None) = inr foundExceptionGroups
           /\ Forall (fun settled => exists error, snd settled = inl error)
                (Groups.settled findExceptionLogsByExceptionGroupId 0
                   (Groups.data foundExceptionGroups))
  | inl error =>
      snd (Groups.checkEmptyExceptionGroup newExceptionGroupDTO repository
             environmentId None) = inl error
      \/ exists foundExceptionGroups,
           snd (Groups.checkEmptyExceptionGroup newExceptionGroupDTO repository
                  environmentId None) = inr foundExceptionGroups
           /\ Exists (fun settled => exists logs, snd settled = inr logs)
                (Groups.settled findExceptionLogsByExceptionGroupId 0
                   (Groups.data foundExceptionGroups))
  end.
Proof.
  unfold findExceptionGroups, Groups.findExceptionGroups.
  destruct (Groups.checkEmptyExceptionGroup newExceptionGroupDTO repository
              environmentId None) as [calls [error | foundExceptionGroups]].
  - cbn. now left.
  - cbn [snd].
    pose proof (collect_unpaged
                  (Groups.settled findExceptionLogsByExceptionGroupId 0
                     (Groups.data foundExceptionGroups)) 0%nat []) as Hcollect.
    destruct (Groups.collect summarise None 0 _ []) as [error | collected].
    + right. eauto.
    + destruct Hcollect as [-> Hall]. cbn. eauto.
Qed.

End ExceptionGroups.

(** ** An environment with three exception groups *)

Module Incident.
Inductive Severity := CRITICAL | MINOR.

Record ExceptionLog := { exceptionType : string; environment : string }.

Definition timeout : ExceptionLog :=
  {| exceptionType := "TimeoutError"; environment := Example.environmentId |}.

Definition group (id : string) (count : float) : Groups.ExceptionGroup.t Severity :=
  {| Groups.ExceptionGroup.id := Some id;
     Groups.ExceptionGroup.exceptionGroupType := "TimeoutError";
     Groups.ExceptionGroup.exceptionCount := count;
     Groups.ExceptionGroup.preferredSeverity := MINOR;
     Groups.ExceptionGroup.environmentId := Example.environmentId |}.

Definition newExceptionGroupDTO (exceptionGroup : Groups.ExceptionGroup.t Severity)
    : Groups.ExceptionGroupDTO.t Severity :=
  {| Groups.ExceptionGroupDTO.getId :=
       match Groups.ExceptionGroup.id exceptionGroup with
       | Some id => id
       | None => "unsaved"
       end;
     Groups.ExceptionGroupDTO.getExceptionGroupType :=
       Groups.ExceptionGroup.exceptionGroupType exceptionGroup;
     Groups.ExceptionGroupDTO.getExceptionCount :=
       Groups.ExceptionGroup.exceptionCount exceptionGroup;
     Groups.ExceptionGroupDTO.getPreferredSeverity :=
       Groups.ExceptionGroup.preferredSeverity exceptionGroup |}.

(** A repository that answers the two lookups as given and saves what it
    is handed. *)
Definition repository
    (found : Exception + option (Groups.ExceptionGroup.t Severity))
    (groups : Exception + Groups.PaginatedData (Groups.ExceptionGroup.t Severity))
    : Groups.Repository.t Severity :=
  {| Groups.Repository.findExceptionGroupByTypeAndEnvironment := fun _ _ => found;
     Groups.Repository.logAnExceptionGroup := fun exceptionGroup => inr exceptionGroup;
     Groups.Repository.findExceptionGroupsByEnvironmentId := fun _ _ => groups |}.

Definition three (pagination : option Groups.PaginationFiltersDTO)
    : Groups.PaginatedData (Groups.ExceptionGroup.t Severity) :=
  {| Groups.data := [group "group-1" 4%float; group "group-2" 2%float; group "group-3" 7%float];
     Groups.totalCount := 3;
     Groups.pagination := pagination |}.

(** The logs of the second group cannot be fetched. *)
Definition findExceptionLogsByExceptionGroupId (index : nat) (id : string)
    : Exception + Groups.PaginatedData ExceptionLog :=
  match index with
  | 1%nat => inl (ServiceError "connection refused")
  | _ => inr {| Groups.data := [timeout]; Groups.totalCount := 1;
                Groups.pagination := None |}
  end.

(** A summary that counts the logs. *)
Definition summarise (index : nat) (exceptionGroup : Groups.ExceptionGroupDTO.t Severity)
    (logs : Groups.PaginatedData ExceptionLog) : Exception + nat :=
  inr (length (Groups.data logs)).

Definition logAnExceptionGroup :=
  Groups.logAnExceptionGroup CRITICAL exceptionType environment newExceptionGroupDTO
    false.

Definition updateExceptionCount :=
  Groups.updateExceptionCount newExceptionGroupDTO false.

Definition findExceptionGroups repository :=
  Groups.findExceptionGroups newExceptionGroupDTO repository
    findExceptionLogsByExceptionGroupId summarise.
End Incident.

Lemma unfound_exception_group_is_created_not_updated_witness :
  fst (Incident.logAnExceptionGroup
         (Incident.repository (inl (ServiceError "connection refused"))
                              (inr (Incident.three None)))
         Incident.timeout false)
  = [ Groups.FindExceptionGroupByTypeAndEnvironment "TimeoutError" Example.environmentId;
      Groups.LogAnExceptionGroup
        {| Groups.ExceptionGroup.id := None;
           Groups.ExceptionGroup.exceptionGroupType := "TimeoutError";
           Groups.ExceptionGroup.exceptionCount := 1%float;
           Groups.ExceptionGroup.preferredSeverity := Incident.CRITICAL;
           Groups.ExceptionGroup.environmentId := Example.environmentId |} ]
  /\ Incident.updateExceptionCount
       (Incident.repository (inl (ServiceError "connection refused"))
                            (inr (Incident.three None)))
       "TimeoutError" Example.environmentId 1%float
     = ([Groups.FindExceptionGroupByTypeAndEnvironment "TimeoutError"
           Example.environmentId],
        inr None).
Proof.
  apply (unfound_exception_group_is_created_not_updated Incident.Severity
           Incident.CRITICAL Incident.ExceptionLog Incident.exceptionType
           Incident.environment Incident.newExceptionGroupDTO false
           (Incident.repository (inl (ServiceError "connection refused"))
                                (inr (Incident.three None)))
           Incident.timeout false 1%float).
  left. eexists. reflexivity.
Defined.

Lemma removing_a_record_is_updating_by_one_witness :
  fst (Incident.updateExceptionCount
         (Incident.repository (inr (Some (Incident.group "group-1" 4%float)))
                              (inr (Incident.three None)))
         "TimeoutError" Example.environmentId 1)
  = fst (Incident.logAnExceptionGroup
           (Incident.repository (inr (Some (Incident.group "group-1" 4%float)))
                                (inr (Incident.three None)))
           Incident.timeout false)
  /\ snd (Incident.updateExceptionCount
            (Incident.repository (inr (Some (Incident.group "group-1" 4%float)))
                                 (inr (Incident.three None)))
            "TimeoutError" Example.environmentId 1)
     = match snd (Incident.logAnExceptionGroup
                    (Incident.repository (inr (Some (Incident.group "group-1" 4%float)))
                                         (inr (Incident.three None)))
                    Incident.timeout false) with
       | inl error => inl error
       | inr updated => inr (Some updated)
       end.
Proof.
  apply (removing_a_record_is_updating_by_one Incident.Severity Incident.CRITICAL
           Incident.ExceptionLog Incident.exceptionType Incident.environment
           Incident.newExceptionGroupDTO false
           (Incident.repository (inr (Some (Incident.group "group-1" 4%float)))
                                (inr (Incident.three None)))
           Incident.timeout (Incident.group "group-1" 4%float)).
  reflexivity.
Defined.

Lemma exception_groups_are_sliced_in_the_loop_witness :
  snd (Incident.findExceptionGroups
         (Incident.repository (inr None)
            (inr (Incident.three (Some {| Groups.skip := 1; Groups.take := 2 |}))))
         Example.environmentId (Some {| Groups.skip := 1; Groups.take := 2 |}))
  = inr {| Groups.data := [];
           Groups.totalCount := 3;
           Groups.pagination := Some {| Groups.skip := 1; Groups.take := 2 |} |}
  /\ snd (Incident.findExceptionGroups
            (Incident.repository (inr None)
               (inr (Incident.three (Some {| Groups.skip := 0; Groups.take := 1 |}))))
            Example.environmentId (Some {| Groups.skip := 0; Groups.take := 1 |}))
     = inr {| Groups.data :=
                [ {| Groups.ExceptionGroupResponseDTO.exceptionGroupId := "group-1";
                     Groups.ExceptionGroupResponseDTO.exceptionGroupType :=
                       "TimeoutError";
                     Groups.ExceptionGroupResponseDTO.exceptionCount := 4%float;
                     Groups.ExceptionGroupResponseDTO.preferredSeverity :=
                       Incident.MINOR;
                     Groups.ExceptionGroupResponseDTO.reported := Some 1%nat |} ];
              Groups.totalCount := 3;
              Groups.pagination := Some {| Groups.skip := 0; Groups.take := 1 |} |}.
Proof.
  split.
  - exact (exception_groups_are_sliced_in_the_loop Incident.Severity
             Incident.ExceptionLog Incident.newExceptionGroupDTO
             Incident.findExceptionLogsByExceptionGroupId nat Incident.summarise
             (Incident.repository (inr None)
                (inr (Incident.three (Some {| Groups.skip := 1; Groups.take := 2 |}))))
             Example.environmentId {| Groups.skip := 1; Groups.take := 2 |}
             ltac:(cbn; lia) ltac:(cbn; lia)).
  - exact (exception_groups_are_sliced_in_the_loop Incident.Severity
             Incident.ExceptionLog Incident.newExceptionGroupDTO
             Incident.findExceptionLogsByExceptionGroupId nat Incident.summarise
             (Incident.repository (inr None)
                (inr (Incident.three (Some {| Groups.skip := 0; Groups.take := 1 |}))))
             Example.environmentId {| Groups.skip := 0; Groups.take := 1 |}
             ltac:(cbn; lia) ltac:(cbn; lia)).
Defined.

Lemma no_exception_group_no_log_lookup_witness :
  Incident.findExceptionGroups
    (Incident.repository (inr None)
       (inr {| Groups.data := [Incident.group "group-1" 4%float];
               Groups.totalCount := 0;
               Groups.pagination := None |}))
    Example.environmentId None
  = ([Groups.FindExceptionGroupsByEnvironmentId Example.environmentId None],
     inr {| Groups.data := []; Groups.totalCount := 0; Groups.pagination := None |})
  /\ Incident.findExceptionGroups
       (Incident.repository (inr None) (inl (ServiceError "connection refused")))
       Example.environmentId None
     = ([Groups.FindExceptionGroupsByEnvironmentId Example.environmentId None],
        inl (ServiceError "connection refused")).
Proof.
  split.
  - exact (proj1
             (no_exception_group_no_log_lookup Incident.Severity Incident.ExceptionLog
                Incident.newExceptionGroupDTO
                Incident.findExceptionLogsByExceptionGroupId nat Incident.summarise
                (Incident.repository (inr None)
                   (inr {| Groups.data := [Incident.group "group-1" 4%float];
                           Groups.totalCount := 0;
                           Groups.pagination := None |}))
                Example.environmentId None)
             _ eq_refl eq_refl).
  - exact (proj2
             (no_exception_group_no_log_lookup Incident.Severity Incident.ExceptionLog
                Incident.newExceptionGroupDTO
                Incident.findExceptionLogsByExceptionGroupId nat Incident.summarise
                (Incident.repository (inr None)
                   (inl (ServiceError "connection refused")))
                Example.environmentId None)
             _ eq_refl).
Defined.
